(** * SkillSync: ingestion recorder, analytics aggregator and alert generator

    A shallow embedding of the analytics pipeline of [server.js]:
    [storeToDatabase], [updateSkillAnalytics], [updateTrends],
    [getWeekNumber], the [/api/analyze] and [/api/analytics] handlers,
    [generateEnhancedAlerts] and [getMockAnalytics]; then the accounts
    ([authenticateToken], [requireAdmin], registration and login), the
    export with [convertToCSV], the filter options, the readiness of a
    company, and what the two pages compute from a snapshot
    ([updateActivity], [getTimeAgo], [updateScoreDescription]).

    The SQLite tables are lists of rows in rowid order, every prepared
    statement is a function on them, and a statement that throws is an
    input of the model.  JavaScript numbers are IEEE-754 doubles, modelled
    as the rationals they denote with round-to-nearest-even written out. *)

From Stdlib Require Import ZArith QArith Qround Qpower Lia Lqa String Ascii.
From Stdlib Require OrdersEx.
From stdpp Require Import base option list sorting strings pretty.

Open Scope Z_scope.
Open Scope string_scope.

(* ===================================================================== *)
(** * JavaScript numbers                                                  *)
(* ===================================================================== *)

(** A double is NaN, an infinity or a finite value; a finite value is kept
    as the rational it denotes (signed zeros are not distinguished). *)
Inductive number := NaN | PInf | NInf | Fin (q : Q).

(** [ilog2 q] is the binary exponent of a positive rational:
    [2 ^ ilog2 q <= q < 2 ^ (ilog2 q + 1)]. *)
Definition ilog2 (q : Q) : Z :=
  let k := Z.log2 (Qnum q) - Z.log2 (Zpos (Qden q)) in
  if Qle_bool (2 ^ k) q then k else k - 1.

(** Nearest integer, ties to even. *)
Definition rne (q : Q) : Z :=
  let f := Qfloor q in
  match (q - inject_Z f ?= 1 # 2)%Q with
  | Lt => f
  | Gt => f + 1
  | Eq => if Z.even f then f else f + 1
  end.

(** binary64 rounding of a positive rational: 53 significant bits, the
    exponent clamped at the subnormal range. *)
Definition round_pos (q : Q) : Q :=
  let e := Z.max (ilog2 q - 52) (-1074) in
  Qred (inject_Z (rne (q / 2 ^ e)) * 2 ^ e).

Definition flq (q : Q) : Q :=
  match Qnum q with
  | Z0 => 0%Q
  | Zpos _ => round_pos q
  | Zneg _ => (- round_pos (- q))%Q
  end.

(** The double nearest to a real result, overflowing to an infinity. *)
Definition fl (q : Q) : number :=
  let r := flq q in
  if Qle_bool (2 ^ 1024) r then PInf
  else if Qle_bool r (- 2 ^ 1024) then NInf
  else Fin r.

Definition Qlt_bool (a b : Q) : bool := negb (Qle_bool b a).

Definition js_neg (x : number) : number :=
  match x with
  | NaN => NaN | PInf => NInf | NInf => PInf | Fin q => Fin (- q)
  end.

(** [x + y] *)
Definition js_add (x y : number) : number :=
  match x, y with
  | NaN, _ | _, NaN => NaN
  | PInf, NInf | NInf, PInf => NaN
  | PInf, _ | _, PInf => PInf
  | NInf, _ | _, NInf => NInf
  | Fin a, Fin b => fl (a + b)
  end.

(** An infinity times [y]. *)
Definition inf_times (inf : number) (b : Q) : number :=
  if Qeq_bool b 0 then NaN else if Qlt_bool 0 b then inf else js_neg inf.

(** [x * y] *)
Definition js_mul (x y : number) : number :=
  match x, y with
  | NaN, _ | _, NaN => NaN
  | Fin a, Fin b => fl (a * b)
  | Fin a, PInf => inf_times PInf a
  | Fin a, NInf => inf_times NInf a
  | PInf, Fin b => inf_times PInf b
  | NInf, Fin b => inf_times NInf b
  | PInf, PInf | NInf, NInf => PInf
  | PInf, NInf | NInf, PInf => NInf
  end.

(** [x / y]: a zero divisor gives NaN for [0 / 0] and an infinity
    otherwise; nothing throws. *)
Definition js_div (x y : number) : number :=
  match x, y with
  | NaN, _ | _, NaN => NaN
  | Fin a, Fin b =>
      if Qeq_bool b 0 then
        if Qeq_bool a 0 then NaN else if Qlt_bool 0 a then PInf else NInf
      else fl (a / b)
  | Fin _, _ => Fin 0
  | PInf, Fin b => if Qle_bool 0 b then PInf else NInf
  | NInf, Fin b => if Qle_bool 0 b then NInf else PInf
  | _, _ => NaN
  end.

(** [x < y]; every comparison with NaN is false. *)
Definition js_lt (x y : number) : bool :=
  match x, y with
  | NaN, _ | _, NaN => false
  | _, NInf | PInf, _ => false
  | NInf, _ | _, PInf => true
  | Fin a, Fin b => Qlt_bool a b
  end.

Definition js_gt (x y : number) : bool := js_lt y x.

(** [x >= y] *)
Definition js_ge (x y : number) : bool :=
  match x, y with
  | NaN, _ | _, NaN => false
  | PInf, _ | _, NInf => true
  | _, PInf | NInf, _ => false
  | Fin a, Fin b => Qle_bool b a
  end.

(** [Math.round]: the nearest integer, a tie going towards +Infinity. *)
Definition Math_round (x : number) : number :=
  match x with
  | Fin q => Fin (inject_Z (Qfloor (q + (1 # 2))))
  | _ => x
  end.

(** [Math.max] on integers. *)
Definition Math_max (a b : Z) : Z := Z.max a b.

Definition of_Z (z : Z) : number := Fin (inject_Z z).
Definition of_nat (n : nat) : number := of_Z (Z.of_nat n).

(** Number to string.  Integers below 10^21 print as decimal digits, which
    is every number the modelled code puts in a string; the shortest
    round-trip notation of other doubles is not modelled and they print
    as a fraction. *)
Definition number_to_string (x : number) : string :=
  match x with
  | NaN => "NaN"
  | PInf => "Infinity"
  | NInf => "-Infinity"
  | Fin q =>
      if Qeq_bool q (inject_Z (Qfloor q)) then pretty (Qfloor q)
      else pretty (Qnum q) ++ "/" ++ pretty (Zpos (Qden q))
  end.

(* ===================================================================== *)
(** * JavaScript values                                                   *)
(* ===================================================================== *)

(** Primitive values, as they sit in a result row or a counter object. *)
Inductive prim :=
  | PUndef
  | PNull
  | PNum (n : number)
  | PStr (s : string).

(** An object of primitives: its own properties in insertion order. *)
Definition obj := list (string * prim).

(** [o.k] *)
Fixpoint get (k : string) (o : obj) : prim :=
  match o with
  | [] => PUndef
  | (k', v) :: o' => if String.eqb k k' then v else get k o'
  end.

(** [Object.values(o)] *)
Definition Object_values (o : obj) : list prim := map snd o.

(** ToNumber.  The parsing of a string is not modelled: the operands here
    are SQL aggregates and array lengths, a score that is a text carries
    the number read in it, and [avgReadiness] takes the reading of its
    concatenated sum as a parameter. *)
Definition to_number (v : prim) : number :=
  match v with
  | PUndef => NaN
  | PNull => Fin 0
  | PNum n => n
  | PStr _ => NaN
  end.

(** ToString, as a template literal applies it. *)
Definition to_string (v : prim) : string :=
  match v with
  | PUndef => "undefined"
  | PNull => "null"
  | PNum n => number_to_string n
  | PStr s => s
  end.

(** [a + b] on the numbers of a reduce. *)
Definition plus (a b : prim) : prim := PNum (js_add (to_number a) (to_number b)).

(** What [res.json] serialises. *)
#[warnings="-register-all"]
Inductive json :=
  | J (p : prim)
  | JArr (l : list json)
  | JObj (o : list (string * json)).

Definition JS (s : string) : json := J (PStr s).
Definition JN (n : number) : json := J (PNum n).
Definition JZ (z : Z) : json := J (PNum (of_Z z)).
Definition Jnat (n : nat) : json := J (PNum (of_nat n)).
Definition Jstrings (l : list string) : json := JArr (map JS l).
Definition Jobj (o : obj) : json := JObj (map (fun kv => (fst kv, J (snd kv))) o).

(** The property [k] of a serialised object. *)
Fixpoint lookup_field (k : string) (o : list (string * json)) : option json :=
  match o with
  | [] => None
  | (k', v) :: o' => if String.eqb k k' then Some v else lookup_field k o'
  end.

Definition field (k : string) (j : json) : option json :=
  match j with
  | JObj o => lookup_field k o
  | _ => None
  end.

Definition keys (j : json) : list string :=
  match j with
  | JObj o => map fst o
  | _ => []
  end.

(** The elements of the array under [k]; none when it is absent. *)
Definition elements (k : string) (j : json) : list json :=
  match field k j with
  | Some (JArr l) => l
  | _ => []
  end.

(* ===================================================================== *)
(** * Dates                                                               *)
(* ===================================================================== *)

(** A [Date] as its local calendar getters see it; months count from 0. *)
Record Date := {
  getFullYear : Z;
  getMonth : Z;
  getDate : Z
}.

Definition msPerDay : Z := 86400000.

(** ECMAScript's day number of January 1st of year [y]. *)
Definition DayFromYear (y : Z) : Z :=
  365 * (y - 1970) + (y - 1969) / 4 - (y - 1901) / 100 + (y - 1601) / 400.

Definition InLeapYear (y : Z) : bool :=
  ((y mod 4 =? 0)%Z && negb (y mod 100 =? 0)%Z) || (y mod 400 =? 0)%Z.

(** Days of the year before month [m] (0..11). *)
Definition DaysBeforeMonth (y m : Z) : Z :=
  let leap := if InLeapYear y then 1 else 0 in
  match m with
  | 0 => 0
  | 1 => 31
  | 2 => 59 + leap
  | 3 => 90 + leap
  | 4 => 120 + leap
  | 5 => 151 + leap
  | 6 => 181 + leap
  | 7 => 212 + leap
  | 8 => 243 + leap
  | 9 => 273 + leap
  | 10 => 304 + leap
  | _ => 334 + leap
  end.

(** ECMAScript's MakeDay. *)
Definition MakeDay (year month date : Z) : Z :=
  let ym := year + month / 12 in
  let mn := month mod 12 in
  DayFromYear ym + DaysBeforeMonth ym mn + date - 1.

(** [Date.UTC(year, month, date)], in milliseconds: a year from 0 to 99
    stands for 1900 + year. *)
Definition Date_UTC (year month date : Z) : Z :=
  let yr := if (0 <=? year)%Z && (year <=? 99)%Z then 1900 + year else year in
  MakeDay yr month date * msPerDay.

(** ECMAScript's YearFromTime: the last year that starts on or before
    the day. *)
Definition YearFromDay (d : Z) : Z :=
  let y := 1970 + d * 400 / 146097 in
  if (DayFromYear (y + 1) <=? d)%Z then y + 1
  else if (DayFromYear y <=? d)%Z then y
  else y - 1.

Definition getUTCFullYear (t : Z) : Z := YearFromDay (t / msPerDay).

(** ECMAScript's WeekDay: 0 is Sunday. *)
Definition getUTCDay (t : Z) : Z := (t / msPerDay + 4) mod 7.

(** [d.setUTCDate(d.getUTCDate() + k)]: the time-of-day being zero, the
    date moves by [k] whole days. *)
Definition addUTCDate (t k : Z) : Z := t + k * msPerDay.

(** [Math.ceil(n / 7)] for an integer [n]; the double quotient of a
    non-multiple is not an integer, so the ceiling is the exact one. *)
Definition ceil_div7 (n : Z) : Z := - ((- n) / 7).

(** [getWeekNumber(date)] *)
Definition getWeekNumber (date : Date) : Z :=
  let d := Date_UTC (getFullYear date) (getMonth date) (getDate date) in
  let dayNum := if (getUTCDay d =? 0)%Z then 7 else getUTCDay d in
  let d := addUTCDate d (4 - dayNum) in
  let yearStart := Date_UTC (getUTCFullYear d) 0 1 in
  ceil_div7 ((d - yearStart) / msPerDay + 1).

(** The year of the Thursday [getWeekNumber] moves to: the ISO-8601
    week-numbering year of the date. *)
Definition isoWeekYear (date : Date) : Z :=
  let d := Date_UTC (getFullYear date) (getMonth date) (getDate date) in
  let dayNum := if (getUTCDay d =? 0)%Z then 7 else getUTCDay d in
  getUTCFullYear (addUTCDate d (4 - dayNum)).

(* ===================================================================== *)
(** * The persistence store                                               *)
(* ===================================================================== *)

(** A tier of [analysis.skillPriority], as the aggregator tests it:
    absent or falsy, an array of skill names, or anything else that is
    truthy (a string, a number, an object), which has no [forEach]. *)
Inductive Tier :=
  | NoTier
  | Skills (l : list string)
  | NotArray.

(** [analysis.skillPriority].  The column holds its JSON text; the model
    keeps the decoded value, which is what [JSON.parse] gives back.  A
    value without the three properties (a string, an array) has three
    absent tiers. *)
Record SkillPriority := {
  critical : Tier;
  important : Tier;
  optional : Tier
}.

(** A value of the column [match_percentage REAL NOT NULL].  REAL
    affinity stores a number, and a text that spells one, as that number;
    any other text stays a text.  A text is kept here with what each
    engine reads in it where the code uses the column as a number:
    JavaScript's ToNumber (NaN for most texts, 0 for the empty one) and
    the number SQLite's aggregates read at its head (85 in '85%'), 0 when
    there is none. *)
Inductive Score :=
  | Real (q : Q)
  | Text (s : string) (ToNumber : number) (leading : Q).

(** The value better-sqlite3 hands to JavaScript. *)
Definition score_value (v : Score) : prim :=
  match v with
  | Real q => PNum (Fin q)
  | Text s _ _ => PStr s
  end.

(** ToNumber of that value, as a comparison or [Math.round] applies it. *)
Definition score_number (v : Score) : number :=
  match v with
  | Real q => Fin q
  | Text _ n _ => n
  end.

(** The number [AVG] adds for the value. *)
Definition score_real (v : Score) : Q :=
  match v with
  | Real q => q
  | Text _ _ q => q
  end.

(** What [analysis.matchPercentage] can be, the validation refusing only
    [undefined], by what the insert makes of it: null, a number, a string
    that spells a number (with the number), any other string (with the
    two readings of a [Text]), or a value better-sqlite3 does not bind,
    such as a boolean or an object (with the message of the error it
    throws). *)
Inductive Percentage :=
  | PctNull
  | PctNumber (q : Q)
  | PctNumeral (s : string) (q : Q)
  | PctText (s : string) (ToNumber : number) (leading : Q)
  | PctOther (message : string).

Record Recommendation := {
  rec_skill : string;
  rec_description : string;
  rec_priority : string
}.

(** Table [skill_gaps]. *)
Module SkillGapRecord.
Record row := {
  id : Z;
  user_id : option Z;
  student_id : string;
  student_name : string;
  department : string;
  academic_year : string;
  job_role : string;
  company_name : string;
  match_percentage : Score;
  missing_skills : list string;
  matched_skills : list string;
  skill_priority : SkillPriority;
  recommendations : list Recommendation;
  timestamp : string
}.
End SkillGapRecord.

(** Table [skill_analytics], [UNIQUE(skill_name, department)]. *)
Module SkillCounter.
Record row := {
  id : Z;
  skill_name : string;
  category : option string;
  total_missing : Z;
  department : string;
  last_seen : string
}.
End SkillCounter.

(** Table [trends], [UNIQUE(skill_name, week_number, year)]. *)
Module TrendCounter.
Record row := {
  id : Z;
  skill_name : string;
  week_number : Z;
  year : Z;
  count : Z
}.
End TrendCounter.

(** The database: each table in rowid order. *)
Record Store := {
  skill_gaps : list SkillGapRecord.row;
  skill_analytics : list SkillCounter.row;
  trends : list TrendCounter.row
}.

(** The process: the database and what was written to the console. *)
Record World := {
  db : Store;
  console : list string
}.

Definition console_log (line : string) (w : World) : World :=
  {| db := db w; console := (console w ++ [line])%list |}.

Definition with_db (d : Store) (w : World) : World :=
  {| db := d; console := console w |}.

(** What the handlers read from outside the process. *)
Record Env := {
  now : Date;                  (* new Date() *)
  Date_now : Z;                (* Date.now() *)
  CURRENT_TIMESTAMP : string   (* SQLite's clock, 'YYYY-MM-DD HH:MM:SS' *)
}.

(** A statement returns or throws an error with a message. *)
Inductive outcome (A : Type) :=
  | Done (a : A)
  | Throws (message : string).
Arguments Done {A} a.
Arguments Throws {A} message.

#[global] Instance outcome_ret : MRet outcome := fun A a => Done a.
#[global] Instance outcome_bind : MBind outcome := fun A B f m =>
  match m with
  | Done a => f a
  | Throws msg => Throws msg
  end.

(** The next AUTOINCREMENT key: one more than the largest in use. *)
Definition next_id (ids : list Z) : Z := 1 + foldr Z.max 0 ids.

(** [x || d] for a string. *)
Definition or_else (x d : string) : string := if String.eqb x "" then d else x.

(** Truthiness of a string that may be undefined. *)
Definition truthy (x : option string) : bool :=
  match x with
  | Some s => negb (String.eqb s "")
  | None => false
  end.

(** [x || d] for a string that may be undefined. *)
Definition or_default (x : option string) (d : string) : string :=
  match x with
  | Some s => or_else s d
  | None => d
  end.

(* ===================================================================== *)
(** * Ingestion recorder                                                  *)
(* ===================================================================== *)

(** The argument of [storeToDatabase]. *)
Module Data.
Record t := {
  user_id : option Z;
  student_id : string;
  student_name : string;
  department : string;
  academic_year : string;
  job_role : string;
  company_name : string;
  match_percentage : Percentage;
  missing_skills : option (list string);  (* an array, or not one *)
  matched_skills : option (list string);
  skill_priority : option SkillPriority;
  recommendations : option (list Recommendation)
}.
End Data.

(** Which statements of a request throw (a locked or failing database),
    with the error's message.  The two counter loops run their statements
    once per array position. *)
Record Faults := {
  insert_skill_gap_throws : option string;
  skill_upsert_throws : nat -> option string;
  trend_upsert_throws : nat -> option string
}.

Definition no_faults : Faults :=
  {| insert_skill_gap_throws := None;
     skill_upsert_throws := fun _ => None;
     trend_upsert_throws := fun _ => None |}.

Definition no_priority : SkillPriority :=
  {| critical := NoTier; important := NoTier; optional := NoTier |}.

(** Binding [data.match_percentage] to the column [match_percentage REAL
    NOT NULL]: null is a constraint error, and REAL affinity stores a
    text that spells a number as that number. *)
Definition bind_percentage (p : Percentage) : outcome Score :=
  match p with
  | PctNull => Throws "NOT NULL constraint failed: skill_gaps.match_percentage"
  | PctNumber q => Done (Real q)
  | PctNumeral _ q => Done (Real q)
  | PctText s n q => Done (Text s n q)
  | PctOther msg => Throws msg
  end.

(** [INSERT INTO skill_gaps (...) VALUES (...)] *)
Definition insert_skill_gap (data : Data.t) (env : Env) (f : Faults) (d : Store)
  : outcome Store :=
  match insert_skill_gap_throws f with
  | Some msg => Throws msg
  | None =>
      match bind_percentage (Data.match_percentage data) with
      | Throws msg => Throws msg
      | Done pct =>
          let r := {|
            SkillGapRecord.id := next_id (map SkillGapRecord.id (skill_gaps d));
            SkillGapRecord.user_id := Data.user_id data;
            SkillGapRecord.student_id := Data.student_id data;
            SkillGapRecord.student_name := or_else (Data.student_name data) "Anonymous";
            SkillGapRecord.department := or_else (Data.department data) "Unknown";
            SkillGapRecord.academic_year := or_else (Data.academic_year data) "Not Specified";
            SkillGapRecord.job_role := Data.job_role data;
            SkillGapRecord.company_name := or_else (Data.company_name data) "Unknown";
            SkillGapRecord.match_percentage := pct;
            SkillGapRecord.missing_skills := default [] (Data.missing_skills data);
            SkillGapRecord.matched_skills := default [] (Data.matched_skills data);
            SkillGapRecord.skill_priority := default no_priority (Data.skill_priority data);
            SkillGapRecord.recommendations := default [] (Data.recommendations data);
            SkillGapRecord.timestamp := CURRENT_TIMESTAMP env |} in
          Done {| skill_gaps := skill_gaps d ++ [r];
                  skill_analytics := skill_analytics d;
                  trends := trends d |}
      end
  end.

(** [skills.forEach((skill) => ...)], the callback seeing the position. *)
Fixpoint forEach {A W : Type} (f : nat -> A -> W -> W) (i : nat) (l : list A) (s : W) : W :=
  match l with
  | [] => s
  | x :: l' => forEach f (S i) l' (f i x s)
  end.

(** [SELECT id, total_missing FROM skill_analytics WHERE skill_name = ?
    AND department = ?], [.get]: the first such row. *)
Definition select_skill (skill dept : string) (t : list SkillCounter.row)
  : option SkillCounter.row :=
  List.find (fun r => String.eqb (SkillCounter.skill_name r) skill
                      && String.eqb (SkillCounter.department r) dept) t.

(** [UPDATE skill_analytics SET total_missing = ?, last_seen =
    CURRENT_TIMESTAMP WHERE id = ?] *)
Definition update_skill (n : Z) (ts : string) (i : Z) (t : list SkillCounter.row)
  : list SkillCounter.row :=
  map (fun r =>
         if (SkillCounter.id r =? i)%Z then
           {| SkillCounter.id := SkillCounter.id r;
              SkillCounter.skill_name := SkillCounter.skill_name r;
              SkillCounter.category := SkillCounter.category r;
              SkillCounter.total_missing := n;
              SkillCounter.department := SkillCounter.department r;
              SkillCounter.last_seen := ts |}
         else r) t.

(** [INSERT INTO skill_analytics (skill_name, department, total_missing,
    last_seen) VALUES (?, ?, 1, CURRENT_TIMESTAMP)] *)
Definition insert_skill (skill dept ts : string) (t : list SkillCounter.row)
  : list SkillCounter.row :=
  t ++ [{| SkillCounter.id := next_id (map SkillCounter.id t);
           SkillCounter.skill_name := skill;
           SkillCounter.category := None;
           SkillCounter.total_missing := 1;
           SkillCounter.department := dept;
           SkillCounter.last_seen := ts |}].

(** The body of the [try] of [updateSkillAnalytics] for one skill. *)
Definition upsert_skill (skill dept ts : string) (t : list SkillCounter.row)
  : list SkillCounter.row :=
  match select_skill skill dept t with
  | Some existing =>
      update_skill (SkillCounter.total_missing existing + 1) ts (SkillCounter.id existing) t
  | None => insert_skill skill dept ts t
  end.

(** [updateSkillAnalytics(skills, department)] *)
Definition updateSkillAnalytics (skills : option (list string)) (department : string)
    (env : Env) (f : Faults) (w : World) : World :=
  match skills with
  | None => w
  | Some skills =>
      forEach (fun i skill w =>
        match skill_upsert_throws f i with
        | Some msg => console_log ("Error updating skill analytics: " ++ msg) w
        | None =>
            with_db {| skill_gaps := skill_gaps (db w);
                       skill_analytics :=
                         upsert_skill skill (or_else department "Unknown")
                           (CURRENT_TIMESTAMP env) (skill_analytics (db w));
                       trends := trends (db w) |} w
        end) 0%nat skills w
  end.

(** [SELECT id, count FROM trends WHERE skill_name = ? AND week_number = ?
    AND year = ?], [.get] *)
Definition select_trend (skill : string) (week yr : Z) (t : list TrendCounter.row)
  : option TrendCounter.row :=
  List.find (fun r => String.eqb (TrendCounter.skill_name r) skill
                      && (TrendCounter.week_number r =? week)%Z
                      && (TrendCounter.year r =? yr)%Z) t.

(** [UPDATE trends SET count = ? WHERE id = ?] *)
Definition update_trend (n i : Z) (t : list TrendCounter.row) : list TrendCounter.row :=
  map (fun r =>
         if (TrendCounter.id r =? i)%Z then
           {| TrendCounter.id := TrendCounter.id r;
              TrendCounter.skill_name := TrendCounter.skill_name r;
              TrendCounter.week_number := TrendCounter.week_number r;
              TrendCounter.year := TrendCounter.year r;
              TrendCounter.count := n |}
         else r) t.

(** [INSERT INTO trends (skill_name, week_number, year, count) VALUES
    (?, ?, ?, 1)] *)
Definition insert_trend (skill : string) (week yr : Z) (t : list TrendCounter.row)
  : list TrendCounter.row :=
  t ++ [{| TrendCounter.id := next_id (map TrendCounter.id t);
           TrendCounter.skill_name := skill;
           TrendCounter.week_number := week;
           TrendCounter.year := yr;
           TrendCounter.count := 1 |}].

Definition upsert_trend (skill : string) (week yr : Z) (t : list TrendCounter.row)
  : list TrendCounter.row :=
  match select_trend skill week yr t with
  | Some existing =>
      update_trend (TrendCounter.count existing + 1) (TrendCounter.id existing) t
  | None => insert_trend skill week yr t
  end.

(** [updateTrends(skills)] *)
Definition updateTrends (skills : option (list string)) (env : Env) (f : Faults)
    (w : World) : World :=
  match skills with
  | None => w
  | Some skills =>
      let weekNumber := getWeekNumber (now env) in
      let year := getFullYear (now env) in
      forEach (fun i skill w =>
        match trend_upsert_throws f i with
        | Some msg => console_log ("Error updating trends: " ++ msg) w
        | None =>
            with_db {| skill_gaps := skill_gaps (db w);
                       skill_analytics := skill_analytics (db w);
                       trends := upsert_trend skill weekNumber year (trends (db w)) |} w
        end) 0%nat skills w
  end.

(** [storeToDatabase(data)] *)
Definition storeToDatabase (data : Data.t) (env : Env) (f : Faults) (w : World) : World :=
  match insert_skill_gap data env f (db w) with
  | Done d =>
      let w := with_db d w in
      let w := updateSkillAnalytics (Data.missing_skills data) (Data.department data) env f w in
      let w := updateTrends (Data.missing_skills data) env f w in
      console_log "✅ Data stored in database" w
  | Throws msg => console_log ("⚠️ Database storage error: " ++ msg) w
  end.

(** ** The [/api/analyze] endpoint *)

(** [req.body] *)
Record AnalyzeBody := {
  resumeText : option string;
  jobDescription : option string;
  studentName : option string;
  department : option string;
  academicYear : option string;
  companyName : option string
}.

(** What [analyzeWithGemini] returns once it has validated the reply:
    [matchPercentage] is not undefined and [missingSkills] is an array. *)
Record Analysis := {
  matchPercentage : Percentage;
  missingSkills : list string;
  matchedSkills : option (list string);
  skillPriority : option SkillPriority;
  recommendations : option (list Recommendation)
}.

(** [analyzeWithGemini] returns an analysis or throws an error, having
    written lines to the console on the way: the line 'Using model: ...'
    once it calls the model and, before it throws again what it caught,
    'Gemini API Error: ...'.  An error has its message and the text
    [console.error] prints for it, which holds its stack. *)
Inductive AiResult :=
  | AiReturns (written : list string) (analysis : Analysis)
  | AiThrows (written : list string) (message printed : string).

(** The console with the lines of a list added. *)
Definition console_lines (lines : list string) (w : World) : World :=
  {| db := db w; console := (console w ++ lines)%list |}.

Inductive Body :=
  | SendAnalysis (analysis : Analysis)
  | SendJson (j : json).

Record Response := {
  status : Z;
  body : Body
}.

(** The string helpers of the endpoint; what they return does not matter
    to the properties below, so they stay abstract. *)
Record Helpers := {
  generateStudentId : option string -> Z -> string;
  extractJobRole : string -> string;
  extractCompanyName : string -> string
}.

(** The object the endpoint hands to [storeToDatabase]. *)
Definition submission (h : Helpers) (req : AnalyzeBody) (analysis : Analysis) (env : Env)
  : Data.t :=
  let jd := default "" (jobDescription req) in
  {| Data.user_id := None;
     Data.student_id := generateStudentId h (studentName req) (Date_now env);
     Data.student_name := or_default (studentName req) "Anonymous";
     Data.department := or_default (department req) "Unknown";
     Data.academic_year := or_default (academicYear req) "Not Specified";
     Data.job_role := extractJobRole h jd;
     Data.company_name :=
       (if truthy (companyName req) then default "" (companyName req)
        else extractCompanyName h jd);
     Data.match_percentage := matchPercentage analysis;
     Data.missing_skills := Some (missingSkills analysis);
     Data.matched_skills := matchedSkills analysis;
     Data.skill_priority := skillPriority analysis;
     Data.recommendations := recommendations analysis |}.

(** [app.post("/api/analyze", ...)], the request being authenticated. *)
Definition analyze (h : Helpers) (req : AnalyzeBody) (ai : AiResult) (env : Env)
    (f : Faults) (w : World) : Response * World :=
  if negb (truthy (resumeText req)) || negb (truthy (jobDescription req)) then
    ({| status := 400;
        body := SendJson (JObj [("error", JS "Resume text and job description are required")]) |},
     w)
  else
    match ai with
    | AiThrows written msg printed =>
        ({| status := 500;
            body := SendJson (JObj [("error", JS "Analysis failed"); ("message", JS msg)]) |},
         console_log ("Error in analysis: " ++ printed) (console_lines written w))
    | AiReturns written analysis =>
        let w := storeToDatabase (submission h req analysis env) env f (console_lines written w) in
        ({| status := 200; body := SendAnalysis analysis |}, w)
    end.

(* ===================================================================== *)
(** * Alert generator                                                     *)
(* ===================================================================== *)

(** [alerts.push(x)] *)
Definition push {A : Type} (alerts : list A) (x : A) : list A := (alerts ++ [x])%list.

(** The object pushed by the critical skill gap rule. *)
Definition critical_alert (top : obj) : json :=
  JObj [
    ("severity", JS "critical");
    ("icon", JS "🚨");
    ("title", JS ("High Demand: " ++ to_string (get "skill" top)));
    ("description",
     JS (to_string (get "count" top)
         ++ " students missing this critical skill. Consider emergency workshop."));
    ("count", J (get "count" top));
    ("action", JS "Schedule Workshop")].

(** The object pushed by the trending skill rule. *)
Definition trending_alert (topTrend : obj) : json :=
  JObj [
    ("severity", JS "warning");
    ("icon", JS "📈");
    ("title", JS ("Trending Skill Gap: " ++ to_string (get "skill" topTrend)));
    ("description",
     JS ("Emerging demand detected. " ++ to_string (get "total" topTrend)
         ++ " instances in past 4 weeks."));
    ("count", J (get "total" topTrend));
    ("action", JS "Add to Curriculum")].

(** The object pushed by the low match percentage rule. *)
Definition readiness_alert (lowMatchPercentage : number) : json :=
  JObj [
    ("severity", JS "warning");
    ("icon", JS "⚠️");
    ("title", JS "Overall Readiness Concern");
    ("description",
     JS (number_to_string (Math_round lowMatchPercentage)
         ++ "% of students have match scores below 60%. Review curriculum alignment."));
    ("action", JS "Review Curriculum")].

(** [generateEnhancedAlerts(topSkills, trending, distribution)] *)
Definition generateEnhancedAlerts (topSkills trending : list obj) (distribution : obj)
  : list json :=
  let alerts : list json := [] in
  (* Critical skill gap alert *)
  let alerts :=
    match topSkills with
    | top :: _ =>
        if js_gt (to_number (get "count" top)) (of_Z 5)
        then push alerts (critical_alert top)
        else alerts
    | [] => alerts
    end in
  (* Trending skill alert *)
  let alerts :=
    match trending with
    | topTrend :: _ => push alerts (trending_alert topTrend)
    | [] => alerts
    end in
  (* Low match percentage alert *)
  let totalStudents := foldl plus (PNum (of_Z 0)) (Object_values distribution) in
  let lowMatchPercentage :=
    js_mul
      (js_div (to_number (plus (get "low" distribution) (get "veryLow" distribution)))
              (to_number totalStudents))
      (of_Z 100) in
  if js_gt lowMatchPercentage (of_Z 40)
  then push alerts (readiness_alert lowMatchPercentage)
  else alerts.

(** [getMockAnalytics()] *)
Definition getMockAnalytics : json :=
  JObj [
    ("stats", JObj [
       ("totalStudents", JZ 0);
       ("uniqueSkills", JZ 0);
       ("averageMatch", JZ 0);
       ("totalDepartments", JZ 0)]);
    ("alerts", JArr []);
    ("topMissingSkills", JArr []);
    ("departmentStats", JArr []);
    ("matchDistribution", JObj [
       ("high", JZ 0); ("medium", JZ 0); ("low", JZ 0); ("veryLow", JZ 0)]);
    ("trends", JArr []);
    ("recentActivity", JArr [])].

(* ===================================================================== *)
(** * Analytics aggregator                                                *)
(* ===================================================================== *)

(** [req.query] of [/api/analytics]. *)
Module Query.
Record t := {
  department : option string;
  academicYear : option string;
  dateRange : option string
}.
End Query.

(** The WHERE clause built from the filters: ["1=1"], then one conjunct
    for each filter that is present and not empty. *)
Definition whereClause (query : Query.t) (r : SkillGapRecord.row) : bool :=
  (if truthy (Query.department query)
   then String.eqb (SkillGapRecord.department r) (default "" (Query.department query))
   else true)
  && (if truthy (Query.academicYear query)
      then String.eqb (SkillGapRecord.academic_year r) (default "" (Query.academicYear query))
      else true).

(** [l.forEach((s) => set.add(s))] on a [Set] kept in insertion order. *)
Definition add_all (l : list string) (set : list string) : list string :=
  foldl (fun acc x => if bool_decide (x ∈ acc) then acc else push acc x) set l.

(** The distinct values of a list in order of first appearance: what
    [COUNT(DISTINCT ...)] counts, and a [Set] filled from nothing. *)
Definition distinct (l : list string) : list string := add_all l [].

(** [ORDER BY]: [R x y] says that [x] may come before [y].  SQL leaves
    the order of rows that compare equal open; SQLite's sorter keeps
    them in the order in which they reach it, and so does this one. *)
Fixpoint insert_row {A : Type} (R : relation A) `{!forall x y, Decision (R x y)}
    (x : A) (sorted : list A) : list A :=
  match sorted with
  | [] => [x]
  | y :: rest => if decide (R x y) then x :: sorted else y :: insert_row R x rest
  end.

Definition order_by {A : Type} (R : relation A) `{!forall x y, Decision (R x y)}
    (l : list A) : list A :=
  foldr (insert_row R) [] l.

(** Text compared bytewise, the collation BINARY. *)
Definition text_le (a b : string) : Prop := String.leb a b = true.

#[global] Instance text_le_dec a b : Decision (text_le a b).
Proof. unfold text_le. apply _. Defined.

(** The keys of the groups of a [GROUP BY], in the order in which SQLite
    delivers the groups: it sorts the rows by the key, ascending. *)
Definition group_keys (l : list string) : list string := order_by text_le (distinct l).

Definition Qsum (l : list Q) : Q := foldr Qplus 0%Q l.

(** [AVG(x)]: NULL over no rows.  SQLite accumulates in double precision;
    the sum is kept exact here (as it is for integer percentages) and the
    quotient is rounded. *)
Definition AVG (l : list Q) : option number :=
  match l with
  | [] => None
  | _ => Some (fl (Qsum l / inject_Z (Z.of_nat (length l))))
  end.

(** [x || 0] for an aggregate that may be NULL. *)
Definition or_zero (x : option number) : number :=
  match x with
  | Some (Fin q) => if Qeq_bool q 0 then of_Z 0 else Fin q
  | Some NaN | None => of_Z 0
  | Some x => x
  end.

(** [SELECT key, COUNT( * ) as count, AVG(match_percentage) as avgMatch
    FROM skill_gaps GROUP BY key] *)
Definition group_stats (key : SkillGapRecord.row -> string)
    (rows : list SkillGapRecord.row) : list (string * nat * option number) :=
  map (fun k =>
         let g := filter (fun r => key r = k) rows in
         (k, length g, AVG (map (fun r => score_real (SkillGapRecord.match_percentage r)) g)))
      (group_keys (map key rows)).

(** [ORDER BY count DESC] on the groups. *)
Definition by_count_desc (a b : string * nat * option number) : Prop :=
  (snd (fst b) <= snd (fst a))%nat.

#[global] Instance by_count_desc_dec a b : Decision (by_count_desc a b).
Proof. unfold by_count_desc. apply _. Defined.

(** [ORDER BY timestamp DESC]: text compared bytewise. *)
Definition by_timestamp_desc (a b : SkillGapRecord.row) : Prop :=
  String.leb (SkillGapRecord.timestamp b) (SkillGapRecord.timestamp a) = true.

#[global] Instance by_timestamp_desc_dec a b : Decision (by_timestamp_desc a b).
Proof. unfold by_timestamp_desc. apply _. Defined.

Definition Zsum (l : list Z) : Z := foldr Z.add 0 l.

(** A row of [SELECT skill_name, SUM(total_missing) as count, department
    FROM skill_analytics GROUP BY skill_name].  SQLite reads the table
    through the index of [UNIQUE(skill_name, department)]: the groups
    come in ascending order of [skill_name], and the bare [department] is
    that of the first row of the group in the index, the smallest. *)
Definition top_skills_groups (t : list SkillCounter.row) : list (string * Z * string) :=
  map (fun k =>
         let g := filter (fun r => SkillCounter.skill_name r = k) t in
         (k, Zsum (map SkillCounter.total_missing g),
          default "" (head (order_by text_le (map SkillCounter.department g)))))
      (group_keys (map SkillCounter.skill_name t)).

(** [ORDER BY count DESC] / [ORDER BY total DESC] on summed groups. *)
Definition by_sum_desc {A : Type} (a b : string * Z * A) : Prop := snd (fst b) <= snd (fst a).

#[global] Instance by_sum_desc_dec {A} (a b : string * Z * A) : Decision (by_sum_desc a b).
Proof. unfold by_sum_desc. apply _. Defined.

(** The object better-sqlite3 makes of such a row: one property per
    selected column, named by the column or its alias. *)
Definition top_skill_object (g : string * Z * string) : obj :=
  [("skill_name", PStr (fst (fst g)));
   ("count", PNum (of_Z (snd (fst g))));
   ("department", PStr (snd g))].

(** [GROUP_CONCAT(week_number || ':' || count)] *)
Definition weekly_data (g : list TrendCounter.row) : string :=
  String.concat ","
    (map (fun r => pretty (TrendCounter.week_number r) ++ ":" ++ pretty (TrendCounter.count r)) g).

(** The order of the index of [UNIQUE(skill_name, week_number, year)]
    within one skill and one year. *)
Definition by_week (a b : TrendCounter.row) : Prop :=
  TrendCounter.week_number a <= TrendCounter.week_number b.

#[global] Instance by_week_dec a b : Decision (by_week a b).
Proof. unfold by_week. apply _. Defined.

(** [SELECT skill_name, SUM(count) as total, GROUP_CONCAT(...) as
    weekly_data FROM trends WHERE year = ? AND week_number >= ?
    GROUP BY skill_name].  SQLite reads the table through the index of
    the UNIQUE constraint: the groups come in ascending order of
    [skill_name] and the rows of a group in ascending order of week. *)
Definition trending_groups (yr week : Z) (t : list TrendCounter.row)
  : list (string * Z * string) :=
  let rows := filter (fun r => TrendCounter.year r = yr /\ week <= TrendCounter.week_number r) t in
  map (fun k =>
         let g := filter (fun r => TrendCounter.skill_name r = k) rows in
         (k, Zsum (map TrendCounter.count g), weekly_data (order_by by_week g)))
      (group_keys (map TrendCounter.skill_name rows)).

Definition trending_object (g : string * Z * string) : obj :=
  [("skill_name", PStr (fst (fst g)));
   ("total", PNum (of_Z (snd (fst g))));
   ("weekly_data", PStr (snd g))].

(** The distribution object [{high, medium, low, veryLow}]. *)
Definition distribution_object (high medium low veryLow : nat) : obj :=
  [("high", PNum (of_nat high));
   ("medium", PNum (of_nat medium));
   ("low", PNum (of_nat low));
   ("veryLow", PNum (of_nat veryLow))].

(** The bands of the match distribution, as the four filters test the
    number read in [r.match_percentage]. *)
Definition is_high (p : number) : bool := js_ge p (of_Z 80).
Definition is_medium (p : number) : bool := js_ge p (of_Z 60) && js_lt p (of_Z 80).
Definition is_low (p : number) : bool := js_ge p (of_Z 40) && js_lt p (of_Z 60).
Definition is_veryLow (p : number) : bool := js_lt p (of_Z 40).

(** [matchDist.filter(...).length] for each band. *)
Definition matchDistribution (matchDist : list Score) : obj :=
  distribution_object
    (length (List.filter (fun r => is_high (score_number r)) matchDist))
    (length (List.filter (fun r => is_medium (score_number r)) matchDist))
    (length (List.filter (fun r => is_low (score_number r)) matchDist))
    (length (List.filter (fun r => is_veryLow (score_number r)) matchDist)).

(** The three sets of [skillPriorityBreakdown]. *)
Record Breakdown := {
  critical_set : list string;
  important_set : list string;
  optional_set : list string
}.

(** [if (tier) tier.forEach((s) => set.add(s))] on a tier that is absent
    or an array. *)
Definition add_tier (t : Tier) (set : list string) : list string :=
  match t with
  | Skills l => add_all l set
  | _ => set
  end.

(** The callback of [allPriorities.forEach]: the three tiers are read in
    turn; [forEach] on a tier that is truthy and no array is a TypeError,
    which the [catch] swallows, so the tiers after it are not read. *)
Definition add_priority (b : Breakdown) (priority : SkillPriority) : Breakdown :=
  match critical priority with
  | NotArray => b
  | t =>
      let b := {| critical_set := add_tier t (critical_set b);
                  important_set := important_set b;
                  optional_set := optional_set b |} in
      match important priority with
      | NotArray => b
      | t =>
          let b := {| critical_set := critical_set b;
                      important_set := add_tier t (important_set b);
                      optional_set := optional_set b |} in
          match optional priority with
          | NotArray => b
          | t => {| critical_set := critical_set b;
                    important_set := important_set b;
                    optional_set := add_tier t (optional_set b) |}
          end
      end
  end.

Definition skillPriorityBreakdown (allPriorities : list SkillPriority) : Breakdown :=
  foldl add_priority
    {| critical_set := []; important_set := []; optional_set := [] |} allPriorities.

(** The statements of the analytics handler, in program order. *)
Inductive Statement :=
  | SelectTotalStudents
  | SelectAvgMatch
  | SelectDeptStats
  | SelectYearStats
  | SelectCompanyStats
  | SelectRecentActivity
  | SelectTopSkills
  | SelectTrending
  | SelectMatchDist
  | SelectPriorities.

(** Running a statement: it throws when the environment says so.  The
    handlers hand the caught error itself to [console.error], so the text
    that comes with a failure is the text the console prints for that
    error; nothing else reads it. *)
Definition run {A : Type} (throws : Statement -> option string) (s : Statement) (a : A)
  : outcome A :=
  match throws s with
  | Some msg => Throws msg
  | None => Done a
  end.

Definition group_json (kname cname aname : string) (g : string * nat * option number) : json :=
  JObj [(kname, JS (fst (fst g)));
        (cname, Jnat (snd (fst g)));
        (aname, JN (Math_round (or_zero (snd g))))].

Definition activity_json (r : SkillGapRecord.row) : json :=
  JObj [("id", JZ (SkillGapRecord.id r));
        ("studentName", JS (or_else (SkillGapRecord.student_name r) "Anonymous"));
        ("timestamp", JS (SkillGapRecord.timestamp r));
        ("department", JS (SkillGapRecord.department r));
        ("academicYear", JS (SkillGapRecord.academic_year r));
        ("jobRole", JS (SkillGapRecord.job_role r));
        ("companyName", JS (SkillGapRecord.company_name r));
        ("matchScore", JN (Math_round (score_number (SkillGapRecord.match_percentage r))));
        ("topSkills", Jstrings (take 3 (SkillGapRecord.missing_skills r)))].

(** The body of the [try] of the analytics handler: the queries in order,
    then the object handed to [res.json].  The company query has a
    GROUP BY and an ORDER BY of one term each: SQLite then runs the
    grouping in the direction of the ORDER BY, descending, and the groups
    of equal count stay in descending order of their key. *)
Definition snapshot (query : Query.t) (env : Env) (throws : Statement -> option string)
    (d : Store) : outcome json :=
  let filtered := List.filter (whereClause query) (skill_gaps d) in
  totalStudents ← run throws SelectTotalStudents
    (length (distinct (map SkillGapRecord.student_id filtered)));
  avgMatch ← run throws SelectAvgMatch
    (AVG (map (fun r => score_real (SkillGapRecord.match_percentage r)) filtered));
  deptStats ← run throws SelectDeptStats
    (group_stats SkillGapRecord.department (skill_gaps d));
  yearStats ← run throws SelectYearStats
    (group_stats SkillGapRecord.academic_year (skill_gaps d));
  companyStats ← run throws SelectCompanyStats
    (take 10 (order_by by_count_desc
                (reverse (group_stats SkillGapRecord.company_name (skill_gaps d)))));
  recentActivity ← run throws SelectRecentActivity
    (take 20 (order_by by_timestamp_desc filtered));
  topSkillsFromAnalytics ← run throws SelectTopSkills
    (map top_skill_object
       (take 15 (order_by by_sum_desc (top_skills_groups (skill_analytics d)))));
  let currentWeek := getWeekNumber (now env) in
  let currentYear := getFullYear (now env) in
  trendingSkills ← run throws SelectTrending
    (map trending_object
       (take 10 (order_by by_sum_desc
                   (trending_groups currentYear (Math_max 1 (currentWeek - 3)) (trends d)))));
  matchDist ← run throws SelectMatchDist
    (map SkillGapRecord.match_percentage filtered);
  let distribution := matchDistribution matchDist in
  allPriorities ← run throws SelectPriorities
    (map SkillGapRecord.skill_priority filtered);
  let breakdown := skillPriorityBreakdown allPriorities in
  mret (JObj [
    ("stats", JObj [
       ("totalStudents", Jnat totalStudents);
       ("uniqueSkills", Jnat (length topSkillsFromAnalytics));
       ("averageMatch", JN (Math_round (or_zero avgMatch)));
       ("totalDepartments", Jnat (length deptStats));
       ("totalAcademicYears",
        Jnat (length (filter (fun y => fst (fst y) ≠ "Not Specified") yearStats)));
       ("totalCompanies",
        Jnat (length (filter (fun c => fst (fst c) ≠ "Unknown") companyStats)))]);
    ("topMissingSkills",
     JArr (map (fun s => JObj [("skill", J (get "skill_name" s)); ("count", J (get "count" s))])
               topSkillsFromAnalytics));
    ("skillPriorityBreakdown", JObj [
       ("critical", Jstrings (critical_set breakdown));
       ("important", Jstrings (important_set breakdown));
       ("optional", Jstrings (optional_set breakdown))]);
    ("departmentStats", JArr (map (group_json "department" "count" "avgMatch") deptStats));
    ("academicYearStats", JArr (map (group_json "year" "count" "avgMatch") yearStats));
    ("companyStats",
     JArr (map (group_json "company" "studentCount" "avgReadiness") companyStats));
    ("trendingSkills",
     JArr (map (fun t => JObj [("skill", J (get "skill_name" t));
                               ("total", J (get "total" t));
                               ("trend", JS "increasing")])
               trendingSkills));
    ("recentActivity", JArr (map activity_json recentActivity));
    ("alerts", JArr (generateEnhancedAlerts topSkillsFromAnalytics trendingSkills distribution));
    ("matchDistribution", Jobj distribution)]).

(** [app.get("/api/analytics", ...)], the request being an
    authenticated admin's: the snapshot, or the mock one when anything in
    the [try] threw. *)
Definition analytics (query : Query.t) (env : Env) (throws : Statement -> option string)
    (w : World) : Response * World :=
  match snapshot query env throws (db w) with
  | Done j => ({| status := 200; body := SendJson j |}, w)
  | Throws msg =>
      ({| status := 200; body := SendJson getMockAnalytics |},
       console_log ("Analytics error: " ++ msg) w)
  end.

Definition no_throw : Statement -> option string := fun _ => None.

(* ===================================================================== *)
(** * Observations                                                        *)
(* ===================================================================== *)

(** The JSON a response carries. *)
Definition sent (r : Response) : json :=
  match body r with
  | SendJson j => j
  | SendAnalysis _ => J PUndef
  end.

(** A success response is what [res.json(analysis)] sends. *)
Definition is_success (r : Response) : Prop :=
  status r = 200 /\ exists analysis, body r = SendAnalysis analysis.

Definition has_title (t : string) (a : json) : Prop := field "title" a = Some (JS t).

Definition has_severity (s : string) (a : json) : Prop := field "severity" a = Some (JS s).

(** The alert of the low match percentage rule. *)
Definition is_readiness_concern (a : json) : Prop := has_title "Overall Readiness Concern" a.

(** The value of SkillCounter(skill, department), when the row exists. *)
Definition SkillCounter_of (skill dept : string) (d : Store) : option Z :=
  SkillCounter.total_missing <$> select_skill skill dept (skill_analytics d).

(** How many times a skill is listed. *)
Definition occurrences (skill : string) (skills : list string) : Z :=
  Z.of_nat (length (List.filter (String.eqb skill) skills)).

(** The primary keys of a table are distinct. *)
Definition keys_distinct (d : Store) : Prop :=
  NoDup (map SkillCounter.id (skill_analytics d)).

(** No filter: every record matches. *)
Definition no_filter : Query.t :=
  {| Query.department := None; Query.academicYear := None; Query.dateRange := None |}.

(** The top-level totals of a snapshot. *)
Definition totals (j : json) : option json * option json * option json :=
  (mbind (field "totalStudents") (field "stats" j),
   mbind (field "averageMatch") (field "stats" j),
   field "matchDistribution" j).

(** The snapshot field names the interface documents. *)
Definition documented_fields : list string :=
  ["stats"; "topMissingSkills"; "departmentStats"; "academicYearStats"; "companyStats";
   "trendingSkills"; "matchDistribution"; "skillPriorityBreakdown"; "recentActivity";
   "alerts"].

(** The first two rules of the alert generator. *)
Definition skill_alerts (topSkills trending : list obj) : list json :=
  generateEnhancedAlerts topSkills trending (distribution_object 0 0 0 0).

(** The percentage the readiness rule computes from the counts. *)
Definition low_match_percentage (low veryLow total : nat) : number :=
  js_mul (js_div (of_nat (low + veryLow)) (of_nat total)) (of_Z 100).

(** The double nearest 2/5 and the next one up. *)
Definition c25 : Q := 3602879701896397 # 9007199254740992.
Definition c25_up : Q := 7205759403792795 # 18014398509481984.

(** A store holding one skill counter and nothing else. *)
Definition one_counter (skill dept : string) (n : Z) : Store :=
  {| skill_gaps := [];
     skill_analytics :=
       [{| SkillCounter.id := 1;
           SkillCounter.skill_name := skill;
           SkillCounter.category := None;
           SkillCounter.total_missing := n;
           SkillCounter.department := dept;
           SkillCounter.last_seen := "2024-03-06 09:00:00" |}];
     trends := [] |}.

Definition march_6_2024 : Env :=
  {| now := {| getFullYear := 2024; getMonth := 2; getDate := 6 |};
     Date_now := 1709715600000;
     CURRENT_TIMESTAMP := "2024-03-06 09:00:00" |}.

Definition quiet (d : Store) : World := {| db := d; console := [] |}.

Definition empty_store : Store := {| skill_gaps := []; skill_analytics := []; trends := [] |}.

(** Tuesday 31 December 2024, in ISO week 1 of 2025, and Tuesday
    2 January 2024, in ISO week 1 of 2024. *)
Definition dec_31_2024 : Env :=
  {| now := {| getFullYear := 2024; getMonth := 11; getDate := 31 |};
     Date_now := 1735639200000;
     CURRENT_TIMESTAMP := "2024-12-31 10:00:00" |}.

Definition jan_2_2024 : Env :=
  {| now := {| getFullYear := 2024; getMonth := 0; getDate := 2 |};
     Date_now := 1704189600000;
     CURRENT_TIMESTAMP := "2024-01-02 10:00:00" |}.

(** A request and two replies of the model used as examples. *)
Definition sample_helpers : Helpers :=
  {| generateStudentId := fun _ t => "STU_ADA_" ++ pretty t;
     extractJobRole := fun _ => "Software Engineer";
     extractCompanyName := fun _ => "Unknown" |}.

Definition sample_request : AnalyzeBody :=
  {| resumeText := Some "Python, SQL";
     jobDescription := Some "Backend developer: Docker, Python";
     studentName := Some "Ada";
     department := Some "CS";
     academicYear := Some "3";
     companyName := Some "Acme" |}.

Definition sample_reply (pct : Percentage) (missing : list string) : Analysis :=
  {| matchPercentage := pct;
     missingSkills := missing;
     matchedSkills := Some ["Python"];
     skillPriority := Some {| critical := Skills missing; important := NoTier; optional := NoTier |};
     recommendations := None |}.

(** The snapshot when no statement throws. *)
Definition snapshot_json (query : Query.t) (env : Env) (d : Store) : json :=
  match snapshot query env no_throw d with
  | Done j => j
  | Throws _ => getMockAnalytics
  end.

(** How many scores a band holds. *)
Definition band_count (band : number -> bool) (scores : list Score) : nat :=
  length (List.filter (fun r => band (score_number r)) scores).

(** The scores of the records a filter selects. *)
Definition filtered_scores (query : Query.t) (d : Store) : list Score :=
  map SkillGapRecord.match_percentage (List.filter (whereClause query) (skill_gaps d)).

(** A store with one trend row of ISO week 10 of 2024, and a date ten
    weeks later. *)
Definition one_trend : Store :=
  {| skill_gaps := [];
     skill_analytics := [];
     trends := [{| TrendCounter.id := 1;
                   TrendCounter.skill_name := "Docker";
                   TrendCounter.week_number := 10;
                   TrendCounter.year := 2024;
                   TrendCounter.count := 3 |}] |}.

Definition may_15_2024 : Env :=
  {| now := {| getFullYear := 2024; getMonth := 4; getDate := 15 |};
     Date_now := 1715763600000;
     CURRENT_TIMESTAMP := "2024-05-15 09:00:00" |}.

(** Every statement failing on a broken connection. *)
Definition disk_error : Statement -> option string := fun _ => Some "disk I/O error".

(** Two records of different departments. *)
Definition two_departments : Store :=
  let record (i : Z) (student dept : string) (pct : Score) :=
    {| SkillGapRecord.id := i;
       SkillGapRecord.user_id := None;
       SkillGapRecord.student_id := student;
       SkillGapRecord.student_name := student;
       SkillGapRecord.department := dept;
       SkillGapRecord.academic_year := "3";
       SkillGapRecord.job_role := "Software Engineer";
       SkillGapRecord.company_name := "Acme";
       SkillGapRecord.match_percentage := pct;
       SkillGapRecord.missing_skills := ["Docker"];
       SkillGapRecord.matched_skills := [];
       SkillGapRecord.skill_priority := no_priority;
       SkillGapRecord.recommendations := [];
       SkillGapRecord.timestamp := "2024-03-06 09:00:00" |} in
  {| skill_gaps := [record 1 "STU_ADA_1" "CS" (Real 80); record 2 "STU_BOB_2" "EE" (Real 39)];
     skill_analytics := [];
     trends := [] |}.


(** Trend rows of several weeks and years: at week 10 of 2024 the window
    of the trending query holds the first three. *)
Definition trend_history : Store :=
  let row (i : Z) (skill : string) (week yr n : Z) :=
    {| TrendCounter.id := i;
       TrendCounter.skill_name := skill;
       TrendCounter.week_number := week;
       TrendCounter.year := yr;
       TrendCounter.count := n |} in
  {| skill_gaps := [];
     skill_analytics := [];
     trends := [row 1 "Go" 10 2024 4; row 2 "Docker" 10 2024 3; row 3 "Docker" 9 2024 2;
                row 4 "Go" 5 2024 9; row 5 "Rust" 10 2023 7] |}.

Definition only_department (dept : string) : Query.t :=
  {| Query.department := Some dept; Query.academicYear := None; Query.dateRange := None |}.

(* ===================================================================== *)
(** * Further observations: calendar                                      *)
(* ===================================================================== *)

(** The day number of a date in the Gregorian calendar, counted from
    1 January 1970 (the year taken as it is, also from 0 to 99). *)
Definition day_number (date : Date) : Z :=
  MakeDay (getFullYear date) (getMonth date) (getDate date).

(** The weekday of a date in that calendar: 0 is Sunday, 1 Monday. *)
Definition weekday (date : Date) : Z := (day_number date + 4) mod 7.

(** The dates from 1 January of year 101 on, with the month and the day
    of the month as the getters of a [Date] give them.  [Date.UTC] takes
    the year of such a date as it is, and so the year of the Thursday of
    its week; the years 0 to 99 it reads as 1900 to 1999, and the weeks
    around them are numbered from there. *)
Definition from_year_101 (date : Date) : Prop :=
  101 <= getFullYear date /\ 0 <= getMonth date <= 11 /\ 1 <= getDate date.

Definition on_the (year month date : Z) : Date :=
  {| getFullYear := year; getMonth := month; getDate := date |}.

(* ===================================================================== *)
(** * Further observations: recorder                                      *)
(* ===================================================================== *)

(** How many positions of the array, counted from [i], hold the skill and
    have an upsert that does not throw. *)
Fixpoint recorded (throws : nat -> option string) (i : nat) (skill : string)
    (skills : list string) : Z :=
  match skills with
  | [] => 0
  | x :: rest =>
      (if String.eqb skill x && bool_decide (throws i = None) then 1 else 0)
      + recorded throws (S i) skill rest
  end.

(** The lines a counter loop writes to the console: one for each
    position of the array, counted from [i], whose upsert throws. *)
Fixpoint failure_lines (label : string) (throws : nat -> option string) (i : nat)
    (skills : list string) : list string :=
  match skills with
  | [] => []
  | _ :: rest =>
      (match throws i with
       | Some msg => [(label ++ msg)%string]
       | None => []
       end ++ failure_lines label throws (S i) rest)%list
  end.

(** The value of TrendCounter(skill, week, year), when the row exists. *)
Definition TrendCounter_of (skill : string) (week yr : Z) (d : Store) : option Z :=
  TrendCounter.count <$> select_trend skill week yr (trends d).

Definition trend_keys_distinct (d : Store) : Prop :=
  NoDup (map TrendCounter.id (trends d)).

(** The constraints of the schema: the primary keys and the two UNIQUE
    constraints. *)
Definition skill_key (r : SkillCounter.row) : string * string :=
  (SkillCounter.skill_name r, SkillCounter.department r).

Definition trend_key (r : TrendCounter.row) : string * Z * Z :=
  (TrendCounter.skill_name r, TrendCounter.week_number r, TrendCounter.year r).

Definition schema_ok (d : Store) : Prop :=
  NoDup (map SkillGapRecord.id (skill_gaps d))
  /\ NoDup (map SkillCounter.id (skill_analytics d))
  /\ NoDup (map TrendCounter.id (trends d))
  /\ NoDup (map skill_key (skill_analytics d))
  /\ NoDup (map trend_key (trends d)).

(** Faults in some upserts only: the second skill counter and the first
    trend counter. *)
Definition some_upserts_fail : Faults :=
  {| insert_skill_gap_throws := None;
     skill_upsert_throws := fun i => if (i =? 1)%nat then Some "database is locked" else None;
     trend_upsert_throws := fun i => if (i =? 0)%nat then Some "database is locked" else None |}.

(* ===================================================================== *)
(** * Further observations: snapshot                                      *)
(* ===================================================================== *)

(** The integer under [k] in a serialised object (0 when it is not one). *)
Definition int_field (k : string) (e : json) : Z :=
  match field k e with
  | Some (J (PNum (Fin q))) => Qfloor q
  | _ => 0
  end.

(** The string under [k] in a serialised object. *)
Definition str_field (k : string) (e : json) : string :=
  match field k e with
  | Some (J (PStr s)) => s
  | _ => ""
  end.

(** A field of the [stats] object of a snapshot. *)
Definition stat (k : string) (j : json) : Z :=
  match field "stats" j with
  | Some stats => int_field k stats
  | None => 0
  end.

(** The sum over all departments of the counters of a skill. *)
Definition total_missing_of (skill : string) (d : Store) : Z :=
  Zsum (map SkillCounter.total_missing
          (filter (fun r => SkillCounter.skill_name r = skill) (skill_analytics d))).

(** Whether the row [storeToDatabase] inserts for a submission passes the
    filter of a request. *)
Definition whereClause_data (query : Query.t) (data : Data.t) : bool :=
  (if truthy (Query.department query)
   then String.eqb (or_else (Data.department data) "Unknown")
          (default "" (Query.department query))
   else true)
  && (if truthy (Query.academicYear query)
      then String.eqb (or_else (Data.academic_year data) "Not Specified")
             (default "" (Query.academicYear query))
      else true).

(** A serialised string. *)
Definition json_string (e : json) : string :=
  match e with
  | J (PStr s) => s
  | _ => ""
  end.





(** The strings of one tier of [skillPriorityBreakdown]. *)
Definition tier_list (k : string) (j : json) : list string :=
  match mbind (field k) (field "skillPriorityBreakdown" j) with
  | Some (JArr l) => map json_string l
  | _ => []
  end.

(** The records a request selects. *)
Definition matching (query : Query.t) (d : Store) : list SkillGapRecord.row :=
  List.filter (whereClause query) (skill_gaps d).





(** The alert of the trending rule. *)
Definition is_trending_alert (a : json) : Prop :=
  has_severity "warning" a /\ field "action" a = Some (JS "Add to Curriculum").

(** The trend rows the trending query reads at a given clock. *)
Definition window_rows (env : Env) (d : Store) : list TrendCounter.row :=
  filter (fun r => TrendCounter.year r = getFullYear (now env)
                   /\ Math_max 1 (getWeekNumber (now env) - 3) <= TrendCounter.week_number r)
         (trends d).

(* ===================================================================== *)
(** * Accounts and authentication                                         *)
(* ===================================================================== *)

(** Table [users], [email TEXT UNIQUE NOT NULL]; [role] is ['student']
    unless the insert says otherwise. *)
Module User.
Record row := {
  id : Z;
  email : string;
  password : string;
  full_name : string;
  role : string;
  university : option string;
  department : option string;
  academic_year : option string;
  student_id : option string;
  phone : option string;
  created_at : string;
  last_login : option string
}.
End User.

(** The accounts and what the two handlers wrote to the console. *)
Record Accounts := {
  users : list User.row;
  errors : list string
}.

Definition console_error (line : string) (s : Accounts) : Accounts :=
  {| users := users s; errors := (errors s ++ [line])%list |}.

(** The payload the server signs into a token. *)
Module Payload.
Record t := {
  id : Z;
  email : string;
  role : string;
  fullName : string
}.
End Payload.

(** The two libraries: [bcrypt.hash(password, 10)],
    [bcrypt.compare(password, hash)], [jwt.sign(payload, JWT_SECRET,
    { expiresIn: "24h" })] and [jwt.verify(token, JWT_SECRET)], which
    gives the payload or throws. *)
Record Crypto := {
  bcrypt_hash : string -> string;
  bcrypt_compare : string -> string -> bool;
  jwt_sign : Payload.t -> string;
  jwt_verify : string -> option Payload.t
}.

(** The steps of the two handlers that may throw; the text of a failure
    is what [console.error] prints for the caught error. *)
Inductive AuthStatement :=
  | FindUser
  | HashPassword
  | InsertUser
  | ComparePassword
  | TouchLastLogin
  | SignToken.

Definition attempt {A : Type} (throws : AuthStatement -> option string) (s : AuthStatement)
    (a : A) : outcome A :=
  match throws s with
  | Some msg => Throws msg
  | None => Done a
  end.

(** What the two handlers send: [res.status(s).json({ error })], or
    [res.json({ success: true, message, token, user })]. *)
Inductive AuthReply :=
  | Refused (status : Z) (error : string)
  | Granted (message token : string) (user : obj).

(** [req.body] of [/api/auth/register]. *)
Module RegisterBody.
Record t := {
  email : option string;
  password : option string;
  fullName : option string;
  university : option string;
  department : option string;
  academicYear : option string;
  studentId : option string;
  phone : option string
}.
End RegisterBody.

(** [req.body] of [/api/auth/login]. *)
Module LoginBody.
Record t := {
  email : option string;
  password : option string
}.
End LoginBody.

(** [SELECT ... FROM users WHERE email = ?] with [.get]. *)
Definition find_user (email : string) (t : list User.row) : option User.row :=
  find (fun r => String.eqb (User.email r) email) t.

(** [app.post("/api/auth/register", ...)].  No other request is taken
    to run while the handler awaits [bcrypt.hash]; an insert of the same
    email in between makes the INSERT throw, the case [InsertUser] of
    [throws]. *)
Definition register (c : Crypto) (body : RegisterBody.t) (env : Env)
    (throws : AuthStatement -> option string) (s : Accounts) : AuthReply * Accounts :=
  let failed msg s := (Refused 500 "Registration failed",
                       console_error ("Registration error: " ++ msg) s) in
  if negb (truthy (RegisterBody.email body)) || negb (truthy (RegisterBody.password body))
     || negb (truthy (RegisterBody.fullName body))
  then (Refused 400 "Email, password, and full name are required", s)
  else
    let email := default "" (RegisterBody.email body) in
    let password := default "" (RegisterBody.password body) in
    let fullName := default "" (RegisterBody.fullName body) in
    match attempt throws FindUser (find_user email (users s)) with
    | Throws msg => failed msg s
    | Done (Some _) => (Refused 400 "User with this email already exists", s)
    | Done None =>
        match attempt throws HashPassword (bcrypt_hash c password) with
        | Throws msg => failed msg s
        | Done hashedPassword =>
            match attempt throws InsertUser tt with
            | Throws msg => failed msg s
            | Done _ =>
                let lastInsertRowid := next_id (map User.id (users s)) in
                let r := {|
                  User.id := lastInsertRowid;
                  User.email := email;
                  User.password := hashedPassword;
                  User.full_name := fullName;
                  User.role := "student";
                  User.university := RegisterBody.university body;
                  User.department := RegisterBody.department body;
                  User.academic_year := RegisterBody.academicYear body;
                  User.student_id := RegisterBody.studentId body;
                  User.phone := RegisterBody.phone body;
                  User.created_at := CURRENT_TIMESTAMP env;
                  User.last_login := None |} in
                let s := {| users := (users s ++ [r])%list; errors := errors s |} in
                let payload := {| Payload.id := lastInsertRowid;
                                  Payload.email := email;
                                  Payload.role := "student";
                                  Payload.fullName := fullName |} in
                match attempt throws SignToken (jwt_sign c payload) with
                | Throws msg => failed msg s
                | Done token =>
                    (Granted "Registration successful" token
                       [("id", PNum (of_Z lastInsertRowid));
                        ("email", PStr email);
                        ("fullName", PStr fullName);
                        ("role", PStr "student")],
                     s)
                end
            end
        end
    end.

(** [UPDATE users SET last_login = CURRENT_TIMESTAMP WHERE id = ?] *)
Definition touch_last_login (i : Z) (ts : string) (t : list User.row) : list User.row :=
  map (fun r =>
         if Z.eqb (User.id r) i then
           {| User.id := User.id r;
              User.email := User.email r;
              User.password := User.password r;
              User.full_name := User.full_name r;
              User.role := User.role r;
              User.university := User.university r;
              User.department := User.department r;
              User.academic_year := User.academic_year r;
              User.student_id := User.student_id r;
              User.phone := User.phone r;
              User.created_at := User.created_at r;
              User.last_login := Some ts |}
         else r) t.

(** A column that may be NULL, in a response. *)
Definition nullable (x : option string) : prim :=
  match x with
  | Some s => PStr s
  | None => PNull
  end.

(** [app.post("/api/auth/login", ...)] *)
Definition login (c : Crypto) (body : LoginBody.t) (env : Env)
    (throws : AuthStatement -> option string) (s : Accounts) : AuthReply * Accounts :=
  let failed msg s := (Refused 500 "Login failed", console_error ("Login error: " ++ msg) s) in
  if negb (truthy (LoginBody.email body)) || negb (truthy (LoginBody.password body))
  then (Refused 400 "Email and password are required", s)
  else
    let email := default "" (LoginBody.email body) in
    let password := default "" (LoginBody.password body) in
    match attempt throws FindUser (find_user email (users s)) with
    | Throws msg => failed msg s
    | Done None => (Refused 401 "Invalid email or password", s)
    | Done (Some user) =>
        match attempt throws ComparePassword (bcrypt_compare c password (User.password user)) with
        | Throws msg => failed msg s
        | Done false => (Refused 401 "Invalid email or password", s)
        | Done true =>
            match attempt throws TouchLastLogin tt with
            | Throws msg => failed msg s
            | Done _ =>
                let s := {| users := touch_last_login (User.id user) (CURRENT_TIMESTAMP env)
                                       (users s);
                            errors := errors s |} in
                let payload := {| Payload.id := User.id user;
                                  Payload.email := User.email user;
                                  Payload.role := User.role user;
                                  Payload.fullName := User.full_name user |} in
                match attempt throws SignToken (jwt_sign c payload) with
                | Throws msg => failed msg s
                | Done token =>
                    (Granted "Login successful" token
                       [("id", PNum (of_Z (User.id user)));
                        ("email", PStr (User.email user));
                        ("fullName", PStr (User.full_name user));
                        ("role", PStr (User.role user));
                        ("department", nullable (User.department user));
                        ("university", nullable (User.university user))],
                     s)
                end
            end
        end
    end.

(** ** The middleware *)

(** [s.split(sep)] for a separator of one character. *)
Fixpoint split (sep : ascii) (s : string) : list string :=
  match s with
  | EmptyString => [EmptyString]
  | String ch rest =>
      if Ascii.eqb ch sep then EmptyString :: split sep rest
      else match split sep rest with
           | [] => [String ch EmptyString]
           | w :: ws => String ch w :: ws
           end
  end.

(** What the middleware reads of a request. *)
Record Credentials := {
  authorization : option string;   (* req.headers["authorization"] *)
  cookie_token : option string     (* req.cookies.token *)
}.

(** [req.headers["authorization"]?.split(" ")[1] || req.cookies.token] *)
Definition presented_token (req : Credentials) : option string :=
  let fromHeader := authorization req ≫= (fun h => split " " h !! 1%nat) in
  if truthy fromHeader then fromHeader else cookie_token req.

Definition deny (code : Z) (error : string) : Response :=
  {| status := code; body := SendJson (JObj [("error", JS error)]) |}.

(** [authenticateToken(req, res, next)]; [next] receives [req.user]. *)
Definition authenticateToken {W : Type} (c : Crypto) (req : Credentials)
    (next : Payload.t -> W -> Response * W) (w : W) : Response * W :=
  let token := presented_token req in
  if negb (truthy token) then (deny 401 "Access denied. No token provided.", w)
  else
    match jwt_verify c (default "" token) with
    | Some decoded => next decoded w
    | None => (deny 403 "Invalid or expired token", w)
    end.

(** [requireAdmin(req, res, next)] *)
Definition requireAdmin {W : Type} (user : Payload.t) (next : W -> Response * W) (w : W)
  : Response * W :=
  if negb (String.eqb (Payload.role user) "admin")
  then (deny 403 "Access denied. Admin privileges required.", w)
  else next w.

(** [app.get("/api/analytics", authenticateToken, requireAdmin, ...)] *)
Definition analytics_route (c : Crypto) (req : Credentials) (query : Query.t) (env : Env)
    (throws : Statement -> option string) (w : World) : Response * World :=
  authenticateToken c req (fun user => requireAdmin user (analytics query env throws)) w.

(** [app.post("/api/analyze", authenticateToken, ...)] *)
Definition analyze_route (c : Crypto) (req : Credentials) (h : Helpers) (body : AnalyzeBody)
    (ai : AiResult) (env : Env) (f : Faults) (w : World) : Response * World :=
  authenticateToken c req (fun _ => analyze h body ai env f) w.

(** ** Observations on accounts *)

(** A string without a space. *)
Definition word (s : string) : bool :=
  forallb (fun ch => negb (Ascii.eqb ch " ")) (list_ascii_of_string s).

(** What of a user row identifies the account and its rights. *)
Definition identity (r : User.row) : Z * string * string * string :=
  (User.id r, User.email r, User.role r, User.password r).

(** The constraints of the table: keys and emails are distinct. *)
Definition accounts_ok (s : Accounts) : Prop :=
  NoDup (map User.id (users s)) /\ NoDup (map User.email (users s)).

Definition granted (r : AuthReply) : bool :=
  match r with
  | Granted _ _ _ => true
  | Refused _ _ => false
  end.

Definition token_of (r : AuthReply) : string :=
  match r with
  | Granted _ token _ => token
  | Refused _ _ => ""
  end.

Definition user_of (r : AuthReply) : obj :=
  match r with
  | Granted _ _ user => user
  | Refused _ _ => []
  end.

(** The payload a registration signs. *)
Definition registration_payload (body : RegisterBody.t) (s : Accounts) : Payload.t :=
  {| Payload.id := next_id (map User.id (users s));
     Payload.email := default "" (RegisterBody.email body);
     Payload.role := "student";
     Payload.fullName := default "" (RegisterBody.fullName body) |}.

Definition bearer (token : string) : Credentials :=
  {| authorization := Some ("Bearer " ++ token); cookie_token := None |}.

Definition never : AuthStatement -> option string := fun _ => None.

(** A stand-in for the two libraries, for examples: the hash is the
    password behind a prefix and the token is the email. *)
Definition sample_crypto (accounts : list Payload.t) : Crypto :=
  {| bcrypt_hash := fun p => "$2b$10$" ++ p;
     bcrypt_compare := fun p h => String.eqb ("$2b$10$" ++ p) h;
     jwt_sign := Payload.email;
     jwt_verify := fun t => find (fun p => String.eqb (Payload.email p) t) accounts |}.

Definition no_accounts : Accounts := {| users := []; errors := [] |}.

Definition ada : RegisterBody.t :=
  {| RegisterBody.email := Some "ada@example.edu";
     RegisterBody.password := Some "difference";
     RegisterBody.fullName := Some "Ada";
     RegisterBody.university := None;
     RegisterBody.department := Some "CSE";
     RegisterBody.academicYear := None;
     RegisterBody.studentId := None;
     RegisterBody.phone := None |}.

Definition ada_payload : Payload.t :=
  {| Payload.id := 1; Payload.email := "ada@example.edu"; Payload.role := "student";
     Payload.fullName := "Ada" |}.

(* ===================================================================== *)
(** * The other endpoints                                                 *)
(* ===================================================================== *)

(** The double quote, the backslash and the line feed. *)
Definition quote : ascii := "034"%char.
Definition backslash : ascii := "092"%char.
Definition LF : ascii := "010"%char.

Definition hex_digit (n : N) : ascii :=
  nth (N.to_nat n)
    ["0"; "1"; "2"; "3"; "4"; "5"; "6"; "7"; "8"; "9"; "a"; "b"; "c"; "d"; "e"; "f"]%char
    "0"%char.

(** [JSON.stringify] of a string, a character at a time: the quote, the
    backslash and the control characters are escaped, every other byte
    of the UTF-8 text is kept. *)
Definition JSON_escape (ch : ascii) : string :=
  let n := N_of_ascii ch in
  if Ascii.eqb ch quote then String backslash (String quote EmptyString)
  else if Ascii.eqb ch backslash then String backslash (String backslash EmptyString)
  else if N.eqb n 8 then String backslash "b"
  else if N.eqb n 9 then String backslash "t"
  else if N.eqb n 10 then String backslash "n"
  else if N.eqb n 12 then String backslash "f"
  else if N.eqb n 13 then String backslash "r"
  else if N.ltb n 32 then
    String backslash
      ("u00" ++ String (hex_digit (n / 16)) (String (hex_digit (n mod 16)) EmptyString))
  else String ch EmptyString.

Fixpoint JSON_escape_all (s : string) : string :=
  match s with
  | EmptyString => EmptyString
  | String ch rest => JSON_escape ch ++ JSON_escape_all rest
  end.

Definition JSON_stringify_string (s : string) : string :=
  String quote (JSON_escape_all s ++ String quote EmptyString).

(** [JSON.stringify] of an array of strings, the text of the columns
    [missing_skills] and [matched_skills]. *)
Definition JSON_stringify_strings (l : list string) : string :=
  "[" ++ String.concat "," (map JSON_stringify_string l) ++ "]".

(** ** [/api/export] *)

Module ExportQuery.
Record t := {
  format : option string;
  department : option string;
  academicYear : option string
}.
End ExportQuery.

(** The filters of the export are those of the analytics. *)
Definition export_filter (query : ExportQuery.t) : Query.t :=
  {| Query.department := ExportQuery.department query;
     Query.academicYear := ExportQuery.academicYear query;
     Query.dateRange := None |}.

(** A row of [SELECT student_name, department, academic_year, job_role,
    company_name, match_percentage, missing_skills, matched_skills,
    timestamp FROM skill_gaps]. *)
Definition export_row (r : SkillGapRecord.row) : obj :=
  [("student_name", PStr (SkillGapRecord.student_name r));
   ("department", PStr (SkillGapRecord.department r));
   ("academic_year", PStr (SkillGapRecord.academic_year r));
   ("job_role", PStr (SkillGapRecord.job_role r));
   ("company_name", PStr (SkillGapRecord.company_name r));
   ("match_percentage", score_value (SkillGapRecord.match_percentage r));
   ("missing_skills", PStr (JSON_stringify_strings (SkillGapRecord.missing_skills r)));
   ("matched_skills", PStr (JSON_stringify_strings (SkillGapRecord.matched_skills r)));
   ("timestamp", PStr (SkillGapRecord.timestamp r))].

(** [value.replace] of every double quote by two of them. *)
Fixpoint double_quotes (s : string) : string :=
  match s with
  | EmptyString => EmptyString
  | String ch rest =>
      if Ascii.eqb ch quote then String quote (String quote (double_quotes rest))
      else String ch (double_quotes rest)
  end.

(** What the inner [map] of [convertToCSV] makes of a value, as [join]
    then prints it: [null] is an object and goes through
    [JSON.stringify], a string is quoted, a number is returned as it is
    and printed by [join], and [undefined] joins as the empty string.
    The text of a number that is not whole is not modelled: the printer
    is a parameter. *)
Definition csv_value (toString : number -> string) (v : prim) : string :=
  match v with
  | PNull => "null"
  | PStr s => String quote (double_quotes s ++ String quote EmptyString)
  | PNum n => toString n
  | PUndef => ""
  end.

(** [convertToCSV(data)] *)
Definition convertToCSV (toString : number -> string) (data : list obj) : string :=
  match data with
  | [] => ""
  | first :: _ =>
      let headers := map fst first in
      let rows :=
        map (fun row =>
               String.concat "," (map (fun header => csv_value toString (get header row)) headers))
            data in
      String.concat (String LF EmptyString) (String.concat "," headers :: rows)
  end.

Inductive ExportReply :=
  | SendCsv (csv : string)
  | SendData (data : list obj) (total : nat)
  | ExportFailed.

(** [app.get("/api/export", ...)]; the query throws or returns.  The
    text of a failure is what [console.error] prints for the caught
    error. *)
Definition export (toString : number -> string) (query : ExportQuery.t)
    (throws : option string) (w : World) : ExportReply * World :=
  match throws with
  | Some msg => (ExportFailed, console_log ("Export error: " ++ msg) w)
  | None =>
      let data :=
        map export_row
          (order_by by_timestamp_desc
             (List.filter (whereClause (export_filter query)) (skill_gaps (db w)))) in
      if String.eqb (default "" (ExportQuery.format query)) "csv"
      then (SendCsv (convertToCSV toString data), w)
      else (SendData data (length data), w)
  end.

(** ** [/api/departments] and [/api/academic-years] *)

(** [SELECT DISTINCT key, COUNT( * ) as count FROM skill_gaps
    WHERE key != ? GROUP BY key ORDER BY ... DESC]: the grouping, which
    SQLite runs in the direction of the ORDER BY, descending. *)
Definition group_counts (key : SkillGapRecord.row -> string) (excluded : string)
    (rows : list SkillGapRecord.row) : list (string * nat) :=
  let kept := filter (fun r => key r <> excluded) rows in
  map (fun k => (k, length (filter (fun r => key r = k) kept)))
      (reverse (group_keys (map key kept))).

(** [ORDER BY count DESC] *)
Definition by_number_desc (a b : string * nat) : Prop := (snd b <= snd a)%nat.

#[global] Instance by_number_desc_dec a b : Decision (by_number_desc a b).
Proof. unfold by_number_desc. apply _. Defined.

(** [ORDER BY academic_year DESC] *)
Definition by_name_desc (a b : string * nat) : Prop := String.leb (fst b) (fst a) = true.

#[global] Instance by_name_desc_dec a b : Decision (by_name_desc a b).
Proof. unfold by_name_desc. apply _. Defined.

Definition count_json (kname : string) (g : string * nat) : json :=
  JObj [(kname, JS (fst g)); ("count", Jnat (snd g))].

(** [app.get("/api/departments", ...)] *)
Definition departments (throws : option string) (d : Store) : Response :=
  match throws with
  | Some _ =>
      {| status := 500; body := SendJson (JObj [("error", JS "Failed to fetch departments")]) |}
  | None =>
      {| status := 200;
         body := SendJson (JObj [
           ("departments",
            JArr (map (count_json "department")
                    (order_by by_number_desc
                       (group_counts SkillGapRecord.department "Unknown" (skill_gaps d)))))]) |}
  end.

(** [app.get("/api/academic-years", ...)] *)
Definition academic_years (throws : option string) (d : Store) : Response :=
  match throws with
  | Some _ =>
      {| status := 500;
         body := SendJson (JObj [("error", JS "Failed to fetch academic years")]) |}
  | None =>
      {| status := 200;
         body := SendJson (JObj [
           ("years",
            JArr (map (count_json "academic_year")
                    (order_by by_name_desc
                       (group_counts SkillGapRecord.academic_year "Not Specified"
                          (skill_gaps d)))))]) |}
  end.

(** ** [/api/company-readiness/:company] *)

(** The order of SQLite on the values of the column: a number comes
    before a text, numbers go by value and texts bytewise. *)
Definition score_le (a b : Score) : bool :=
  match a, b with
  | Real x, Real y => Qle_bool x y
  | Real _, Text _ _ _ => true
  | Text _ _ _, Real _ => false
  | Text s _ _, Text t _ _ => String.leb s t
  end.

(** [ORDER BY match_percentage DESC] *)
Definition by_match_desc (a b : SkillGapRecord.row) : Prop :=
  score_le (SkillGapRecord.match_percentage b) (SkillGapRecord.match_percentage a) = true.

#[global] Instance by_match_desc_dec a b : Decision (by_match_desc a b).
Proof. unfold by_match_desc. apply _. Defined.





(* ===================================================================== *)
(** * The pages                                                           *)
(* ===================================================================== *)

(** [Math.floor] *)
Definition Math_floor (x : number) : number :=
  match x with
  | Fin q => Fin (inject_Z (Qfloor q))
  | _ => x
  end.

(** [x - y] *)
Definition js_sub (x y : number) : number := js_add x (js_neg y).

(** [updateActivity] of the dashboard: the class of an activity's score. *)
Definition scoreClass (matchScore : number) : string :=
  if js_ge matchScore (of_Z 80) then "high"
  else if js_ge matchScore (of_Z 60) then "medium"
  else "low".

(** [getTimeAgo(date)] of the dashboard, on the time values of
    [new Date()] and of [date] (NaN for an invalid date). *)
Definition getTimeAgo (toLocaleDateString : number -> string) (today : Z) (date : number)
  : string :=
  let seconds := Math_floor (js_div (js_sub (of_Z today) date) (of_Z 1000)) in
  if js_lt seconds (of_Z 60) then "Just now"
  else if js_lt seconds (of_Z 3600) then
    number_to_string (Math_floor (js_div seconds (of_Z 60))) ++ " minutes ago"
  else if js_lt seconds (of_Z 86400) then
    number_to_string (Math_floor (js_div seconds (of_Z 3600))) ++ " hours ago"
  else if js_lt seconds (of_Z 604800) then
    number_to_string (Math_floor (js_div seconds (of_Z 86400))) ++ " days ago"
  else toLocaleDateString date.

(** [updateScoreDescription(score)] of the student page: the title and
    the description it shows. *)
Definition updateScoreDescription (score : number) : string * string :=
  if js_ge score (of_Z 80) then
    ("Excellent Match! üéâ", "You have most of the required skills for this role")
  else if js_ge score (of_Z 60) then
    ("Good Match! üëç", "You meet many requirements, focus on improving key skills")
  else if js_ge score (of_Z 40) then
    ("Partial Match üìö", "You need to develop several skills to be job-ready")
  else
    ("Skills Gap Detected ‚ö†Ô∏è", "Focus on building fundamental skills for this role").

(** ** Observations on the other endpoints and the pages *)

(** The score an activity of the snapshot carries. *)
Definition matchScore_of (activity : json) : number :=
  match field "matchScore" activity with
  | Some (J (PNum n)) => n
  | _ => NaN
  end.

(** The pairs under a key of a reply. *)
Definition listed (kname : string) (k : string) (r : Response) : list (string * Z) :=
  map (fun e => (str_field kname e, int_field "count" e)) (elements k (sent r)).

(** A text that does not begin with a quote. *)
Definition unquoted (t : string) : Prop :=
  match t with
  | String ch _ => ch <> quote
  | EmptyString => True
  end.


(** The texts of the columns a record exports. *)
Definition export_texts (toString : number -> string) (r : SkillGapRecord.row) : list string :=
  map (fun kv => csv_value toString (snd kv)) (export_row r).

(** A text without a comma. *)
Definition plain (s : string) : bool :=
  forallb (fun ch => negb (Ascii.eqb ch ",")) (list_ascii_of_string s).

(** A text with a quote, a comma and a line feed in it. *)
Definition awkward_text : string :=
  "Ada " ++ String quote ("the first" ++ String quote (", of" ++ String LF "London")).

(** Two records whose texts hold quotes, commas and line feeds, the
    second with a score that is a text; their keys and student ids, which
    the export does not select, depend on [i]. *)
Definition awkward_records (i : Z) : list SkillGapRecord.row :=
  let record (k : Z) (pct : Score) :=
    {| SkillGapRecord.id := i + k;
       SkillGapRecord.user_id := None;
       SkillGapRecord.student_id := "STU_" ++ pretty (i + k);
       SkillGapRecord.student_name := awkward_text;
       SkillGapRecord.department := "CS, EE";
       SkillGapRecord.academic_year := "3";
       SkillGapRecord.job_role := awkward_text;
       SkillGapRecord.company_name := String quote "";
       SkillGapRecord.match_percentage := pct;
       SkillGapRecord.missing_skills := [awkward_text; "Go"];
       SkillGapRecord.matched_skills := [];
       SkillGapRecord.skill_priority := no_priority;
       SkillGapRecord.recommendations := [];
       SkillGapRecord.timestamp := "2024-03-06 09:00:00" |} in
  [record 0 (Real 80); record 1 (Text "N/A, yet" NaN 0); record 2 (Real 39)].

(** The text of the numbers of these records. *)
Definition sample_toString (n : number) : string :=
  if js_ge n (of_Z 50) then "80" else "39".

(* ===================================================================== *)
(** * Tactics                                                             *)
(* ===================================================================== *)

(** Case analysis on membership in an explicit list. *)
Ltac elem_cases H :=
  repeat match type of H with
    | _ ∈ _ :: _ => apply elem_of_cons in H as [-> | H]
    | _ ∈ (_ ++ _)%list => apply elem_of_app in H as [H | H]
    | _ ∈ [] => apply elem_of_nil in H; contradiction
    end.

(** The same, for a string that is none of the listed ones. *)
Ltac not_listed H :=
  repeat match type of H with
    | _ ∈ _ :: _ => apply elem_of_cons in H as [H | H]; [discriminate H|]
    | _ ∈ [] => apply elem_of_nil in H; contradiction
    end.


(* ===================================================================== *)
(** * Rounding to a double                                                *)
(* ===================================================================== *)

Section Rounding.
Local Open Scope Q_scope.

Lemma two_pow_pos k : 0 < 2 ^ k.
Proof. apply Qpower_0_lt. reflexivity. Qed.

Lemma two_pow_add a b : 2 ^ (a + b) == 2 ^ a * 2 ^ b.
Proof. apply Qpower_plus. discriminate. Qed.

Lemma two_pow_Z a : (0 <= a)%Z -> inject_Z (2 ^ a) == 2 ^ a.
Proof. intros. now rewrite Zpower_Qpower. Qed.

(** [ilog2] is the binary exponent. *)
Lemma ilog2_spec q : 0 < q -> 2 ^ ilog2 q <= q /\ q < 2 ^ (ilog2 q + 1).
Proof.
  intros Hq. destruct q as [n d]. unfold ilog2. cbn [Qnum Qden].
  assert (Hn : (0 < n)%Z) by (unfold Qlt in Hq; cbn in Hq; lia).
  set (a := Z.log2 n). set (b := Z.log2 (Z.pos d)).
  destruct (Z.log2_spec n Hn) as [Ha1 Ha2]. fold a in Ha1, Ha2.
  destruct (Z.log2_spec (Z.pos d) eq_refl) as [Hb1 Hb2]. fold b in Hb1, Hb2.
  assert (Ha0 : (0 <= a)%Z) by apply Z.log2_nonneg.
  assert (Hb0 : (0 <= b)%Z) by apply Z.log2_nonneg.
  assert (Ea : inject_Z (2 ^ a) == 2 ^ a) by now apply two_pow_Z.
  assert (Eb : inject_Z (2 ^ b) == 2 ^ b) by now apply two_pow_Z.
  assert (Ea' : inject_Z (2 ^ (a + 1)) == 2 ^ (a + 1)) by (apply two_pow_Z; lia).
  assert (Eb' : inject_Z (2 ^ (b + 1)) == 2 ^ (b + 1)) by (apply two_pow_Z; lia).
  assert (Hq' : (n # d) * inject_Z (Z.pos d) == inject_Z n).
  { unfold Qeq, Qmult, inject_Z; cbn. nia. }
  assert (U : (n # d) * 2 ^ b < 2 ^ (a + 1)).
  { rewrite <- Ea', <- Eb. apply Qle_lt_trans with (inject_Z n).
    - rewrite <- Hq'. apply Qmult_le_l; [exact Hq|]. rewrite <- Zle_Qle. lia.
    - rewrite <- Zlt_Qlt. lia. }
  assert (L : 2 ^ a < (n # d) * 2 ^ (b + 1)).
  { rewrite <- Ea, <- Eb'. apply Qle_lt_trans with (inject_Z n).
    - rewrite <- Zle_Qle. lia.
    - rewrite <- Hq'. apply Qmult_lt_l; [exact Hq|]. rewrite <- Zlt_Qlt. lia. }
  pose proof (two_pow_pos b) as Pb. pose proof (two_pow_pos (b + 1)) as Pb'.
  destruct (Qle_bool (2 ^ (a - b)) (n # d)) eqn:E.
  - split; [now apply Qle_bool_iff|].
    apply Qmult_lt_r with (2 ^ b); [exact Pb|].
    rewrite <- two_pow_add. replace (a - b + 1 + b)%Z with (a + 1)%Z by lia. exact U.
  - split.
    + apply Qlt_le_weak. apply Qmult_lt_r with (2 ^ (b + 1)); [exact Pb'|].
      rewrite <- two_pow_add. replace (a - b - 1 + (b + 1))%Z with a by lia. exact L.
    + replace (a - b - 1 + 1)%Z with (a - b)%Z by lia.
      apply Qnot_le_lt. intros H. apply Qle_bool_iff in H. congruence.
Qed.

Lemma ilog2_mono q1 q2 : 0 < q1 -> q1 <= q2 -> (ilog2 q1 <= ilog2 q2)%Z.
Proof.
  intros H1 H12.
  destruct (ilog2_spec q1 H1) as [L1 _].
  destruct (ilog2_spec q2 (Qlt_le_trans _ _ _ H1 H12)) as [_ U2].
  assert (H : 2 ^ ilog2 q1 < 2 ^ (ilog2 q2 + 1)).
  { eapply Qle_lt_trans; [exact L1|]. eapply Qle_lt_trans; eassumption. }
  apply Qpower_lt_compat_l_inv in H; [lia | reflexivity].
Qed.

Lemma Qfloor_bounds q : inject_Z (Qfloor q) <= q /\ q < inject_Z (Qfloor q) + 1.
Proof.
  split; [apply Qfloor_le|].
  pose proof (Qlt_floor q) as H. rewrite inject_Z_plus in H. exact H.
Qed.

Lemma rne_cases q : rne q = Qfloor q \/ rne q = (Qfloor q + 1)%Z.
Proof. unfold rne. destruct (_ ?= _); [destruct (Z.even _)|..]; auto. Qed.

(** Rounding never crosses an integer. *)
Lemma rne_ge_int q z : inject_Z z <= q -> (z <= rne q)%Z.
Proof.
  intros H. assert (z <= Qfloor q)%Z.
  { rewrite <- (Qfloor_Z z). now apply Qfloor_resp_le. }
  destruct (rne_cases q) as [-> | ->]; lia.
Qed.

Lemma rne_le_int q z : q <= inject_Z z -> (rne q <= z)%Z.
Proof.
  intros H. destruct (Qfloor_bounds q) as [L U].
  assert (F : (Qfloor q <= z)%Z).
  { rewrite <- (Qfloor_Z z). now apply Qfloor_resp_le. }
  destruct (Z.eq_dec (Qfloor q) z) as [E | NE].
  - assert (Hq : q == inject_Z z) by (apply Qle_antisym; [exact H | now rewrite <- E]).
    unfold rne. rewrite E.
    assert (C : (q - inject_Z z ?= 1 # 2) = Lt).
    { apply Qlt_alt. rewrite Hq. unfold Qminus. rewrite Qplus_opp_r. reflexivity. }
    rewrite C. lia.
  - destruct (rne_cases q) as [-> | ->]; lia.
Qed.

Lemma rne_mono q1 q2 : q1 <= q2 -> (rne q1 <= rne q2)%Z.
Proof.
  intros H.
  assert (F : (Qfloor q1 <= Qfloor q2)%Z) by now apply Qfloor_resp_le.
  destruct (Z.eq_dec (Qfloor q1) (Qfloor q2)) as [E | NE].
  - unfold rne. rewrite E.
    destruct (q1 - inject_Z (Qfloor q2) ?= 1 # 2) eqn:C1;
    destruct (q2 - inject_Z (Qfloor q2) ?= 1 # 2) eqn:C2;
    try destruct (Z.even _); try lia; exfalso;
    repeat match goal with
      | H : (_ ?= _) = Eq |- _ => apply Qeq_alt in H
      | H : (_ ?= _) = Lt |- _ => apply Qlt_alt in H
      | H : (_ ?= _) = Gt |- _ => apply Qgt_alt in H
      end; lra.
  - destruct (rne_cases q1) as [-> | ->]; destruct (rne_cases q2) as [-> | ->]; lia.
Qed.

Lemma Qdiv_le_compat_r a b c : 0 < c -> a <= b -> a / c <= b / c.
Proof.
  intros Hc H. unfold Qdiv. apply Qmult_le_compat_r; [exact H|].
  apply Qlt_le_weak, Qinv_lt_0_compat, Hc.
Qed.

(** Rounding to a double is monotone. *)
Lemma round_pos_mono q1 q2 : 0 < q1 -> q1 <= q2 -> round_pos q1 <= round_pos q2.
Proof.
  intros H1 H12. assert (H2 : 0 < q2) by (eapply Qlt_le_trans; eassumption).
  unfold round_pos. rewrite !Qred_correct.
  pose proof (ilog2_mono q1 q2 H1 H12) as Hl.
  set (e1 := Z.max (ilog2 q1 - 52) (-1074)).
  set (e2 := Z.max (ilog2 q2 - 52) (-1074)).
  assert (He : (e1 <= e2)%Z) by (unfold e1, e2; lia).
  destruct (Z.eq_dec e1 e2) as [E | NE].
  - rewrite E. apply Qmult_le_compat_r; [|apply Qlt_le_weak, two_pow_pos].
    rewrite <- Zle_Qle. apply rne_mono. apply Qdiv_le_compat_r; [apply two_pow_pos | exact H12].
  - assert (Hlt : (e1 + 1 <= e2)%Z) by lia.
    assert (E2 : e2 = (ilog2 q2 - 52)%Z) by (unfold e1, e2 in *; lia).
    destruct (ilog2_spec q1 H1) as [_ U1].
    destruct (ilog2_spec q2 H2) as [L2 _].
    apply Qle_trans with (2 ^ 53 * 2 ^ e1).
    + apply Qmult_le_compat_r; [|apply Qlt_le_weak, two_pow_pos].
      rewrite <- (two_pow_Z 53) by lia. rewrite <- Zle_Qle. apply rne_le_int.
      rewrite two_pow_Z by lia.
      apply Qle_shift_div_r; [apply two_pow_pos|]. rewrite <- two_pow_add.
      apply Qlt_le_weak. eapply Qlt_le_trans; [exact U1|].
      apply Qpower_le_compat_l; [unfold e1; lia | discriminate].
    + apply Qle_trans with (2 ^ 52 * 2 ^ e2).
      * rewrite <- !two_pow_add. apply Qpower_le_compat_l; [lia | discriminate].
      * apply Qmult_le_compat_r; [|apply Qlt_le_weak, two_pow_pos].
        rewrite <- (two_pow_Z 52) by lia. rewrite <- Zle_Qle. apply rne_ge_int.
        rewrite two_pow_Z by lia.
        apply Qle_shift_div_l; [apply two_pow_pos|]. rewrite <- two_pow_add.
        rewrite E2. replace (52 + (ilog2 q2 - 52))%Z with (ilog2 q2) by lia. exact L2.
Qed.

Lemma round_pos_nonneg q : 0 < q -> 0 <= round_pos q.
Proof.
  intros Hq. unfold round_pos. rewrite Qred_correct.
  apply Qmult_le_0_compat; [|apply Qlt_le_weak, two_pow_pos].
  change 0 with (inject_Z 0). rewrite <- Zle_Qle. apply rne_ge_int.
  apply Qlt_le_weak. apply Qlt_shift_div_l; [apply two_pow_pos|].
  change (inject_Z 0) with 0. rewrite Qmult_0_l. exact Hq.
Qed.

(** An integer below 2^53 is a double. *)
Lemma round_pos_int q n :
  (0 < n < 2 ^ 53)%Z -> q == inject_Z n -> round_pos q = inject_Z n.
Proof.
  intros Hn Hq.
  assert (Hpos : 0 < q) by (rewrite Hq; change 0 with (inject_Z 0); rewrite <- Zlt_Qlt; lia).
  unfold round_pos.
  set (e := Z.max (ilog2 q - 52) (-1074)).
  assert (He : (e <= 0)%Z).
  { destruct (ilog2_spec q Hpos) as [L _].
    assert (H : 2 ^ ilog2 q < 2 ^ 53).
    { eapply Qle_lt_trans; [exact L|]. rewrite Hq. rewrite <- (two_pow_Z 53) by lia.
      rewrite <- Zlt_Qlt. lia. }
    apply Qpower_lt_compat_l_inv in H; [unfold e; lia | reflexivity]. }
  assert (Hs : q / 2 ^ e == inject_Z (n * 2 ^ (- e))).
  { rewrite inject_Z_mult, two_pow_Z by lia. rewrite Qpower_opp, Hq. reflexivity. }
  assert (Hr : rne (q / 2 ^ e) = (n * 2 ^ (- e))%Z).
  { apply Z.le_antisymm; [apply rne_le_int | apply rne_ge_int]; rewrite Hs; apply Qle_refl. }
  rewrite Hr.
  assert (Hv : inject_Z (n * 2 ^ (- e)) * 2 ^ e == inject_Z n).
  { rewrite inject_Z_mult, two_pow_Z by lia. rewrite <- Qmult_assoc, <- two_pow_add.
    replace (- e + e)%Z with 0%Z by lia. apply Qmult_1_r. }
  rewrite (Qred_complete _ _ Hv). apply Qcanon.Qred_identity. cbn. apply Z.gcd_1_r.
Qed.

Lemma flq_pos q : 0 < q -> flq q = round_pos q.
Proof.
  intros Hq. unfold flq. destruct q as [[|p|p] d]; try reflexivity; now exfalso.
Qed.

(** A positive result that rounds below 2^1024 is finite. *)
Lemma fl_pos q : 0 < q -> round_pos q < 2 ^ 1024 -> fl q = Fin (round_pos q).
Proof.
  intros Hq Hb. unfold fl. rewrite (flq_pos q Hq).
  pose proof (round_pos_nonneg q Hq) as H0.
  destruct (Qle_bool (2 ^ 1024) (round_pos q)) eqn:E1.
  { apply Qle_bool_iff in E1. exfalso. apply (Qlt_not_le _ _ Hb E1). }
  destruct (Qle_bool (round_pos q) (- 2 ^ 1024)) eqn:E2; [|reflexivity].
  apply Qle_bool_iff in E2. exfalso.
  assert (H : 0 < 2 ^ 1024) by apply two_pow_pos.
  apply (Qlt_not_le (- 2 ^ 1024) 0); [|eapply Qle_trans; eassumption].
  apply Qopp_lt_compat in H. exact H.
Qed.

Lemma fl_0 q : q == 0 -> fl q = Fin 0.
Proof.
  intros Hq. unfold fl, flq.
  assert (Qnum q = 0%Z) as -> by (unfold Qeq in Hq; cbn in Hq; lia).
  reflexivity.
Qed.

End Rounding.


(* ===================================================================== *)
(** * Arithmetic of counts                                                *)
(* ===================================================================== *)

Section Counts.
Local Open Scope Q_scope.

Lemma fl_int n : (0 <= n < 2 ^ 53)%Z -> fl (inject_Z n) = Fin (inject_Z n).
Proof.
  intros Hn. destruct (Z.eq_dec n 0%Z) as [-> | NE]; [reflexivity|].
  assert (Hp : 0 < inject_Z n) by (change 0 with (inject_Z 0); rewrite <- Zlt_Qlt; lia).
  assert (E : round_pos (inject_Z n) = inject_Z n) by (apply round_pos_int; [lia | reflexivity]).
  rewrite fl_pos, E; [reflexivity | exact Hp |].
  rewrite E, <- (two_pow_Z 1024) by lia. rewrite <- Zlt_Qlt.
  apply Z.lt_trans with (2 ^ 53)%Z; [lia | reflexivity].
Qed.

(** Adding two counts is exact. *)
Lemma js_add_int a b :
  (0 <= a)%Z -> (0 <= b)%Z -> (a + b < 2 ^ 53)%Z ->
  js_add (of_Z a) (of_Z b) = of_Z (a + b).
Proof.
  intros Ha Hb Hab. unfold js_add, of_Z.
  assert (E : inject_Z a + inject_Z b = inject_Z (a + b)).
  { unfold Qplus, inject_Z; cbn. f_equal. lia. }
  rewrite E. apply fl_int. lia.
Qed.

Lemma js_gt_int a b : js_gt (of_Z a) (of_Z b) = true <-> (b < a)%Z.
Proof.
  unfold js_gt, js_lt, of_Z, Qlt_bool. rewrite Zlt_Qlt, negb_true_iff.
  split.
  - intros H. apply Qnot_le_lt. intros H'. apply Qle_bool_iff in H'. congruence.
  - intros H. destruct (Qle_bool _ _) eqn:E; [|reflexivity].
    apply Qle_bool_iff in E. exfalso. apply (Qlt_not_le _ _ H E).
Qed.


Lemma Qlt_bool_false a b : b <= a -> Qlt_bool a b = false.
Proof. intros H. unfold Qlt_bool. apply negb_false_iff, Qle_bool_iff, H. Qed.

Lemma Qlt_bool_true a b : a < b -> Qlt_bool a b = true.
Proof.
  intros H. unfold Qlt_bool. apply negb_true_iff.
  destruct (Qle_bool b a) eqn:E; [|reflexivity].
  apply Qle_bool_iff in E. exfalso. apply (Qlt_not_le _ _ H E).
Qed.

(** The percentage test of the readiness rule, on doubles, decides
    whether the exact ratio is above two fifths. *)
Lemma percentage_gt_40 a t :
  (0 <= a <= t)%Z -> (0 < t <= 2 ^ 51)%Z ->
  js_gt (js_mul (js_div (of_Z a) (of_Z t)) (of_Z 100)) (of_Z 40) = true
  <-> (2 * t < 5 * a)%Z.
Proof.
  intros Ha Ht. unfold js_div, of_Z.
  assert (Ht0 : 0 < inject_Z t) by (change 0 with (inject_Z 0); rewrite <- Zlt_Qlt; lia).
  assert (Qeq_bool (inject_Z t) 0 = false) as ->.
  { destruct (Qeq_bool _ _) eqn:E; [|reflexivity]. apply Qeq_bool_eq in E.
    rewrite E in Ht0. now exfalso. }
  destruct (Z.eq_dec a 0%Z) as [-> | NE].
  { rewrite (fl_0 (inject_Z 0 / inject_Z t)) by (unfold Qdiv; apply Qmult_0_l).
    cbn -[fl Qmult]. rewrite fl_0 by apply Qmult_0_l.
    split; [discriminate | lia]. }
  set (q := inject_Z a / inject_Z t).
  assert (Hq0 : 0 < q).
  { unfold q. apply Qlt_shift_div_l; [exact Ht0|]. rewrite Qmult_0_l.
    change 0 with (inject_Z 0). rewrite <- Zlt_Qlt. lia. }
  assert (Hq1 : q <= 1).
  { unfold q. apply Qle_shift_div_r; [exact Ht0|]. rewrite Qmult_1_l, <- Zle_Qle. lia. }
  assert (Hqlo : 1 # 2251799813685248 <= q).
  { unfold q. apply Qle_shift_div_l; [exact Ht0|].
    apply Qle_trans with (inject_Z 1).
    - apply Qle_trans with ((1 # 2251799813685248) * inject_Z (2 ^ 51)).
      + apply Qmult_le_l; [reflexivity|]. rewrite <- Zle_Qle. lia.
      + vm_compute. discriminate.
    - rewrite <- Zle_Qle. lia. }
  set (x := round_pos q).
  assert (Hx1 : x <= 1).
  { change 1 with (round_pos 1). now apply round_pos_mono. }
  assert (Hxlo : 1 # 2251799813685248 <= x).
  { change (1 # 2251799813685248) with (round_pos (1 # 2251799813685248)).
    apply round_pos_mono; [reflexivity | exact Hqlo]. }
  assert (Hx0 : 0 < x) by (eapply Qlt_le_trans; [|exact Hxlo]; reflexivity).
  assert (Eq1 : fl q = Fin x).
  { apply fl_pos; [exact Hq0|]. eapply Qle_lt_trans; [exact Hx1|].
    rewrite <- (two_pow_Z 1024) by lia. change 1 with (inject_Z 1).
    rewrite <- Zlt_Qlt. reflexivity. }
  rewrite Eq1. unfold js_mul.
  assert (Hm0 : 0 < x * inject_Z 100).
  { apply Qmult_lt_0_compat; [exact Hx0 | reflexivity]. }
  set (y := round_pos (x * inject_Z 100)).
  assert (Hy : y <= 100).
  { change 100 with (round_pos (1 * inject_Z 100)). apply round_pos_mono; [exact Hm0|].
    apply Qmult_le_compat_r; [exact Hx1 | discriminate]. }
  assert (Eq2 : fl (x * inject_Z 100) = Fin y).
  { apply fl_pos; [exact Hm0|]. eapply Qle_lt_trans; [exact Hy|].
    rewrite <- (two_pow_Z 1024) by lia. change 100 with (inject_Z 100).
    rewrite <- Zlt_Qlt. reflexivity. }
  rewrite Eq2. unfold js_gt, js_lt.
  destruct (Z_lt_le_dec (2 * t) (5 * a)) as [Hgt | Hle].
  - (* above two fifths: the quotient is at least the next double *)
    split; [intros _; exact Hgt | intros _].
    apply Qlt_bool_true.
    assert (Hqc : c25_up <= q).
    { unfold q. apply Qle_shift_div_l; [exact Ht0|].
      unfold c25_up, Qle, Qmult, inject_Z; cbn. lia. }
    assert (Hxc : c25_up <= x).
    { change c25_up with (round_pos c25_up) at 1.
      apply round_pos_mono; [reflexivity | exact Hqc]. }
    apply Qlt_le_trans with (round_pos (c25_up * inject_Z 100)).
    + vm_compute. reflexivity.
    + apply round_pos_mono; [reflexivity|].
      apply Qmult_le_compat_r; [exact Hxc | discriminate].
  - split; [|lia]. intros H. exfalso.
    rewrite Qlt_bool_false in H; [discriminate|].
    assert (Hqc : q <= 2 # 5).
    { unfold q. apply Qle_shift_div_r; [exact Ht0|].
      unfold Qle, Qmult, inject_Z; cbn. lia. }
    assert (Hxc : x <= c25).
    { change c25 with (round_pos (2 # 5)). now apply round_pos_mono. }
    change (inject_Z 40) with (round_pos (c25 * inject_Z 100)).
    apply round_pos_mono; [exact Hm0|].
    apply Qmult_le_compat_r; [exact Hxc | discriminate].
Qed.

(** ** The rounding error *)

Lemma rne_error q : inject_Z (rne q) - q <= 1 # 2 /\ q - inject_Z (rne q) <= 1 # 2.
Proof.
  unfold rne. destruct (Qfloor_bounds q) as [L U]. set (f := Qfloor q) in *.
  destruct (Qcompare_spec (q - inject_Z f) (1 # 2)) as [E | E | E].
  - destruct (Z.even f); [lra|]. rewrite inject_Z_plus. change (inject_Z 1) with 1. lra.
  - lra.
  - rewrite inject_Z_plus. change (inject_Z 1) with 1. lra.
Qed.

(** A double in the normal range is within 2^-53 of the real it rounds,
    relatively. *)
Lemma round_pos_error q :
  2 ^ (-1022) <= q ->
  q - q * (1 # 9007199254740992) <= round_pos q
  /\ round_pos q <= q + q * (1 # 9007199254740992).
Proof.
  intros Hn.
  assert (Hq : 0 < q) by (eapply Qlt_le_trans; [apply (two_pow_pos (-1022)) | exact Hn]).
  destruct (ilog2_spec q Hq) as [L U].
  assert (Hl : (-1022 <= ilog2 q)%Z).
  { assert (H : 2 ^ (-1022) < 2 ^ (ilog2 q + 1)) by (eapply Qle_lt_trans; eassumption).
    apply Qpower_lt_compat_l_inv in H; [lia | reflexivity]. }
  unfold round_pos. rewrite Qred_correct.
  replace (Z.max (ilog2 q - 52) (-1074)) with (ilog2 q - 52)%Z by lia.
  set (e := (ilog2 q - 52)%Z).
  pose proof (two_pow_pos e) as He.
  set (z := q / 2 ^ e).
  assert (Ez : q == z * 2 ^ e).
  { unfold z. field. intros H0. rewrite H0 in He. now apply Qlt_irrefl in He. }
  destruct (rne_error z) as [E1 E2].
  assert (Hb : 2 ^ e <= q * (1 # 4503599627370496)).
  { apply Qle_trans with (2 ^ ilog2 q * (1 # 4503599627370496)).
    - unfold e. replace (ilog2 q - 52)%Z with (ilog2 q + -52)%Z by lia.
      rewrite two_pow_add. apply Qmult_le_l; [apply two_pow_pos|].
      vm_compute. discriminate.
    - apply Qmult_le_compat_r; [exact L | discriminate]. }
  assert (M1 : (inject_Z (rne z) - z) * 2 ^ e <= (1 # 2) * 2 ^ e)
    by (apply Qmult_le_compat_r; [exact E1 | now apply Qlt_le_weak]).
  assert (M2 : (z - inject_Z (rne z)) * 2 ^ e <= (1 # 2) * 2 ^ e)
    by (apply Qmult_le_compat_r; [exact E2 | now apply Qlt_le_weak]).
  set (r := inject_Z (rne z)) in *. set (p := 2 ^ e) in *.
  assert (M1' : r * p - q <= (1 # 2) * p).
  { rewrite Ez. eapply Qle_trans; [|exact M1]. apply Qle_lteq. right. ring. }
  assert (M2' : q - r * p <= (1 # 2) * p).
  { rewrite Ez at 1. eapply Qle_trans; [|exact M2]. apply Qle_lteq. right. ring. }
  split; lra.
Qed.

(** The percentage of the readiness rule, rounded: [Math.round] of the
    double product is a whole number within one half of the exact
    percentage. *)
Lemma percentage_rounded a t :
  (0 < a <= t)%Z -> (t <= 2 ^ 44)%Z ->
  exists n : Z,
    Math_round (js_mul (js_div (of_Z a) (of_Z t)) (of_Z 100)) = of_Z n
    /\ (200 * a - t <= 2 * t * n <= 200 * a + t)%Z.
Proof.
  intros Ha Ht. unfold js_div, of_Z.
  assert (Ht0 : 0 < inject_Z t) by (change 0 with (inject_Z 0); rewrite <- Zlt_Qlt; lia).
  assert (Qeq_bool (inject_Z t) 0 = false) as ->.
  { destruct (Qeq_bool _ _) eqn:E; [|reflexivity]. apply Qeq_bool_eq in E.
    rewrite E in Ht0. now exfalso. }
  set (q := inject_Z a / inject_Z t).
  assert (Eq : q == a # Z.to_pos t).
  { unfold q. rewrite (Qmake_Qdiv a (Z.to_pos t)). now rewrite Z2Pos.id by lia. }
  assert (Hq1 : q <= 1).
  { rewrite Eq. unfold Qle. cbn. rewrite Z2Pos.id by lia. lia. }
  assert (Hqlo : 1 # 17592186044416 <= q).
  { rewrite Eq. unfold Qle. cbn. rewrite Z2Pos.id by lia. lia. }
  assert (Hq0 : 0 < q) by (eapply Qlt_le_trans; [|exact Hqlo]; reflexivity).
  assert (N1 : 2 ^ (-1022) <= q).
  { eapply Qle_trans; [|exact Hqlo]. vm_compute. discriminate. }
  destruct (round_pos_error q N1) as [X1 X2].
  set (x := round_pos q) in *.
  assert (Hx1 : x <= 1).
  { change 1 with (round_pos 1). now apply round_pos_mono. }
  assert (Hx0 : 0 < x) by lra.
  assert (E1 : fl q = Fin x).
  { apply fl_pos; [exact Hq0|]. eapply Qle_lt_trans; [exact Hx1|].
    rewrite <- (two_pow_Z 1024) by lia. change 1 with (inject_Z 1).
    rewrite <- Zlt_Qlt. reflexivity. }
  rewrite E1. unfold js_mul.
  assert (Hm0 : 0 < x * inject_Z 100).
  { apply Qmult_lt_0_compat; [exact Hx0 | reflexivity]. }
  assert (N2 : 2 ^ (-1022) <= x * inject_Z 100).
  { apply Qle_trans with (1 # 17592186044416); [vm_compute; discriminate|].
    change (inject_Z 100) with 100. lra. }
  destruct (round_pos_error (x * inject_Z 100) N2) as [Y1 Y2].
  set (y := round_pos (x * inject_Z 100)) in *.
  assert (Hy : y <= 100).
  { change 100 with (round_pos (1 * inject_Z 100)). apply round_pos_mono; [exact Hm0|].
    apply Qmult_le_compat_r; [exact Hx1 | discriminate]. }
  assert (E2 : fl (x * inject_Z 100) = Fin y).
  { apply fl_pos; [exact Hm0|]. eapply Qle_lt_trans; [exact Hy|].
    rewrite <- (two_pow_Z 1024) by lia. change 100 with (inject_Z 100).
    rewrite <- Zlt_Qlt. reflexivity. }
  rewrite E2. unfold Math_round.
  exists (Qfloor (y + (1 # 2))). split; [reflexivity|].
  destruct (Qfloor_bounds (y + (1 # 2))) as [F1 F2].
  set (n := Qfloor (y + (1 # 2))) in *.
  change (inject_Z 100) with 100 in *.
  assert (U : inject_Z n <= 100 * (a # Z.to_pos t) + (1 # 2) + (201 # 9007199254740992))
    by (rewrite <- Eq; lra).
  assert (L : 100 * (a # Z.to_pos t) - (1 # 2) - (201 # 9007199254740992) < inject_Z n)
    by (rewrite <- Eq; lra).
  clearbody n. clear - U L Ha Ht.
  destruct t as [|p|p]; try lia. cbn [Z.to_pos] in U, L.
  assert (H44 : (2 ^ 44 = 17592186044416)%Z) by reflexivity.
  unfold Qle, Qlt, Qplus, Qminus, Qopp, Qmult, inject_Z in U, L.
  cbn in U, L. rewrite ?Pos2Z.inj_mul in U, L.
  split; lia.
Qed.

(** A whole number prints as its digits. *)
Lemma number_to_string_int (n : Z) : number_to_string (of_Z n) = pretty n.
Proof.
  unfold number_to_string, of_Z. rewrite Qfloor_Z.
  now rewrite (proj2 (Qeq_bool_iff _ _) (Qeq_refl _)).
Qed.

End Counts.


(* ===================================================================== *)
(** * Sorted, distinct and grouped lists                                  *)
(* ===================================================================== *)

Section Lists.

(** ** [ORDER BY] *)

Lemma insert_row_Permutation {A : Type} (R : relation A) `{!forall x y, Decision (R x y)}
    (x : A) (l : list A) :
  insert_row R x l ≡ₚ x :: l.
Proof.
  induction l as [|y l IH]; [reflexivity|].
  cbn [insert_row]. destruct (decide (R x y)); [reflexivity|].
  rewrite IH. apply Permutation_swap.
Qed.

(** The sorted rows are the rows, each once. *)
Lemma order_by_Permutation {A : Type} (R : relation A) `{!forall x y, Decision (R x y)}
    (l : list A) :
  order_by R l ≡ₚ l.
Proof.
  induction l as [|x l IH]; [reflexivity|].
  unfold order_by in *. cbn [foldr]. rewrite insert_row_Permutation. now rewrite IH.
Qed.

Lemma StronglySorted_insert_row {A : Type} (R : relation A)
    `{!forall x y, Decision (R x y)} (x : A) (l : list A) :
  Transitive R -> Total R ->
  StronglySorted R l -> StronglySorted R (insert_row R x l).
Proof.
  intros HT Htot. induction l as [|y l IH]; intros HS.
  - repeat constructor.
  - apply StronglySorted_inv in HS as [HS Hy]. cbn [insert_row].
    destruct (decide (R x y)) as [Hxy | Hxy].
    + constructor; [now constructor|].
      constructor; [exact Hxy|].
      eapply List.Forall_impl; [|exact Hy]. intros z Hz. now transitivity y.
    + constructor; [now apply IH|].
      rewrite insert_row_Permutation. constructor; [|exact Hy].
      destruct (Htot x y); [contradiction | assumption].
Qed.

(** They are in order. *)
Lemma StronglySorted_order_by {A : Type} (R : relation A) `{!forall x y, Decision (R x y)}
    (l : list A) :
  Transitive R -> Total R -> StronglySorted R (order_by R l).
Proof.
  intros HT Htot. induction l as [|x l IH]; [constructor|].
  unfold order_by in *. cbn [foldr]. now apply StronglySorted_insert_row.
Qed.

(** Rows that compare equal stay in the order of the table: a row goes
    before the rows after it that it may precede. *)
Lemma order_by_cons {A : Type} (R : relation A) `{!forall x y, Decision (R x y)}
    (x : A) (l : list A) :
  Forall (R x) l -> order_by R (x :: l) = x :: order_by R l.
Proof.
  intros Hall. unfold order_by. cbn [foldr]. fold (order_by R l).
  assert (H' : Forall (R x) (order_by R l)) by now rewrite order_by_Permutation.
  destruct (order_by R l) as [|y s]; [reflexivity|].
  cbn [insert_row]. apply List.Forall_cons_iff in H' as [Hy _].
  now rewrite decide_True.
Qed.

(** ** Text order *)

Lemma leb_iff (a b : string) :
  String.leb a b = true <-> a = b \/ OrdersEx.String_as_OT.lt a b.
Proof.
  unfold String.leb.
  change (String.compare a b) with (OrdersEx.String_as_OT.compare a b).
  destruct (OrdersEx.String_as_OT.compare_spec a b) as [E | L | G].
  - split; [now left | reflexivity].
  - split; [now right | reflexivity].
  - split; [discriminate|]. intros [E | L]; exfalso.
    + subst b. exact (StrictOrder_Irreflexive (R := OrdersEx.String_as_OT.lt) a G).
    + exact (StrictOrder_Irreflexive (R := OrdersEx.String_as_OT.lt) a
               (StrictOrder_Transitive (R := OrdersEx.String_as_OT.lt) a b a L G)).
Qed.

Lemma leb_trans (a b c : string) :
  String.leb a b = true -> String.leb b c = true -> String.leb a c = true.
Proof.
  rewrite !leb_iff. intros [-> | H1] [<- | H2]; auto.
  right. exact (StrictOrder_Transitive (R := OrdersEx.String_as_OT.lt) a b c H1 H2).
Qed.

Lemma leb_antisym_eq (a b : string) :
  String.leb a b = true -> String.leb b a = true -> a = b.
Proof.
  rewrite !leb_iff. intros [-> | H1] [E | H2]; auto. exfalso.
  exact (StrictOrder_Irreflexive (R := OrdersEx.String_as_OT.lt) a
           (StrictOrder_Transitive (R := OrdersEx.String_as_OT.lt) a b a H1 H2)).
Qed.

#[local] Instance text_le_trans : Transitive text_le.
Proof. intros a b c. unfold text_le. apply leb_trans. Qed.

#[local] Instance text_le_total : Total text_le.
Proof. intros a b. unfold text_le. destruct (String.leb_total a b); tauto. Qed.

(** ** Distinct values and groups *)

Lemma add_all_spec (l acc : list string) :
  NoDup acc ->
  NoDup (add_all l acc) /\ forall x, x ∈ add_all l acc <-> x ∈ acc \/ x ∈ l.
Proof.
  unfold add_all. revert acc. induction l as [|y l IH]; intros acc Hnd; cbn [foldl].
  - split; [exact Hnd|]. intros x. rewrite elem_of_nil. tauto.
  - destruct (bool_decide_reflect (y ∈ acc)) as [Hin | Hout].
    + destruct (IH acc Hnd) as [N M]. split; [exact N|].
      intros x. rewrite M, elem_of_cons. split; [tauto|].
      intros [H | [-> | H]]; tauto.
    + assert (Hnd' : NoDup (push acc y)).
      { unfold push. apply NoDup_app. split; [exact Hnd|]. split; [|apply NoDup_singleton].
        intros x Hx Hx'. apply list_elem_of_singleton in Hx'. now subst. }
      destruct (IH (push acc y) Hnd') as [N M]. split; [exact N|].
      intros x. rewrite M. unfold push. rewrite elem_of_app, list_elem_of_singleton, elem_of_cons.
      tauto.
Qed.

(** [distinct] lists every value once. *)
Lemma distinct_spec (l : list string) :
  NoDup (distinct l) /\ forall x, x ∈ distinct l <-> x ∈ l.
Proof.
  destruct (add_all_spec l [] (NoDup_nil_2)) as [N M]. split; [exact N|].
  intros x. rewrite (M x), elem_of_nil. tauto.
Qed.

(** The keys of the groups: every key once, in ascending order. *)
Lemma group_keys_spec (l : list string) :
  NoDup (group_keys l)
  /\ (forall x, x ∈ group_keys l <-> x ∈ l)
  /\ StronglySorted text_le (group_keys l)
  /\ length (group_keys l) = length (distinct l).
Proof.
  destruct (distinct_spec l) as [N M]. unfold group_keys.
  pose proof (order_by_Permutation text_le (distinct l)) as HP.
  split; [now rewrite HP|]. split; [intros x; now rewrite HP|].
  split; [apply StronglySorted_order_by; apply _ | now rewrite HP].
Qed.

Lemma Zsum_cons x (l : list Z) : Zsum (x :: l) = x + Zsum l.
Proof. reflexivity. Qed.

Lemma Zsum_map_add {A : Type} (f g : A -> Z) (l : list A) :
  Zsum (map (fun k => f k + g k) l) = Zsum (map f l) + Zsum (map g l).
Proof.
  induction l as [|k l IH]; [reflexivity|]. cbn [map]. rewrite !Zsum_cons, IH. lia.
Qed.

Lemma Zsum_indicator (x : string) (ks : list string) :
  NoDup ks ->
  Zsum (map (fun k => if decide (x = k) then 1 else 0) ks)
  = if decide (x ∈ ks) then 1 else 0.
Proof.
  induction ks as [|k ks IH]; intros Hnd; [reflexivity|].
  apply NoDup_cons in Hnd as [Hk Hnd]. cbn [map]. rewrite Zsum_cons, (IH Hnd).
  destruct (decide (x = k)) as [-> | Hne].
  - rewrite (decide_False (P := k ∈ ks)) by exact Hk.
    rewrite decide_True by apply list_elem_of_here. reflexivity.
  - destruct (decide (x ∈ ks)) as [Hin | Hout].
    + rewrite decide_True by now apply list_elem_of_further. reflexivity.
    + rewrite decide_False; [reflexivity|].
      intros H. apply elem_of_cons in H as [H | H]; contradiction.
Qed.

(** The groups of a partition count every row once. *)
Lemma group_sizes_total {A : Type} (key : A -> string) (ks : list string) (rows : list A) :
  NoDup ks -> (forall r, r ∈ rows -> key r ∈ ks) ->
  Zsum (map (fun k => Z.of_nat (length (filter (fun r => key r = k) rows))) ks)
  = Z.of_nat (length rows).
Proof.
  intros Hnd. induction rows as [|r rows IH]; intros Hk.
  - clear. induction ks as [|k ks IHk]; [reflexivity|].
    cbn [map]. rewrite Zsum_cons, IHk. reflexivity.
  - assert (Hrest : forall r', r' ∈ rows -> key r' ∈ ks).
    { intros r' Hr'. apply Hk. now apply list_elem_of_further. }
    specialize (IH Hrest). cbn [length]. rewrite Nat2Z.inj_succ, <- IH.
    assert (Hr : key r ∈ ks) by apply Hk, list_elem_of_here.
    rewrite (map_ext _ (fun k => (if decide (key r = k) then 1 else 0)
                                 + Z.of_nat (length (filter (fun r0 => key r0 = k) rows)))).
    2:{ intros k. rewrite filter_cons. destruct (decide (key r = k)); cbn [length]; lia. }
    rewrite Zsum_map_add, Zsum_indicator by exact Hnd.
    rewrite decide_True by exact Hr. lia.
Qed.

(** The groups of [GROUP BY key]: one for each key of a row, in
    ascending order of the key, holding the number of rows with the key
    and the average of their scores. *)
Lemma group_stats_spec (key : SkillGapRecord.row -> string) (rows : list SkillGapRecord.row) :
  let groups := group_stats key rows in
  NoDup (map (fun g => fst (fst g)) groups)
  /\ (forall k, k ∈ map (fun g => fst (fst g)) groups <-> exists r, r ∈ rows /\ key r = k)
  /\ Forall (fun g =>
               snd (fst g) = length (filter (fun r => key r = fst (fst g)) rows)
               /\ (1 <= snd (fst g))%nat
               /\ snd g = AVG (map (fun r => score_real (SkillGapRecord.match_percentage r))
                                 (filter (fun r => key r = fst (fst g)) rows)))
            groups
  /\ Zsum (map (fun g => Z.of_nat (snd (fst g))) groups) = Z.of_nat (length rows).
Proof.
  intros groups. subst groups. unfold group_stats. rewrite !map_map. cbn [fst snd].
  destruct (group_keys_spec (map key rows)) as (N & M & _).
  rewrite map_id.
  split; [exact N|]. split; [|split].
  - intros k. rewrite M, list_elem_of_fmap. split; intros (r & H1 & H2); exists r; auto.
  - apply Forall_map, Forall_forall. intros k Hk. cbn [fst snd].
    split; [reflexivity|]. split; [|reflexivity].
    apply M in Hk. apply list_elem_of_fmap in Hk as (r & -> & Hr).
    assert (Hin : r ∈ filter (fun r0 => key r0 = key r) rows).
    { apply list_elem_of_filter. split; [reflexivity | exact Hr]. }
    destruct (filter _ rows); [now apply elem_of_nil in Hin | cbn; lia].
  - apply (group_sizes_total key); [exact N|].
    intros r Hr. apply M. apply list_elem_of_fmap. now exists r.
Qed.

End Lists.


(* ===================================================================== *)
(** * The alert generator                                                 *)
(* ===================================================================== *)

Section Alerts.

Implicit Types (topSkills trending : list obj) (a : json).

(** The total the reduce computes over the four counts. *)
Lemma totalStudents_sum (h m l v : nat) :
  Z.of_nat (h + m + l + v) <= 2 ^ 51 ->
  foldl plus (PNum (of_Z 0)) (Object_values (distribution_object h m l v))
  = PNum (of_nat (h + m + l + v)).
Proof.
  intros Hb. unfold distribution_object, Object_values, plus, of_nat. cbn [map snd foldl to_number].
  assert (2 ^ 51 < 2 ^ 53) by reflexivity.
  rewrite !js_add_int by lia. do 2 f_equal. lia.
Qed.

Lemma low_plus_veryLow (h m l v : nat) :
  Z.of_nat (h + m + l + v) <= 2 ^ 51 ->
  plus (get "low" (distribution_object h m l v)) (get "veryLow" (distribution_object h m l v))
  = PNum (of_nat (l + v)).
Proof.
  intros Hb. unfold distribution_object, plus, of_nat. cbn [get String.eqb Ascii.eqb Bool.eqb to_number].
  assert (2 ^ 51 < 2 ^ 53) by reflexivity.
  rewrite js_add_int by lia. do 2 f_equal. lia.
Qed.

(** The generator is the two skill rules followed by the readiness rule. *)
Lemma generateEnhancedAlerts_rules topSkills trending (h m l v : nat) :
  Z.of_nat (h + m + l + v) <= 2 ^ 51 ->
  generateEnhancedAlerts topSkills trending (distribution_object h m l v)
  = (skill_alerts topSkills trending
     ++ if js_gt (low_match_percentage l v (h + m + l + v)) (of_Z 40)
        then [readiness_alert (low_match_percentage l v (h + m + l + v))]
        else [])%list.
Proof.
  intros Hb. unfold skill_alerts, generateEnhancedAlerts.
  rewrite (totalStudents_sum 0 0 0 0), (low_plus_veryLow 0 0 0 0) by (cbn; lia).
  rewrite totalStudents_sum, low_plus_veryLow by exact Hb.
  cbn [to_number]. fold (low_match_percentage l v (h + m + l + v)).
  replace (js_gt (js_mul (js_div (of_nat (0 + 0)) (of_nat (0 + 0 + 0 + 0))) (of_Z 100)) (of_Z 40))
    with false by (vm_compute; reflexivity).
  unfold push. destruct (js_gt _ (of_Z 40)); [reflexivity | now rewrite app_nil_r].
Qed.

Lemma skill_alerts_cases topSkills trending a :
  a ∈ skill_alerts topSkills trending ->
  (exists top, a = critical_alert top) \/ (exists topTrend, a = trending_alert topTrend).
Proof.
  unfold skill_alerts, generateEnhancedAlerts.
  rewrite (totalStudents_sum 0 0 0 0), (low_plus_veryLow 0 0 0 0) by (cbn; lia).
  replace (js_gt _ (of_Z 40)) with false by (vm_compute; reflexivity).
  unfold push. intros Ha.
  destruct topSkills as [|top ?], trending as [|topTrend ?];
    try destruct (js_gt (to_number (get "count" top)) (of_Z 5));
    cbn in Ha; elem_cases Ha; eauto.
Qed.

Lemma skill_alerts_not_readiness topSkills trending a :
  a ∈ skill_alerts topSkills trending -> ~ is_readiness_concern a.
Proof.
  intros Ha Hr. unfold is_readiness_concern, has_title in Hr.
  destruct (skill_alerts_cases _ _ _ Ha) as [[top ->] | [topTrend ->]];
    cbn in Hr; discriminate.
Qed.

(** The percentage is NaN, not an error, when there is no record. *)
Lemma low_match_percentage_0 : low_match_percentage 0 0 0 = NaN.
Proof. reflexivity. Qed.

Lemma low_match_percentage_gt (l v total : nat) :
  (0 < total)%nat -> (l + v <= total)%nat -> Z.of_nat total <= 2 ^ 51 ->
  js_gt (low_match_percentage l v total) (of_Z 40) = true
  <-> (2 * total < 5 * (l + v))%nat.
Proof.
  intros H0 Hle Hb. unfold low_match_percentage, of_nat.
  rewrite percentage_gt_40 by lia. lia.
Qed.

(** C6.  The readiness-concern rule: with no record in the distribution
    the percentage is NaN, nothing fails and no "Overall Readiness
    Concern" alert is emitted; with records, the alert is emitted exactly
    when (low + veryLow) / total is above 40%; and the description of an
    emitted alert starts with a whole number [n] that is within one half
    of the exact percentage 100 (low + veryLow) / total: the rounded
    percentage, or at an exact half one of its two neighbours.  The
    counts are array lengths, far below 2^44. *)
Theorem readiness_concern_rule topSkills trending (h m l v : nat) :
  Z.of_nat (h + m + l + v) <= 2 ^ 51 ->
  let total := (h + m + l + v)%nat in
  let alerts := generateEnhancedAlerts topSkills trending (distribution_object h m l v) in
  (total = 0%nat ->
     low_match_percentage l v total = NaN /\ Forall (fun a => ~ is_readiness_concern a) alerts)
  /\ ((0 < total)%nat ->
      Exists is_readiness_concern alerts <-> (2 * total < 5 * (l + v))%nat)
  /\ (Z.of_nat total <= 2 ^ 44 ->
      Forall (fun a =>
        is_readiness_concern a ->
        exists n : Z,
          field "description" a
          = Some (JS (pretty n
                      ++ "% of students have match scores below 60%. Review curriculum alignment."))
          /\ 200 * Z.of_nat (l + v) - Z.of_nat total <= 2 * Z.of_nat total * n
          /\ 2 * Z.of_nat total * n <= 200 * Z.of_nat (l + v) + Z.of_nat total)
        alerts).
Proof.
  intros Hb total alerts. subst alerts.
  rewrite generateEnhancedAlerts_rules by exact Hb. fold total.
  split; [|split].
  - intros H0. assert (h = 0 /\ m = 0 /\ l = 0 /\ v = 0)%nat as (-> & -> & -> & ->) by lia.
    rewrite H0. split; [reflexivity|].
    rewrite low_match_percentage_0. cbn [js_gt js_lt of_Z]. rewrite app_nil_r.
    apply Forall_forall. intros a Ha. now apply skill_alerts_not_readiness in Ha.
  - intros H0. rewrite <- low_match_percentage_gt by (unfold total in *; lia).
    rewrite Exists_app, !Exists_exists. split.
    + intros [(a & Ha & Hr) | (a & Ha & Hr)].
      * now apply skill_alerts_not_readiness in Ha.
      * destruct (js_gt _ _); [reflexivity | elem_cases Ha].
    + intros ->. right. eexists. split; [apply list_elem_of_singleton; reflexivity|].
      reflexivity.
  - intros Hs. apply Forall_app. split.
    + apply Forall_forall. intros a Ha Hr. now apply skill_alerts_not_readiness in Ha.
    + destruct (js_gt _ _) eqn:Hgt; [|constructor].
      constructor; [|constructor]. intros _.
      assert (H0 : (0 < total)%nat).
      { destruct (Nat.eq_dec total 0%nat) as [E0 | ?]; [exfalso | lia].
        assert (h = 0 /\ m = 0 /\ l = 0 /\ v = 0)%nat as (-> & -> & -> & ->)
          by (unfold total in E0; lia).
        discriminate Hgt. }
      apply low_match_percentage_gt in Hgt; [|exact H0 | unfold total; lia | lia].
      destruct (percentage_rounded (Z.of_nat (l + v)) (Z.of_nat total)) as (n & En & L & U);
        [unfold total in *; lia | exact Hs |].
      exists n. split; [|split; [exact L | exact U]].
      unfold readiness_alert, field. cbn [lookup_field String.eqb Ascii.eqb Bool.eqb].
      unfold low_match_percentage, of_nat. rewrite En, number_to_string_int. reflexivity.
Qed.

(** The rule at three low records out of five: 60%. *)
Lemma readiness_concern_rule_witness :
  Z.of_nat (1 + 1 + 2 + 1) <= 2 ^ 51
  /\ Exists is_readiness_concern (generateEnhancedAlerts [] [] (distribution_object 1 1 2 1))
  /\ Forall (fun a =>
       is_readiness_concern a ->
       exists n : Z,
         field "description" a
         = Some (JS (pretty n
                     ++ "% of students have match scores below 60%. Review curriculum alignment."))
         /\ 200 * 3 - 5 <= 2 * 5 * n /\ 2 * 5 * n <= 200 * 3 + 5)
      (generateEnhancedAlerts [] [] (distribution_object 1 1 2 1)).
Proof.
  split; [vm_compute; discriminate|].
  destruct (readiness_concern_rule [] [] 1 1 2 1) as (_ & H2 & H3); [vm_compute; discriminate|].
  split.
  - apply H2; lia.
  - apply H3. vm_compute. discriminate.
Defined.

(** What is rounded is the computed double.  23 low records out of 40
    are 57.5%, which [Math.round] would take to 58; the double product
    is 57.49999999999999 and the alert reads 57%. *)
Lemma readiness_percentage_23_of_40 :
  generateEnhancedAlerts [] [] (distribution_object 10 7 20 3)
  = [JObj [("severity", JS "warning");
           ("icon", JS "⚠️");
           ("title", JS "Overall Readiness Concern");
           ("description",
            JS "57% of students have match scores below 60%. Review curriculum alignment.");
           ("action", JS "Review Curriculum")]]
  /\ Math_round (Fin ((20 + 3) / 40 * 100)) = of_Z 58.
Proof. split; vm_compute; reflexivity. Qed.

(** The alerts, rule by rule. *)
Lemma generateEnhancedAlerts_app topSkills trending distribution :
  generateEnhancedAlerts topSkills trending distribution
  = ((match topSkills with
      | top :: _ =>
          if js_gt (to_number (get "count" top)) (of_Z 5) then [critical_alert top] else []
      | [] => []
      end)
     ++ (match trending with
         | topTrend :: _ => [trending_alert topTrend]
         | [] => []
         end)
     ++ skipn (length (skill_alerts topSkills trending))
          (generateEnhancedAlerts topSkills trending distribution))%list.
Proof.
  unfold skill_alerts, generateEnhancedAlerts, push.
  rewrite (totalStudents_sum 0 0 0 0), (low_plus_veryLow 0 0 0 0) by (cbn; lia).
  replace (js_gt (js_mul (js_div (to_number (PNum (of_nat (0 + 0))))
                                 (to_number (PNum (of_nat (0 + 0 + 0 + 0))))) (of_Z 100)) (of_Z 40))
    with false by (vm_compute; reflexivity).
  destruct topSkills as [|top ?], trending as [|topTrend ?];
    try destruct (js_gt (to_number (get "count" top)) (of_Z 5));
    destruct (js_gt (js_mul _ _) (of_Z 40)); reflexivity.
Qed.

Lemma generateEnhancedAlerts_tail topSkills trending distribution a :
  a ∈ skipn (length (skill_alerts topSkills trending))
        (generateEnhancedAlerts topSkills trending distribution) ->
  exists p, a = readiness_alert p.
Proof.
  unfold skill_alerts, generateEnhancedAlerts, push.
  rewrite (totalStudents_sum 0 0 0 0), (low_plus_veryLow 0 0 0 0) by (cbn; lia).
  replace (js_gt (js_mul (js_div (to_number (PNum (of_nat (0 + 0))))
                                 (to_number (PNum (of_nat (0 + 0 + 0 + 0))))) (of_Z 100)) (of_Z 40))
    with false by (vm_compute; reflexivity).
  destruct topSkills as [|top ?], trending as [|topTrend ?];
    try destruct (js_gt (to_number (get "count" top)) (of_Z 5));
    destruct (js_gt (js_mul _ _) (of_Z 40)); cbn; intros Ha; elem_cases Ha; eauto.
Qed.

(** The critical rule fires exactly above five, whatever the other rules
    do; the rows are those of the top-skills query. *)
Lemma critical_alert_threshold (groups : list (string * Z * string)) trending distribution :
  Exists (has_severity "critical")
    (generateEnhancedAlerts (map top_skill_object groups) trending distribution)
  <-> exists g rest, groups = g :: rest /\ 5 < snd (fst g).
Proof.
  rewrite generateEnhancedAlerts_app, !Exists_app.
  assert (H2 : ~ Exists (has_severity "critical")
                 match trending with
                 | topTrend :: _ => [trending_alert topTrend]
                 | [] => []
                 end).
  { intros H. destruct trending; inversion H as [?? Hs | ?? Hs]; subst;
      [discriminate | inversion Hs]. }
  assert (H3 : ~ Exists (has_severity "critical")
                 (skipn (length (skill_alerts (map top_skill_object groups) trending))
                    (generateEnhancedAlerts (map top_skill_object groups) trending distribution))).
  { intros H. apply Exists_exists in H as (a & Ha & Hs).
    apply generateEnhancedAlerts_tail in Ha as [p ->]. discriminate. }
  destruct groups as [|g rest]; cbn [map].
  - split; [intros [H | [H | H]]; [inversion H | tauto..] |].
    intros (? & ? & ? & _); discriminate.
  - cbn [top_skill_object get String.eqb Ascii.eqb Bool.eqb to_number].
    pose proof (js_gt_int (snd (fst g)) 5) as Hgt.
    destruct (js_gt (of_Z (snd (fst g))) (of_Z 5)) eqn:E.
    + split; [intros _; exists g, rest; split; [reflexivity | now apply Hgt]|].
      intros _. left. constructor. reflexivity.
    + split; [intros [H | [H | H]]; [inversion H | tauto..] |].
      intros (g' & rest' & Heq & H5). inversion Heq; subst.
      apply Hgt in H5. congruence.
Qed.

(** The rows of the top-skills query have no [skill] property, so the
    title of the critical alert reads "undefined". *)
Lemma critical_alert_title (g : string * Z * string) :
  field "title" (critical_alert (top_skill_object g)) = Some (JS "High Demand: undefined").
Proof. reflexivity. Qed.

(** On the rows of the top-skills query, every critical alert reads
    "undefined" where the skill should be. *)
Lemma critical_alerts_read_undefined (groups : list (string * Z * string)) trending distribution :
  Forall (fun a => has_severity "critical" a -> has_title "High Demand: undefined" a)
    (generateEnhancedAlerts (map top_skill_object groups) trending distribution).
Proof.
  rewrite generateEnhancedAlerts_app. apply Forall_app. split; [|apply Forall_app; split].
  - destruct groups as [|g rest]; cbn [map]; [constructor|].
    destruct (js_gt _ _); repeat constructor.
  - destruct trending; repeat constructor. intros H. discriminate H.
  - apply Forall_forall. intros a Ha Hs.
    apply generateEnhancedAlerts_tail in Ha as [p ->]. discriminate Hs.
Qed.

(** C7.  The critical alert on the snapshot of a store whose only counter
    is ("Python", "CS"): at 5 no alert is emitted; at 6 one is, with the
    count and the suggested action, but its title is "High Demand:
    undefined" and does not name the skill. *)
Theorem critical_alert_at_boundary :
  elements "alerts" (sent (fst (analytics no_filter march_6_2024 no_throw
                                   (quiet (one_counter "Python" "CS" 5))))) = []
  /\ elements "alerts" (sent (fst (analytics no_filter march_6_2024 no_throw
                                     (quiet (one_counter "Python" "CS" 6)))))
     = [JObj [("severity", JS "critical");
              ("icon", JS "🚨");
              ("title", JS "High Demand: undefined");
              ("description",
               JS "6 students missing this critical skill. Consider emergency workshop.");
              ("count", JZ 6);
              ("action", JS "Schedule Workshop")]].
Proof. split; vm_compute; reflexivity. Qed.

End Alerts.


(* ===================================================================== *)
(** * Week numbering                                                      *)
(* ===================================================================== *)

Section Weeks.

(** [YearFromDay] is the year the day falls in. *)
Lemma YearFromDay_spec (d : Z) :
  DayFromYear (YearFromDay d) <= d < DayFromYear (YearFromDay d + 1).
Proof.
  unfold YearFromDay.
  set (y := 1970 + d * 400 / 146097).
  assert (H : DayFromYear (y - 1) <= d < DayFromYear (y + 2)).
  { unfold DayFromYear, y. Z.to_euclidean_division_equations. lia. }
  destruct (Z.leb_spec (DayFromYear (y + 1)) d) as [H1 | H1].
  - replace (y + 1 + 1) with (y + 2) by lia. lia.
  - destruct (Z.leb_spec (DayFromYear y) d) as [H2 | H2].
    + lia.
    + replace (y - 1 + 1) with y by lia. lia.
Qed.

Lemma DaysInYear_bounds (y : Z) : 365 <= DayFromYear (y + 1) - DayFromYear y <= 366.
Proof. unfold DayFromYear. Z.to_euclidean_division_equations. lia. Qed.

(** The day [getWeekNumber] moves to is the Thursday of the date's
    Monday-to-Sunday week. *)
Lemma anchor_is_thursday (t : Z) :
  let dayNum := if (getUTCDay t =? 0)%Z then 7 else getUTCDay t in
  getUTCDay (addUTCDate t (4 - dayNum)) = 4
  /\ -3 <= 4 - dayNum <= 3.
Proof.
  unfold getUTCDay, addUTCDate, msPerDay.
  destruct (Z.eqb_spec ((t / 86400000 + 4) mod 7) 0) as [E | E];
    rewrite Z.div_add by lia; Z.to_euclidean_division_equations; lia.
Qed.

Lemma DayFromYear_mono (a b : Z) : a <= b -> DayFromYear a <= DayFromYear b.
Proof. intros H. unfold DayFromYear. Z.to_euclidean_division_equations. lia. Qed.

Lemma YearFromDay_unique (y d : Z) :
  DayFromYear y <= d < DayFromYear (y + 1) -> YearFromDay d = y.
Proof.
  intros [L U]. pose proof (YearFromDay_spec d) as [L' U'].
  destruct (Z.lt_trichotomy (YearFromDay d) y) as [H | [H | H]]; [|exact H|].
  - pose proof (DayFromYear_mono (YearFromDay d + 1) y ltac:(lia)). lia.
  - pose proof (DayFromYear_mono (y + 1) (YearFromDay d) ltac:(lia)). lia.
Qed.

(** [Date.UTC] outside the years 0 to 99, and within them. *)
Lemma Date_UTC_plain (y m d : Z) :
  ~ (0 <= y <= 99) -> Date_UTC y m d = MakeDay y m d * msPerDay.
Proof.
  intros H. unfold Date_UTC.
  destruct (Z.leb_spec 0 y), (Z.leb_spec y 99); cbn [andb]; try reflexivity. lia.
Qed.

Lemma Date_UTC_two_digits (y m d : Z) :
  0 <= y <= 99 -> Date_UTC y m d = MakeDay (1900 + y) m d * msPerDay.
Proof.
  intros H. unfold Date_UTC.
  destruct (Z.leb_spec 0 y), (Z.leb_spec y 99); cbn [andb]; try reflexivity; lia.
Qed.

Lemma MakeDay_january_1 (y : Z) : MakeDay y 0 1 = DayFromYear y.
Proof.
  unfold MakeDay. change (0 / 12) with 0. change (0 mod 12) with 0.
  cbn [DaysBeforeMonth]. rewrite !Z.add_0_r. lia.
Qed.

(** The week number and the year of the week, from the day [k] that
    [Date.UTC] makes of the date: with [T] the Thursday of the week of
    [k], the week is counted from 1 January of the year of [T] unless
    that year is one [Date.UTC] reads differently. *)
Lemma getWeekNumber_of_day (date : Date) (k : Z) :
  Date_UTC (getFullYear date) (getMonth date) (getDate date) = k * msPerDay ->
  let wd := (k + 4) mod 7 in
  let T := k + 4 - (if (wd =? 0)%Z then 7 else wd) in
  ~ (0 <= YearFromDay T <= 99) ->
  getWeekNumber date = ceil_div7 (T - DayFromYear (YearFromDay T) + 1)
  /\ isoWeekYear date = YearFromDay T.
Proof.
  intros Hk wd T HY.
  unfold getWeekNumber, isoWeekYear, getUTCFullYear, getUTCDay, addUTCDate.
  rewrite Hk. unfold msPerDay. rewrite !Z.div_mul by lia. fold wd.
  set (dn := if (wd =? 0)%Z then 7 else wd).
  replace (k * 86400000 + (4 - dn) * 86400000) with (T * 86400000) by (unfold T, dn; lia).
  rewrite !Z.div_mul by lia.
  split; [|reflexivity].
  rewrite Date_UTC_plain by exact HY. rewrite MakeDay_january_1. unfold msPerDay.
  replace (T * 86400000 - DayFromYear (YearFromDay T) * 86400000)
    with ((T - DayFromYear (YearFromDay T)) * 86400000) by lia.
  now rewrite Z.div_mul by lia.
Qed.

Lemma DaysBeforeMonth_nonneg (y m : Z) : 0 <= DaysBeforeMonth y m.
Proof.
  unfold DaysBeforeMonth. destruct (InLeapYear y);
    repeat match goal with |- context [match ?p with _ => _ end] => destruct p end; lia.
Qed.

(** From year 101 on the day is the calendar's and the week is counted
    from 1 January of the year of its Thursday. *)
Lemma getWeekNumber_thursday (date : Date) :
  from_year_101 date ->
  let T := day_number date + 4 - (if (weekday date =? 0)%Z then 7 else weekday date) in
  getWeekNumber date = ceil_div7 (T - DayFromYear (YearFromDay T) + 1)
  /\ isoWeekYear date = YearFromDay T
  /\ DayFromYear 100 <= T.
Proof.
  intros (Hy & Hm & Hd) T.
  assert (HT : DayFromYear 100 <= T).
  { assert (DayFromYear 101 <= day_number date).
    { unfold day_number, MakeDay.
      rewrite (Z.div_small (getMonth date) 12), (Z.mod_small (getMonth date) 12) by lia.
      rewrite Z.add_0_r.
      pose proof (DaysBeforeMonth_nonneg (getFullYear date) (getMonth date)).
      pose proof (DayFromYear_mono 101 (getFullYear date) Hy). lia. }
    assert (DayFromYear 100 + 365 <= DayFromYear 101) by (vm_compute; discriminate).
    unfold T, weekday. destruct (Z.eqb_spec ((day_number date + 4) mod 7) 0);
      Z.to_euclidean_division_equations; lia. }
  destruct (getWeekNumber_of_day date (day_number date)) as [H1 H2].
  - apply Date_UTC_plain. lia.
  - fold (weekday date). fold T. intros [_ H].
    pose proof (YearFromDay_spec T) as [_ U].
    pose proof (DayFromYear_mono (YearFromDay T + 1) 100 ltac:(lia)). lia.
  - fold (weekday date) in H1, H2. fold T in H1, H2. auto.
Qed.

Lemma week_in_range (T : Z) :
  1 <= ceil_div7 (T - DayFromYear (YearFromDay T) + 1) <= 53.
Proof.
  pose proof (YearFromDay_spec T) as [L U].
  pose proof (DaysInYear_bounds (YearFromDay T)) as B.
  unfold ceil_div7. Z.to_euclidean_division_equations. lia.
Qed.

(** X1. From year 101 on the week number is between 1 and 53.  (On the
    first days of year 100 the Thursday can fall in year 99, which
    [Date.UTC] reads as 1999.) *)
Lemma getWeekNumber_range (date : Date) :
  from_year_101 date -> 1 <= getWeekNumber date <= 53.
Proof.
  intros H. destruct (getWeekNumber_thursday date H) as (-> & _).
  apply week_in_range.
Qed.

Lemma getWeekNumber_range_witness : 1 <= getWeekNumber (on_the 2024 11 30) <= 53.
Proof.
  apply (getWeekNumber_range (on_the 2024 11 30)).
  unfold from_year_101, on_the. cbn. lia.
Defined.

End Weeks.


(* ===================================================================== *)
(** * The ingestion recorder                                              *)
(* ===================================================================== *)

Section Recorder.

Implicit Types (t : list SkillCounter.row) (w : World) (f : Faults) (env : Env).

(** ** Week numbering *)

(** C1.  A submission recorded on 31 December 2024, a day of ISO week 1
    of 2025: [getWeekNumber] gives week 1, the Thursday it anchors on is
    in 2025, and yet the trend row is keyed with year 2024, the calendar
    year; a submission of 2 January 2024 (ISO week 1 of 2024) has the
    same key, so the two weeks share one counter. *)
Theorem trend_year_at_rollover :
  getWeekNumber (now dec_31_2024) = 1
  /\ isoWeekYear (now dec_31_2024) = 2025
  /\ trends (db (updateTrends (Some ["Docker"]) dec_31_2024 no_faults (quiet empty_store)))
     = [{| TrendCounter.id := 1;
           TrendCounter.skill_name := "Docker";
           TrendCounter.week_number := 1;
           TrendCounter.year := 2024;
           TrendCounter.count := 1 |}]
  /\ trends (db (updateTrends (Some ["Docker"]) dec_31_2024 no_faults
                   (updateTrends (Some ["Docker"]) jan_2_2024 no_faults (quiet empty_store))))
     = [{| TrendCounter.id := 1;
           TrendCounter.skill_name := "Docker";
           TrendCounter.week_number := 1;
           TrendCounter.year := 2024;
           TrendCounter.count := 2 |}].
Proof. repeat split; vm_compute; reflexivity. Qed.

(** Whatever the date, a new trend row takes the calendar year of the
    clock next to the ISO week number. *)
Lemma trend_key_is_calendar_year env (skill : string) :
  trends (db (updateTrends (Some [skill]) env no_faults (quiet empty_store)))
  = [{| TrendCounter.id := 1;
        TrendCounter.skill_name := skill;
        TrendCounter.week_number := getWeekNumber (now env);
        TrendCounter.year := getFullYear (now env);
        TrendCounter.count := 1 |}].
Proof. reflexivity. Qed.

(** ** A failing insert of the primary record *)

Lemma storeToDatabase_insert_throws (data : Data.t) env f w msg :
  insert_skill_gap data env f (db w) = Throws msg ->
  storeToDatabase data env f w = console_log ("⚠️ Database storage error: " ++ msg) w.
Proof. intros H. unfold storeToDatabase. now rewrite H. Qed.

(** C2, as the code has it.  When the insert of the primary record
    throws, [storeToDatabase] catches the error: it is written to the
    console (after the lines of the call to the model), the database is
    left as it was (no record, no skill counter, no trend counter), and
    the endpoint still answers 200 with the analysis. *)
Theorem failed_insert_is_logged_and_answered (h : Helpers) (req : AnalyzeBody)
    (written : list string) (analysis : Analysis) env f w msg :
  truthy (resumeText req) = true ->
  truthy (jobDescription req) = true ->
  insert_skill_gap (submission h req analysis env) env f (db w) = Throws msg ->
  let r := analyze h req (AiReturns written analysis) env f w in
  db (snd r) = db w
  /\ console (snd r)
     = (console w ++ written ++ [("⚠️ Database storage error: " ++ msg)%string])%list
  /\ fst r = {| status := 200; body := SendAnalysis analysis |}.
Proof.
  intros H1 H2 Hi. unfold analyze. rewrite H1, H2. cbn [negb orb].
  rewrite (storeToDatabase_insert_throws _ _ _ (console_lines written w) msg) by exact Hi.
  cbn [console_log console_lines db console snd fst]. rewrite <- app_assoc. repeat split.
Qed.

Lemma failed_insert_is_logged_and_answered_witness :
  let r := analyze sample_helpers sample_request
             (AiReturns ["Using model: gemini-2.5-flash"] (sample_reply PctNull ["Docker"]))
             dec_31_2024 no_faults (quiet empty_store) in
  db (snd r) = empty_store
  /\ console (snd r)
     = ["Using model: gemini-2.5-flash";
        "⚠️ Database storage error: NOT NULL constraint failed: skill_gaps.match_percentage"]
  /\ fst r = {| status := 200; body := SendAnalysis (sample_reply PctNull ["Docker"]) |}.
Proof.
  apply (failed_insert_is_logged_and_answered sample_helpers sample_request
           ["Using model: gemini-2.5-flash"]
           (sample_reply PctNull ["Docker"]) dec_31_2024 no_faults (quiet empty_store)
           "NOT NULL constraint failed: skill_gaps.match_percentage");
    reflexivity.
Defined.

(** No failure reaches the caller: on a reply with a null percentage the
    insert violates NOT NULL and throws, nothing is stored, and the caller
    is sent the success response. *)
Lemma failed_insert_answers_success :
  let data := submission sample_helpers sample_request (sample_reply PctNull ["Docker"]) dec_31_2024 in
  let r := analyze sample_helpers sample_request
             (AiReturns ["Using model: gemini-2.5-flash"] (sample_reply PctNull ["Docker"]))
             dec_31_2024 no_faults (quiet empty_store) in
  insert_skill_gap data dec_31_2024 no_faults empty_store
    = Throws "NOT NULL constraint failed: skill_gaps.match_percentage"
  /\ db (snd r) = empty_store
  /\ is_success (fst r).
Proof.
  repeat split; try reflexivity. eexists. reflexivity.
Qed.

(** ** Skill counters *)

Lemma find_map_preserve {A : Type} (P : A -> bool) (g : A -> A) (l : list A) :
  (forall x, P (g x) = P x) -> List.find P (map g l) = g <$> List.find P l.
Proof.
  intros Hg. induction l as [|x l IH]; [reflexivity|].
  cbn. rewrite Hg. destruct (P x); [reflexivity | exact IH].
Qed.

Lemma find_snoc {A : Type} (P : A -> bool) (l : list A) (x : A) :
  List.find P (l ++ [x])
  = match List.find P l with
    | Some y => Some y
    | None => if P x then Some x else None
    end.
Proof.
  induction l as [|y l IH]; [reflexivity|].
  cbn. destruct (P y); [reflexivity | exact IH].
Qed.

Lemma NoDup_map_elem_inj {A B : Type} (g : A -> B) (l : list A) (x y : A) :
  NoDup (map g l) -> In x l -> In y l -> g x = g y -> x = y.
Proof.
  induction l as [|z l IH]; [intros _ []|].
  cbn. intros Hnd Hx Hy Hg. apply NoDup_cons in Hnd as [Hz Hnd].
  destruct Hx as [-> | Hx], Hy as [-> | Hy]; [reflexivity | | | now apply IH].
  - exfalso. apply Hz. rewrite Hg. apply list_elem_of_In, in_map, Hy.
  - exfalso. apply Hz. rewrite <- Hg. apply list_elem_of_In, in_map, Hx.
Qed.

Lemma next_id_fresh (ids : list Z) : next_id ids ∉ ids.
Proof.
  assert (H : forall x, x ∈ ids -> x <= foldr Z.max 0 ids).
  { induction ids as [|y ids IH]; intros x Hx; [now apply elem_of_nil in Hx|].
    apply elem_of_cons in Hx as [-> | Hx]; cbn; [lia|].
    specialize (IH x Hx). lia. }
  intros Hin. apply H in Hin. unfold next_id in Hin. lia.
Qed.

Lemma update_skill_ids n ts i t :
  map SkillCounter.id (update_skill n ts i t) = map SkillCounter.id t.
Proof.
  unfold update_skill. rewrite map_map. apply map_ext.
  intros r. now destruct (SkillCounter.id r =? i)%Z.
Qed.

(** An upsert keeps the primary keys distinct. *)
Lemma upsert_skill_NoDup skill dept ts t :
  NoDup (map SkillCounter.id t) ->
  NoDup (map SkillCounter.id (upsert_skill skill dept ts t)).
Proof.
  intros Hnd. unfold upsert_skill. destruct (select_skill skill dept t) as [e|].
  - now rewrite update_skill_ids.
  - unfold insert_skill. rewrite map_app. cbn [map SkillCounter.id].
    apply NoDup_app. split; [exact Hnd|]. split.
    + intros x Hx Hx'. apply list_elem_of_singleton in Hx'. subst.
      now apply next_id_fresh in Hx.
    + apply NoDup_singleton.
Qed.

(** What one upsert does to every counter: the counter of its key goes up
    by one, or is created at one; the others stay. *)
Lemma upsert_skill_counter skill dept ts t skill' dept' :
  NoDup (map SkillCounter.id t) ->
  SkillCounter.total_missing <$> select_skill skill' dept' (upsert_skill skill dept ts t)
  = if decide (skill' = skill /\ dept' = dept)
    then Some (default 0 (SkillCounter.total_missing <$> select_skill skill dept t) + 1)
    else SkillCounter.total_missing <$> select_skill skill' dept' t.
Proof.
  intros Hnd. unfold upsert_skill.
  destruct (select_skill skill dept t) as [e|] eqn:E.
  - unfold select_skill at 1, update_skill. rewrite find_map_preserve.
    2:{ intros r. now destruct (SkillCounter.id r =? SkillCounter.id e)%Z. }
    fold (select_skill skill' dept' t).
    destruct (decide (skill' = skill /\ dept' = dept)) as [[-> ->] | Hne].
    + rewrite E. cbn. now rewrite Z.eqb_refl.
    + destruct (select_skill skill' dept' t) as [r|] eqn:E'; [|reflexivity].
      cbn. destruct (SkillCounter.id r =? SkillCounter.id e)%Z eqn:Hid; [|reflexivity].
      exfalso. apply Z.eqb_eq in Hid.
      apply find_some in E as [He Hk], E' as [Hr Hk'].
      assert (r = e) as -> by (eapply NoDup_map_elem_inj; eassumption).
      apply andb_true_iff in Hk as [K1 K2], Hk' as [K1' K2'].
      apply String.eqb_eq in K1, K2, K1', K2'. apply Hne. split; congruence.
  - unfold select_skill at 1, insert_skill. rewrite find_snoc.
    fold (select_skill skill' dept' t). cbn [SkillCounter.skill_name SkillCounter.department].
    destruct (decide (skill' = skill /\ dept' = dept)) as [[-> ->] | Hne].
    + rewrite E, !String.eqb_refl. reflexivity.
    + destruct (select_skill skill' dept' t); [reflexivity|].
      destruct (String.eqb skill skill') eqn:K1; [|reflexivity].
      destruct (String.eqb dept dept') eqn:K2; [|reflexivity].
      apply String.eqb_eq in K1, K2. exfalso. apply Hne. split; congruence.
Qed.

Lemma occurrences_cons skill x (skills : list string) :
  occurrences skill (x :: skills)
  = (if decide (skill = x) then 1 else 0) + occurrences skill skills.
Proof.
  unfold occurrences. cbn [List.filter].
  destruct (decide (skill = x)) as [-> | Hne].
  - rewrite String.eqb_refl. cbn [length]. lia.
  - destruct (String.eqb skill x) eqn:K; [apply String.eqb_eq in K; contradiction|]. lia.
Qed.

Lemma occurrences_nonneg skill (skills : list string) : 0 <= occurrences skill skills.
Proof. unfold occurrences. lia. Qed.

(** The loop of [updateSkillAnalytics], no upsert throwing. *)
Lemma updateSkillAnalytics_loop env f dept (skills : list string) : forall (i : nat) w,
  (forall j, skill_upsert_throws f j = None) ->
  keys_distinct (db w) ->
  let w' :=
    forEach (fun i skill w =>
      match skill_upsert_throws f i with
      | Some msg => console_log ("Error updating skill analytics: " ++ msg) w
      | None =>
          with_db {| skill_gaps := skill_gaps (db w);
                     skill_analytics :=
                       upsert_skill skill dept (CURRENT_TIMESTAMP env) (skill_analytics (db w));
                     trends := trends (db w) |} w
      end) i skills w in
  keys_distinct (db w')
  /\ skill_gaps (db w') = skill_gaps (db w)
  /\ trends (db w') = trends (db w)
  /\ forall skill d,
       SkillCounter_of skill d (db w')
       = if decide (d = dept /\ 0 < occurrences skill skills)
         then Some (default 0 (SkillCounter_of skill d (db w)) + occurrences skill skills)
         else SkillCounter_of skill d (db w).
Proof.
  induction skills as [|x skills IH]; intros i w Hf Hnd; cbn [forEach].
  - repeat split; [exact Hnd|]. intros skill d.
    destruct (decide _) as [[_ H] | _]; [|reflexivity]. now cbn in H.
  - rewrite Hf.
    set (w1 := with_db _ w).
    assert (Hnd1 : keys_distinct (db w1)) by (apply upsert_skill_NoDup, Hnd).
    destruct (IH (S i) w1 Hf Hnd1) as (N & G & T & C).
    repeat split; [exact N | now rewrite G | now rewrite T |].
    intros skill d. rewrite C.
    unfold SkillCounter_of, w1. cbn [db with_db skill_analytics].
    rewrite (upsert_skill_counter x dept _ _ skill d) by exact Hnd.
    rewrite occurrences_cons. pose proof (occurrences_nonneg skill skills) as H0.
    assert (Hocc : occurrences skill skills = 0 \/ 0 < occurrences skill skills) by lia.
    destruct (decide (skill = x)) as [-> | Hx], (decide (d = dept)) as [-> | Hd],
      Hocc as [Hocc | Hocc];
      rewrite ?Hocc; repeat case_decide;
      try reflexivity; try (exfalso; intuition (congruence || lia));
      cbn; f_equal; lia.
Qed.

(** The loop of [updateTrends] touches the trend table only. *)
Lemma updateTrends_other_tables (skills : option (list string)) env f w :
  skill_gaps (db (updateTrends skills env f w)) = skill_gaps (db w)
  /\ skill_analytics (db (updateTrends skills env f w)) = skill_analytics (db w).
Proof.
  unfold updateTrends. destruct skills as [skills|]; [|auto].
  generalize 0%nat. revert w.
  induction skills as [|x skills IH]; intros w i; cbn [forEach]; [auto|].
  match goal with
  | |- context [forEach _ (S i) skills ?w1] => destruct (IH w1 (S i)) as [G A]
  end.
  rewrite G, A. now destruct (trend_upsert_throws f i).
Qed.

(** C3, as the code has it.  A valid submission (a percentage the column
    takes, an array of missing skills), no statement of the recorder
    throwing:
    [storeToDatabase] adds exactly one SkillGapRecord row, and every
    SkillCounter (skill, department) goes up by the number of times the
    skill is listed in [missing_skills] -- by exactly 1 for a skill listed
    once -- or is created with that number; the others stay. *)
Theorem record_updates_counters (data : Data.t) env f w pct (skills : list string) :
  bind_percentage (Data.match_percentage data) = Done pct ->
  Data.missing_skills data = Some skills ->
  insert_skill_gap_throws f = None ->
  (forall i, skill_upsert_throws f i = None) ->
  keys_distinct (db w) ->
  let w' := storeToDatabase data env f w in
  let dept := or_else (Data.department data) "Unknown" in
  length (skill_gaps (db w')) = S (length (skill_gaps (db w)))
  /\ forall skill d,
       SkillCounter_of skill d (db w')
       = if decide (d = dept /\ 0 < occurrences skill skills)
         then Some (default 0 (SkillCounter_of skill d (db w)) + occurrences skill skills)
         else SkillCounter_of skill d (db w).
Proof.
  intros Hp Hs Hi Hf Hnd. unfold storeToDatabase, insert_skill_gap.
  rewrite Hi, Hp, Hs. cbn zeta.
  set (w1 := with_db _ w).
  destruct (updateTrends_other_tables (Some skills) env f
              (updateSkillAnalytics (Some skills) (Data.department data) env f w1)) as [G A].
  unfold updateSkillAnalytics in *.
  destruct (updateSkillAnalytics_loop env f (or_else (Data.department data) "Unknown")
              skills 0%nat w1 Hf Hnd) as (_ & G' & _ & C).
  split.
  - cbn [db console_log]. rewrite G, G'. unfold w1. cbn. rewrite length_app. cbn. lia.
  - intros skill d. unfold SkillCounter_of in *. cbn [db console_log]. rewrite A.
    apply C.
Qed.

Lemma record_updates_counters_witness :
  let data := submission sample_helpers sample_request
                (sample_reply (PctNumber 35) ["Docker"; "Go"]) dec_31_2024 in
  let w' := storeToDatabase data dec_31_2024 no_faults (quiet (one_counter "Docker" "CS" 4)) in
  length (skill_gaps (db w')) = 1%nat
  /\ SkillCounter_of "Docker" "CS" (db w') = Some 5
  /\ SkillCounter_of "Go" "CS" (db w') = Some 1.
Proof.
  destruct (record_updates_counters
              (submission sample_helpers sample_request
                 (sample_reply (PctNumber 35) ["Docker"; "Go"]) dec_31_2024)
              dec_31_2024 no_faults (quiet (one_counter "Docker" "CS" 4))
              (Real 35) ["Docker"; "Go"] eq_refl eq_refl eq_refl (fun _ => eq_refl))
    as [L C].
  { repeat constructor. intros H. inversion H. }
  split; [exact L|]. split.
  - rewrite (C "Docker" "CS"). reflexivity.
  - rewrite (C "Go" "CS"). reflexivity.
Defined.

(** A skill listed twice is counted twice: its counter is created with
    2, not 1. *)
Lemma repeated_skill_counts_twice :
  let data := submission sample_helpers sample_request
                (sample_reply (PctNumber 35) ["Docker"; "Docker"]) dec_31_2024 in
  let w' := storeToDatabase data dec_31_2024 no_faults (quiet empty_store) in
  SkillCounter_of "Docker" "CS" empty_store = None
  /\ SkillCounter_of "Docker" "CS" (db w') = Some 2
  /\ SkillCounter_of "Docker" "CS" (db w') <> Some 1.
Proof. repeat split; vm_compute; congruence. Qed.

End Recorder.


(* ===================================================================== *)
(** * The analytics aggregator                                            *)
(* ===================================================================== *)

Section Aggregator.

Implicit Types (query : Query.t) (env : Env) (d : Store) (w : World) (j : json)
  (throws : Statement -> option string).

(** The [try] body returns exactly when no statement throws, and then it
    returns the snapshot. *)
Lemma snapshot_Done query env throws d j :
  snapshot query env throws d = Done j ->
  (forall s, throws s = None) /\ j = snapshot_json query env d.
Proof.
  unfold snapshot, run.
  destruct (throws SelectTotalStudents) eqn:E1; cbn [mbind outcome_bind]; [discriminate|].
  destruct (throws SelectAvgMatch) eqn:E2; cbn [mbind outcome_bind]; [discriminate|].
  destruct (throws SelectDeptStats) eqn:E3; cbn [mbind outcome_bind]; [discriminate|].
  destruct (throws SelectYearStats) eqn:E4; cbn [mbind outcome_bind]; [discriminate|].
  destruct (throws SelectCompanyStats) eqn:E5; cbn [mbind outcome_bind]; [discriminate|].
  destruct (throws SelectRecentActivity) eqn:E6; cbn [mbind outcome_bind]; [discriminate|].
  destruct (throws SelectTopSkills) eqn:E7; cbn [mbind outcome_bind]; [discriminate|].
  destruct (throws SelectTrending) eqn:E8; cbn [mbind outcome_bind]; [discriminate|].
  destruct (throws SelectMatchDist) eqn:E9; cbn [mbind outcome_bind]; [discriminate|].
  destruct (throws SelectPriorities) eqn:E10; cbn [mbind outcome_bind]; [discriminate|].
  intros H. split; [intros []; assumption|].
  injection H as <-. reflexivity.
Qed.


Lemma snapshot_Throws query env throws d s msg :
  throws s = Some msg -> exists msg', snapshot query env throws d = Throws msg'.
Proof.
  intros Hs. destruct (snapshot query env throws d) as [j|msg'] eqn:E; [|eauto].
  apply snapshot_Done in E as [E _]. rewrite E in Hs. discriminate.
Qed.

Lemma filter_true {A : Type} (P : A -> bool) (l : list A) :
  (forall x, P x = true) -> List.filter P l = l.
Proof.
  intros H. induction l as [|x l IH]; [reflexivity|]. cbn. now rewrite H, IH.
Qed.

Lemma filter_no_filter (l : list SkillGapRecord.row) :
  List.filter (whereClause no_filter) l = l.
Proof. now apply filter_true. Qed.

#[local] Existing Instance text_le_trans.
#[local] Existing Instance text_le_total.





Example filter_on_department :
  let j := snapshot_json (only_department "CS") march_6_2024 two_departments in
  totals j = (Some (JZ 1), Some (JZ 80),
              Some (JObj [("high", JZ 1); ("medium", JZ 0); ("low", JZ 0); ("veryLow", JZ 0)]))
  /\ field "departmentStats" j
     = Some (JArr [JObj [("department", JS "CS"); ("count", JZ 1); ("avgMatch", JZ 80)];
                   JObj [("department", JS "EE"); ("count", JZ 1); ("avgMatch", JZ 39)]]).
Proof. split; vm_compute; reflexivity. Qed.


(** ** Failures *)

Lemma analytics_db query env throws w : db (snd (analytics query env throws w)) = db w.
Proof. unfold analytics. now destruct (snapshot _ _ _ _). Qed.

(** C5, as the code has it.  When any statement of the handler throws,
    the error is caught and logged, the store is untouched and the caller
    is answered 200 with the fixed fallback object: its stats
    (totalStudents, uniqueSkills, averageMatch, totalDepartments) are 0,
    its alerts, topMissingSkills, departmentStats and recentActivity are
    empty lists and its matchDistribution is all zeros; the documented
    fields academicYearStats, companyStats, trendingSkills and
    skillPriorityBreakdown are not in it. *)
Theorem failure_gives_fallback query env throws w s msg :
  throws s = Some msg ->
  let r := analytics query env throws w in
  let j := sent (fst r) in
  status (fst r) = 200
  /\ db (snd r) = db w
  /\ (exists msg', console (snd r) = (console w ++ [("Analytics error: " ++ msg')%string])%list)
  /\ j = getMockAnalytics
  /\ field "stats" j
     = Some (JObj [("totalStudents", JZ 0); ("uniqueSkills", JZ 0);
                   ("averageMatch", JZ 0); ("totalDepartments", JZ 0)])
  /\ field "matchDistribution" j
     = Some (JObj [("high", JZ 0); ("medium", JZ 0); ("low", JZ 0); ("veryLow", JZ 0)])
  /\ Forall (fun k => field k j = Some (JArr []))
       ["alerts"; "topMissingSkills"; "departmentStats"; "recentActivity"]
  /\ Forall (fun k => field k j = None)
       ["academicYearStats"; "companyStats"; "trendingSkills"; "skillPriorityBreakdown"].
Proof.
  intros Hs r j. subst j r. unfold analytics.
  destruct (snapshot_Throws query env throws (db w) s msg Hs) as [msg' ->].
  cbn [fst snd status sent body db console console_log].
  repeat split; eauto; repeat constructor.
Qed.

Lemma failure_gives_fallback_witness :
  sent (fst (analytics no_filter march_6_2024 disk_error (quiet two_departments)))
  = getMockAnalytics.
Proof.
  apply (failure_gives_fallback no_filter march_6_2024 disk_error (quiet two_departments)
           SelectTrending "disk I/O error" eq_refl).
Defined.

(** The field names of the fallback are not the documented ones: it has
    no [trendingSkills], which is documented, and has [trends], which is
    not. *)
Lemma fallback_field_names :
  let j := sent (fst (analytics no_filter march_6_2024 disk_error (quiet two_departments))) in
  ("trendingSkills" ∈ documented_fields /\ field "trendingSkills" j = None)
  /\ ("trends" ∈ keys j /\ "trends" ∉ documented_fields).
Proof.
  cbn. repeat split; try reflexivity.
  - unfold documented_fields. repeat (first [apply list_elem_of_here | apply list_elem_of_further]).
  - repeat (first [apply list_elem_of_here | apply list_elem_of_further]).
  - unfold documented_fields. intros H. not_listed H.
Qed.

(** ** The match distribution *)

Lemma Qle_bool_reflect a b : reflect (a <= b)%Q (Qle_bool a b).
Proof. apply iff_reflect. symmetry. apply Qle_bool_iff. Qed.









(** ** Reading twice *)

Lemma snapshot_same_week query env1 env2 throws d :
  getWeekNumber (now env1) = getWeekNumber (now env2) ->
  getFullYear (now env1) = getFullYear (now env2) ->
  snapshot query env1 throws d = snapshot query env2 throws d.
Proof. intros Hw Hy. unfold snapshot. now rewrite Hw, Hy. Qed.

(** C9, as the code has it.  Two calls of the aggregator with the same
    filter, nothing written in between, the same statements failing (none,
    usually) and the clock in the same ISO week and calendar year both
    times: a call writes nothing to the store and the two responses are
    identical. *)
Theorem aggregate_twice query env1 env2 throws w :
  getWeekNumber (now env1) = getWeekNumber (now env2) ->
  getFullYear (now env1) = getFullYear (now env2) ->
  let first := analytics query env1 throws w in
  let second := analytics query env2 throws (snd first) in
  db (snd first) = db w
  /\ db (snd second) = db w
  /\ fst second = fst first.
Proof.
  intros Hw Hy first second. subst second first.
  rewrite !analytics_db. repeat split.
  unfold analytics at 1 3. rewrite analytics_db.
  rewrite (snapshot_same_week query env1 env2 throws (db w) Hw Hy).
  now destruct (snapshot _ _ _ _).
Qed.

Lemma aggregate_twice_witness :
  fst (analytics no_filter march_6_2024 no_throw
         (snd (analytics no_filter march_6_2024 no_throw (quiet one_trend))))
  = fst (analytics no_filter march_6_2024 no_throw (quiet one_trend)).
Proof.
  apply (aggregate_twice no_filter march_6_2024 march_6_2024 no_throw (quiet one_trend)
           eq_refl eq_refl).
Defined.

(** Weeks apart the two snapshots differ: a trend row of week 10 is a
    trending skill on 6 March 2024 and no longer on 15 May, nothing having
    been written. *)
Lemma aggregate_twice_weeks_apart :
  let first := analytics no_filter march_6_2024 no_throw (quiet one_trend) in
  let second := analytics no_filter may_15_2024 no_throw (snd first) in
  db (snd first) = one_trend /\ fst second <> fst first.
Proof.
  split; [reflexivity|]. intros H.
  apply (f_equal (fun r => elements "trendingSkills" (sent r))) in H.
  vm_compute in H. discriminate H.
Qed.

(** ** The trend direction *)

(** C10.  Every entry of [trendingSkills] in a response of the
    aggregator has ["increasing"] as its [trend], whatever the weekly
    counts are. *)
Theorem trend_is_always_increasing query env throws w :
  Forall (fun e => field "trend" e = Some (JS "increasing"))
    (elements "trendingSkills" (sent (fst (analytics query env throws w)))).
Proof.
  unfold analytics. destruct (snapshot query env throws (db w)) as [j|msg] eqn:E.
  - apply snapshot_Done in E as [_ ->]. cbn [fst sent body].
    unfold snapshot_json, snapshot, run, no_throw.
    cbn [mbind outcome_bind mret outcome_ret elements field lookup_field
         String.eqb Ascii.eqb Bool.eqb].
    apply Forall_map, Forall_forall. intros t _. reflexivity.
  - constructor.
Qed.

End Aggregator.


(* ===================================================================== *)
(** * Week numbering, continued                                           *)
(* ===================================================================== *)

Section WeekNumbers.

(** The year [Date.UTC] computes with is never one from 0 to 99. *)
Lemma Date_UTC_year (y m d : Z) :
  exists yr, Date_UTC y m d = MakeDay yr m d * msPerDay /\ ~ (0 <= yr <= 99).
Proof.
  destruct (decide (0 <= y <= 99)) as [H | H].
  - exists (1900 + y). split; [now apply Date_UTC_two_digits | lia].
  - exists y. split; [now apply Date_UTC_plain | exact H].
Qed.

(** X2. January 4th is in week 1 of its year and December 28th in the last
    week, the 52nd or 53rd: the ISO-8601 definition of week 1. *)
Theorem week_of_january_4 (y : Z) :
  getWeekNumber (on_the y 0 4) = 1
  /\ 52 <= getWeekNumber (on_the y 11 28) <= 53.
Proof.
  split.
  - destruct (Date_UTC_year y 0 4) as (yr & E & Hyr).
    set (S := DayFromYear yr). pose proof (DaysInYear_bounds yr) as B. fold S in B.
    destruct (getWeekNumber_of_day (on_the y 0 4) (MakeDay yr 0 4) E) as [-> _];
      unfold MakeDay; change (0 / 12) with 0; change (0 mod 12) with 0;
      cbn [DaysBeforeMonth]; rewrite !Z.add_0_r; fold S;
      set (wd := (S + 4 - 1 + 4) mod 7);
      set (T := S + 4 - 1 + 4 - (if (wd =? 0)%Z then 7 else wd));
      assert (HT : S <= T <= S + 6)
        by (unfold T; destruct (Z.eqb_spec wd 0); unfold wd in *;
            Z.to_euclidean_division_equations; lia);
      rewrite (YearFromDay_unique yr T) by (fold S; lia).
    + exact Hyr.
    + fold S. unfold ceil_div7. Z.to_euclidean_division_equations. lia.
  - destruct (Date_UTC_year y 11 28) as (yr & E & Hyr).
    set (S := DayFromYear yr). pose proof (DaysInYear_bounds yr) as B. fold S in B.
    assert (HL : DayFromYear (yr + 1) - S = 365 + (if InLeapYear yr then 1 else 0)).
    { unfold S, DayFromYear, InLeapYear.
      destruct (Z.eqb_spec (yr mod 4) 0), (Z.eqb_spec (yr mod 100) 0),
        (Z.eqb_spec (yr mod 400) 0); cbn [andb orb negb];
        Z.to_euclidean_division_equations; lia. }
    destruct (getWeekNumber_of_day (on_the y 11 28) (MakeDay yr 11 28) E) as [-> _];
      unfold MakeDay; change (11 / 12) with 0; change (11 mod 12) with 11;
      cbn [DaysBeforeMonth]; rewrite !Z.add_0_r; fold S;
      set (leap := if InLeapYear yr then 1 else 0) in *;
      assert (0 <= leap <= 1) by (unfold leap; destruct (InLeapYear yr); lia);
      set (wd := (S + (334 + leap) + 28 - 1 + 4) mod 7);
      set (T := S + (334 + leap) + 28 - 1 + 4 - (if (wd =? 0)%Z then 7 else wd));
      assert (HT : S + 358 + leap <= T <= S + 364 + leap)
        by (unfold T; destruct (Z.eqb_spec wd 0); unfold wd in *;
            Z.to_euclidean_division_equations; lia);
      rewrite (YearFromDay_unique yr T) by (fold S; lia).
    + exact Hyr.
    + fold S. unfold ceil_div7. Z.to_euclidean_division_equations. lia.
Qed.

(** X3. From year 101 on, the seven days from a Monday on share one week
    number. *)
Theorem week_runs_monday_to_sunday (monday date : Date) :
  from_year_101 monday -> from_year_101 date ->
  weekday monday = 1 ->
  day_number monday <= day_number date <= day_number monday + 6 ->
  getWeekNumber date = getWeekNumber monday.
Proof.
  intros Fm Fd Hm Hd.
  destruct (getWeekNumber_thursday monday Fm) as (-> & _).
  destruct (getWeekNumber_thursday date Fd) as (-> & _).
  rewrite Hm. unfold weekday in *.
  set (a := day_number monday) in *. set (b := day_number date) in *.
  change (1 =? 0)%Z with false. cbn iota.
  assert (E : b + 4 - (if ((b + 4) mod 7 =? 0)%Z then 7 else (b + 4) mod 7) = a + 4 - 1).
  { destruct (Z.eqb_spec ((b + 4) mod 7) 0); Z.to_euclidean_division_equations; lia. }
  now rewrite E.
Qed.

Lemma week_runs_monday_to_sunday_witness :
  getWeekNumber (on_the 2025 0 5) = getWeekNumber (on_the 2024 11 30)
  /\ getWeekNumber (on_the 2024 11 30) = 1.
Proof.
  split; [|reflexivity].
  apply (week_runs_monday_to_sunday (on_the 2024 11 30) (on_the 2025 0 5)).
  - unfold from_year_101, on_the. cbn. lia.
  - unfold from_year_101, on_the. cbn. lia.
  - reflexivity.
  - vm_compute. split; discriminate.
Defined.

(** X4. From year 101 on, the week number is one more seven days later, or
    it starts again at 1 after week 52 or 53. *)
Theorem week_number_a_week_later (date later : Date) :
  from_year_101 date -> from_year_101 later ->
  day_number later = day_number date + 7 ->
  getWeekNumber later = getWeekNumber date + 1
  \/ (getWeekNumber later = 1 /\ 52 <= getWeekNumber date).
Proof.
  intros Fd Fl H.
  destruct (getWeekNumber_thursday date Fd) as (-> & _).
  destruct (getWeekNumber_thursday later Fl) as (-> & _).
  unfold weekday. rewrite H.
  set (a := day_number date).
  replace ((a + 7 + 4) mod 7) with ((a + 4) mod 7)
    by (Z.to_euclidean_division_equations; lia).
  set (dn := if ((a + 4) mod 7 =? 0)%Z then 7 else (a + 4) mod 7).
  set (T := a + 4 - dn). replace (a + 7 + 4 - dn) with (T + 7) by (unfold T; lia).
  set (y := YearFromDay T).
  pose proof (YearFromDay_spec T) as [L U]. fold y in L, U.
  pose proof (DaysInYear_bounds y) as B.
  pose proof (DaysInYear_bounds (y + 1)) as B'.
  destruct (Z_lt_le_dec (T + 7) (DayFromYear (y + 1))) as [Hs | Hn].
  - left. rewrite (YearFromDay_unique y (T + 7)) by lia.
    unfold ceil_div7. Z.to_euclidean_division_equations. lia.
  - right. rewrite (YearFromDay_unique (y + 1) (T + 7)) by lia.
    unfold ceil_div7. Z.to_euclidean_division_equations. lia.
Qed.

Lemma week_number_a_week_later_witness :
  (getWeekNumber (on_the 2024 11 31) = getWeekNumber (on_the 2024 11 24) + 1
   \/ (getWeekNumber (on_the 2024 11 31) = 1 /\ 52 <= getWeekNumber (on_the 2024 11 24)))
  /\ getWeekNumber (on_the 2024 11 24) = 52.
Proof.
  split; [|reflexivity].
  apply (week_number_a_week_later (on_the 2024 11 24) (on_the 2024 11 31)).
  - unfold from_year_101, on_the. cbn. lia.
  - unfold from_year_101, on_the. cbn. lia.
  - reflexivity.
Defined.

(** X5. From year 101 on, the year of the week (the year of its Thursday)
    is the calendar year of the date, except on the last three days of
    December when they fall in week 1 of the next year and on the first
    three days of January when they fall in week 52 or 53 of the
    previous one. *)
Theorem week_year_and_calendar_year (date : Date) :
  let y := getFullYear date in
  from_year_101 date ->
  DayFromYear y <= day_number date < DayFromYear (y + 1) ->
  isoWeekYear date = y
  \/ (isoWeekYear date = y + 1 /\ getWeekNumber date = 1
      /\ DayFromYear (y + 1) - 3 <= day_number date)
  \/ (isoWeekYear date = y - 1 /\ 52 <= getWeekNumber date
      /\ day_number date <= DayFromYear y + 2).
Proof.
  intros y F [L U].
  destruct (getWeekNumber_thursday date F) as (-> & -> & _).
  unfold weekday.
  set (a := day_number date) in *.
  set (dn := if ((a + 4) mod 7 =? 0)%Z then 7 else (a + 4) mod 7).
  assert (Hdn : 1 <= dn <= 7).
  { unfold dn. destruct (Z.eqb_spec ((a + 4) mod 7) 0);
      Z.to_euclidean_division_equations; lia. }
  set (T := a + 4 - dn).
  pose proof (DaysInYear_bounds y) as B.
  pose proof (DaysInYear_bounds (y - 1)) as B'. replace (y - 1 + 1) with y in B' by lia.
  pose proof (DaysInYear_bounds (y + 1)) as B''.
  destruct (Z_lt_le_dec T (DayFromYear y)) as [Hlo | Hlo].
  - right. right. rewrite (YearFromDay_unique (y - 1) T)
      by (replace (y - 1 + 1) with y by lia; unfold T in *; lia).
    split; [reflexivity|]. split; [|unfold T in *; lia].
    unfold ceil_div7, T in *. Z.to_euclidean_division_equations. lia.
  - destruct (Z_lt_le_dec T (DayFromYear (y + 1))) as [Hhi | Hhi].
    + left. apply YearFromDay_unique. lia.
    + right. left. rewrite (YearFromDay_unique (y + 1) T)
        by (replace (y + 1 + 1) with (y + 2) by lia;
            replace (y + 1 + 1) with (y + 2) in B'' by lia; unfold T in *; lia).
      split; [reflexivity|]. split; [|unfold T in *; lia].
      unfold ceil_div7, T in *. Z.to_euclidean_division_equations. lia.
Qed.

Lemma week_year_and_calendar_year_witness :
  isoWeekYear (on_the 2024 11 31) = 2025 /\ getWeekNumber (on_the 2024 11 31) = 1.
Proof.
  destruct (week_year_and_calendar_year (on_the 2024 11 31)) as [H | [H | H]].
  - unfold from_year_101, on_the. cbn. lia.
  - vm_compute. split; [discriminate | reflexivity].
  - vm_compute in H. discriminate H.
  - destruct H as (H1 & H2 & _). split; [exact H1 | exact H2].
  - destruct H as (H1 & _). vm_compute in H1. discriminate H1.
Defined.

End WeekNumbers.


(* ===================================================================== *)
(** * The recorder under failing upserts                                  *)
(* ===================================================================== *)

Section BestEffort.

Implicit Types (w : World) (f : Faults) (env : Env).

Lemma recorded_nonneg throws i skill (skills : list string) :
  0 <= recorded throws i skill skills.
Proof.
  revert i. induction skills as [|x rest IH]; intros i; cbn [recorded]; [lia|].
  specialize (IH (S i)). destruct (_ && _); lia.
Qed.

(** The loop of [updateSkillAnalytics], some upserts throwing. *)
Lemma updateSkillAnalytics_loop_faults env f dept (skills : list string) : forall (i : nat) w,
  keys_distinct (db w) ->
  let w' :=
    forEach (fun i skill w =>
      match skill_upsert_throws f i with
      | Some msg => console_log ("Error updating skill analytics: " ++ msg) w
      | None =>
          with_db {| skill_gaps := skill_gaps (db w);
                     skill_analytics :=
                       upsert_skill skill dept (CURRENT_TIMESTAMP env) (skill_analytics (db w));
                     trends := trends (db w) |} w
      end) i skills w in
  keys_distinct (db w')
  /\ skill_gaps (db w') = skill_gaps (db w)
  /\ trends (db w') = trends (db w)
  /\ forall skill d,
       SkillCounter_of skill d (db w')
       = if decide (d = dept /\ 0 < recorded (skill_upsert_throws f) i skill skills)
         then Some (default 0 (SkillCounter_of skill d (db w))
                    + recorded (skill_upsert_throws f) i skill skills)
         else SkillCounter_of skill d (db w).
Proof.
  induction skills as [|x skills IH]; intros i w Hnd; cbn [forEach recorded].
  - repeat split; [exact Hnd|]. intros skill d.
    destruct (decide _) as [[_ H] | _]; [lia | reflexivity].
  - destruct (skill_upsert_throws f i) as [msg|] eqn:Ef.
    + destruct (IH (S i) (console_log ("Error updating skill analytics: " ++ msg) w) Hnd)
        as (N & G & T & C).
      repeat split; [exact N | exact G | exact T |].
      intros skill d. rewrite C. cbn [db console_log].
      rewrite bool_decide_eq_false_2 by discriminate. rewrite andb_false_r.
      reflexivity.
    + set (w1 := with_db _ w).
      assert (Hnd1 : keys_distinct (db w1)) by (apply upsert_skill_NoDup, Hnd).
      destruct (IH (S i) w1 Hnd1) as (N & G & T & C).
      repeat split; [exact N | now rewrite G | now rewrite T |].
      intros skill d. rewrite C.
      unfold SkillCounter_of, w1. cbn [db with_db skill_analytics].
      rewrite (upsert_skill_counter x dept _ _ skill d) by exact Hnd.
      rewrite bool_decide_eq_true_2 by reflexivity. rewrite andb_true_r.
      pose proof (recorded_nonneg (skill_upsert_throws f) (S i) skill skills) as H0.
      set (n := recorded (skill_upsert_throws f) (S i) skill skills) in *.
      assert (Hocc : n = 0 \/ 0 < n) by lia.
      destruct (String.eqb_spec skill x) as [-> | Hx], (decide (d = dept)) as [-> | Hd],
        Hocc as [Hocc | Hocc];
        rewrite ?Hocc; repeat case_decide;
        try reflexivity; try (exfalso; intuition (congruence || lia));
        cbn; f_equal; lia.
Qed.

(** What the two loops write to the console. *)
Lemma updateSkillAnalytics_console env f dept (skills : list string) : forall (i : nat) w,
  console
    (forEach (fun i skill w =>
       match skill_upsert_throws f i with
       | Some msg => console_log ("Error updating skill analytics: " ++ msg) w
       | None =>
           with_db {| skill_gaps := skill_gaps (db w);
                      skill_analytics :=
                        upsert_skill skill dept (CURRENT_TIMESTAMP env) (skill_analytics (db w));
                      trends := trends (db w) |} w
       end) i skills w)
  = (console w
     ++ failure_lines "Error updating skill analytics: " (skill_upsert_throws f) i skills)%list.
Proof.
  induction skills as [|x skills IH]; intros i w; cbn [forEach failure_lines].
  - now rewrite app_nil_r.
  - rewrite IH. destruct (skill_upsert_throws f i) as [msg|].
    + cbn [console console_log]. now rewrite <- app_assoc.
    + reflexivity.
Qed.

Lemma updateTrends_console env f (skills : list string) : forall (i : nat) w,
  console
    (forEach (fun i skill w =>
       match trend_upsert_throws f i with
       | Some msg => console_log ("Error updating trends: " ++ msg) w
       | None =>
           with_db {| skill_gaps := skill_gaps (db w);
                      skill_analytics := skill_analytics (db w);
                      trends := upsert_trend skill (getWeekNumber (now env))
                                  (getFullYear (now env)) (trends (db w)) |} w
       end) i skills w)
  = (console w ++ failure_lines "Error updating trends: " (trend_upsert_throws f) i skills)%list.
Proof.
  induction skills as [|x skills IH]; intros i w; cbn [forEach failure_lines].
  - now rewrite app_nil_r.
  - rewrite IH. destruct (trend_upsert_throws f i) as [msg|].
    + cbn [console console_log]. now rewrite <- app_assoc.
    + reflexivity.
Qed.

(** X6. Best effort on the skill counters.  The insert succeeding,
    [storeToDatabase] adds the record whatever the counter upserts do, and
    every SkillCounter goes up by the number of positions of
    [missing_skills] that hold its skill and whose upsert did not throw:
    a failing upsert loses that one increment and nothing else.  Each
    failing upsert is logged: the console gains one line for each
    position whose skill upsert throws, one for each position whose trend
    upsert throws, and the line of success. *)
Theorem counters_skip_failed_upserts (data : Data.t) env f w pct (skills : list string) :
  bind_percentage (Data.match_percentage data) = Done pct ->
  Data.missing_skills data = Some skills ->
  insert_skill_gap_throws f = None ->
  keys_distinct (db w) ->
  let w' := storeToDatabase data env f w in
  let dept := or_else (Data.department data) "Unknown" in
  length (skill_gaps (db w')) = S (length (skill_gaps (db w)))
  /\ console w'
     = (console w
        ++ failure_lines "Error updating skill analytics: " (skill_upsert_throws f) 0 skills
        ++ failure_lines "Error updating trends: " (trend_upsert_throws f) 0 skills
        ++ ["✅ Data stored in database"])%list
  /\ forall skill d,
       SkillCounter_of skill d (db w')
       = if decide (d = dept /\ 0 < recorded (skill_upsert_throws f) 0 skill skills)
         then Some (default 0 (SkillCounter_of skill d (db w))
                    + recorded (skill_upsert_throws f) 0 skill skills)
         else SkillCounter_of skill d (db w).
Proof.
  intros Hp Hs Hi Hnd. unfold storeToDatabase, insert_skill_gap.
  rewrite Hi, Hp, Hs. cbn zeta.
  set (w1 := with_db _ w).
  destruct (updateTrends_other_tables (Some skills) env f
              (updateSkillAnalytics (Some skills) (Data.department data) env f w1)) as [G A].
  unfold updateSkillAnalytics in *.
  destruct (updateSkillAnalytics_loop_faults env f (or_else (Data.department data) "Unknown")
              skills 0%nat w1 Hnd) as (_ & G' & _ & C).
  split; [|split].
  - cbn [db console_log]. rewrite G, G'. unfold w1. cbn. rewrite length_app. cbn. lia.
  - cbn [console console_log]. unfold updateTrends.
    rewrite updateTrends_console, updateSkillAnalytics_console.
    unfold w1. cbn [console with_db]. now rewrite <- !app_assoc.
  - intros skill d. unfold SkillCounter_of in *. cbn [db console_log]. rewrite A.
    apply C.
Qed.

Lemma counters_skip_failed_upserts_witness :
  let data := submission sample_helpers sample_request
                (sample_reply (PctNumber 35) ["Docker"; "Go"; "Docker"]) dec_31_2024 in
  let w' := storeToDatabase data dec_31_2024 some_upserts_fail (quiet empty_store) in
  length (skill_gaps (db w')) = 1%nat
  /\ console w' = ["Error updating skill analytics: database is locked";
                   "Error updating trends: database is locked";
                   "✅ Data stored in database"]
  /\ SkillCounter_of "Docker" "CS" (db w') = Some 2
  /\ SkillCounter_of "Go" "CS" (db w') = None.
Proof.
  destruct (counters_skip_failed_upserts
              (submission sample_helpers sample_request
                 (sample_reply (PctNumber 35) ["Docker"; "Go"; "Docker"]) dec_31_2024)
              dec_31_2024 some_upserts_fail (quiet empty_store)
              (Real 35) ["Docker"; "Go"; "Docker"] eq_refl eq_refl eq_refl)
    as (L & K & C).
  { constructor. }
  split; [exact L|]. split; [exact K|]. split.
  - rewrite (C "Docker" "CS"). reflexivity.
  - rewrite (C "Go" "CS"). reflexivity.
Defined.

(** ** Trend counters *)

Lemma update_trend_ids n i (t : list TrendCounter.row) :
  map TrendCounter.id (update_trend n i t) = map TrendCounter.id t.
Proof.
  unfold update_trend. rewrite map_map. apply map_ext.
  intros r. now destruct (TrendCounter.id r =? i)%Z.
Qed.

Lemma upsert_trend_NoDup skill week yr (t : list TrendCounter.row) :
  NoDup (map TrendCounter.id t) ->
  NoDup (map TrendCounter.id (upsert_trend skill week yr t)).
Proof.
  intros Hnd. unfold upsert_trend. destruct (select_trend skill week yr t) as [e|].
  - now rewrite update_trend_ids.
  - unfold insert_trend. rewrite map_app. cbn [map TrendCounter.id].
    apply NoDup_app. split; [exact Hnd|]. split.
    + intros x Hx Hx'. apply list_elem_of_singleton in Hx'. subst.
      now apply next_id_fresh in Hx.
    + apply NoDup_singleton.
Qed.

Lemma trend_test_true skill week yr (r : TrendCounter.row) :
  String.eqb (TrendCounter.skill_name r) skill
  && (TrendCounter.week_number r =? week)%Z && (TrendCounter.year r =? yr)%Z = true
  <-> trend_key r = (skill, week, yr).
Proof.
  unfold trend_key. rewrite !andb_true_iff, String.eqb_eq, !Z.eqb_eq.
  split; [intros [[-> ->] ->]; reflexivity | intros H; injection H; auto].
Qed.

(** What one upsert does to every trend counter. *)
Lemma upsert_trend_counter skill week yr (t : list TrendCounter.row) skill' week' yr' :
  NoDup (map TrendCounter.id t) ->
  TrendCounter.count <$> select_trend skill' week' yr' (upsert_trend skill week yr t)
  = if decide ((skill', week', yr') = (skill, week, yr))
    then Some (default 0 (TrendCounter.count <$> select_trend skill week yr t) + 1)
    else TrendCounter.count <$> select_trend skill' week' yr' t.
Proof.
  intros Hnd. unfold upsert_trend.
  destruct (select_trend skill week yr t) as [e|] eqn:E.
  - unfold select_trend at 1, update_trend. rewrite find_map_preserve.
    2:{ intros r. now destruct (TrendCounter.id r =? TrendCounter.id e)%Z. }
    fold (select_trend skill' week' yr' t).
    destruct (decide ((skill', week', yr') = (skill, week, yr))) as [Heq | Hne].
    + injection Heq as -> -> ->. rewrite E. cbn. now rewrite Z.eqb_refl.
    + destruct (select_trend skill' week' yr' t) as [r|] eqn:E'; [|reflexivity].
      cbn. destruct (TrendCounter.id r =? TrendCounter.id e)%Z eqn:Hid; [|reflexivity].
      exfalso. apply Z.eqb_eq in Hid.
      apply find_some in E as [He Hk], E' as [Hr Hk'].
      assert (r = e) as -> by (eapply NoDup_map_elem_inj; eassumption).
      apply trend_test_true in Hk, Hk'. congruence.
  - unfold select_trend at 1, insert_trend. rewrite find_snoc.
    fold (select_trend skill' week' yr' t).
    cbn [TrendCounter.skill_name TrendCounter.week_number TrendCounter.year].
    destruct (decide ((skill', week', yr') = (skill, week, yr))) as [Heq | Hne].
    + injection Heq as -> -> ->. rewrite E, String.eqb_refl, !Z.eqb_refl. reflexivity.
    + destruct (select_trend skill' week' yr' t); [reflexivity|].
      destruct (String.eqb skill skill' && (week =? week')%Z && (yr =? yr')%Z) eqn:K;
        [|reflexivity].
      exfalso. apply Hne. rewrite !andb_true_iff, String.eqb_eq, !Z.eqb_eq in K.
      destruct K as [[-> ->] ->]. reflexivity.
Qed.

Lemma updateSkillAnalytics_other_tables (skills : option (list string)) dept env f w :
  skill_gaps (db (updateSkillAnalytics skills dept env f w)) = skill_gaps (db w)
  /\ trends (db (updateSkillAnalytics skills dept env f w)) = trends (db w).
Proof.
  unfold updateSkillAnalytics. destruct skills as [skills|]; [|auto].
  generalize 0%nat. revert w.
  induction skills as [|x skills IH]; intros w i; cbn [forEach]; [auto|].
  match goal with
  | |- context [forEach _ (S i) skills ?w1] => destruct (IH w1 (S i)) as [G A]
  end.
  rewrite G, A. now destruct (skill_upsert_throws f i).
Qed.

(** The loop of [updateTrends], some upserts throwing. *)
Lemma updateTrends_loop_faults env f (skills : list string) : forall (i : nat) w,
  trend_keys_distinct (db w) ->
  let week := getWeekNumber (now env) in
  let yr := getFullYear (now env) in
  let w' :=
    forEach (fun i skill w =>
      match trend_upsert_throws f i with
      | Some msg => console_log ("Error updating trends: " ++ msg) w
      | None =>
          with_db {| skill_gaps := skill_gaps (db w);
                     skill_analytics := skill_analytics (db w);
                     trends := upsert_trend skill week yr (trends (db w)) |} w
      end) i skills w in
  trend_keys_distinct (db w')
  /\ forall skill week' yr',
       TrendCounter_of skill week' yr' (db w')
       = if decide ((week', yr') = (week, yr)
                    /\ 0 < recorded (trend_upsert_throws f) i skill skills)
         then Some (default 0 (TrendCounter_of skill week' yr' (db w))
                    + recorded (trend_upsert_throws f) i skill skills)
         else TrendCounter_of skill week' yr' (db w).
Proof.
  intros i w Hnd week yr. revert i w Hnd.
  induction skills as [|x skills IH]; intros i w Hnd; cbn [forEach recorded].
  - split; [exact Hnd|]. intros skill week' yr'.
    destruct (decide _) as [[_ H] | _]; [lia | reflexivity].
  - destruct (trend_upsert_throws f i) as [msg|] eqn:Ef.
    + destruct (IH (S i) (console_log ("Error updating trends: " ++ msg) w) Hnd) as (N & C).
      split; [exact N|].
      intros skill week' yr'. rewrite C. cbn [db console_log].
      rewrite bool_decide_eq_false_2 by discriminate. rewrite andb_false_r.
      reflexivity.
    + set (w1 := with_db _ w).
      assert (Hnd1 : trend_keys_distinct (db w1)) by (apply upsert_trend_NoDup, Hnd).
      destruct (IH (S i) w1 Hnd1) as (N & C).
      split; [exact N|].
      intros skill week' yr'. rewrite C.
      unfold TrendCounter_of, w1. cbn [db with_db trends].
      rewrite (upsert_trend_counter x week yr _ skill week' yr') by exact Hnd.
      rewrite bool_decide_eq_true_2 by reflexivity. rewrite andb_true_r.
      pose proof (recorded_nonneg (trend_upsert_throws f) (S i) skill skills) as H0.
      set (n := recorded (trend_upsert_throws f) (S i) skill skills) in *.
      assert (Hocc : n = 0 \/ 0 < n) by lia.
      destruct (String.eqb_spec skill x) as [-> | Hx],
        (decide ((week', yr') = (week, yr))) as [Hk | Hk], Hocc as [Hocc | Hocc];
        try (injection Hk as -> ->);
        rewrite ?Hocc; repeat case_decide;
        try reflexivity; try (exfalso; intuition (congruence || lia));
        cbn; f_equal; lia.
Qed.

(** X7. Trend counters.  The insert succeeding, every TrendCounter keyed
    by (skill, week number of the clock, calendar year of the clock) goes
    up by the number of positions of [missing_skills] that hold the skill
    and whose trend upsert did not throw, being created with that number
    when absent; the counters of every other week or year stay as they
    were. *)
Theorem trend_counters_count_mentions (data : Data.t) env f w pct (skills : list string) :
  bind_percentage (Data.match_percentage data) = Done pct ->
  Data.missing_skills data = Some skills ->
  insert_skill_gap_throws f = None ->
  trend_keys_distinct (db w) ->
  let w' := storeToDatabase data env f w in
  forall skill week yr,
    TrendCounter_of skill week yr (db w')
    = if decide ((week, yr) = (getWeekNumber (now env), getFullYear (now env))
                 /\ 0 < recorded (trend_upsert_throws f) 0 skill skills)
      then Some (default 0 (TrendCounter_of skill week yr (db w))
                 + recorded (trend_upsert_throws f) 0 skill skills)
      else TrendCounter_of skill week yr (db w).
Proof.
  intros Hp Hs Hi Hnd. unfold storeToDatabase, insert_skill_gap.
  rewrite Hi, Hp, Hs. cbn zeta.
  set (w1 := with_db _ w).
  destruct (updateSkillAnalytics_other_tables (Some skills) (Data.department data) env f w1)
    as [_ T].
  set (w2 := updateSkillAnalytics _ _ _ _ w1) in *.
  assert (Hnd2 : trend_keys_distinct (db w2)).
  { unfold trend_keys_distinct. rewrite T. exact Hnd. }
  unfold updateTrends.
  destruct (updateTrends_loop_faults env f skills 0%nat w2 Hnd2) as (_ & C).
  intros skill week yr. cbn [db console_log]. rewrite C.
  unfold TrendCounter_of. rewrite T. reflexivity.
Qed.

Lemma trend_counters_count_mentions_witness :
  let data := submission sample_helpers sample_request
                (sample_reply (PctNumber 35) ["Docker"; "Go"; "Docker"]) dec_31_2024 in
  let w' := storeToDatabase data dec_31_2024 no_faults (quiet empty_store) in
  TrendCounter_of "Docker" 1 2024 (db w') = Some 2
  /\ TrendCounter_of "Docker" 1 2025 (db w') = None.
Proof.
  pose proof (trend_counters_count_mentions
                (submission sample_helpers sample_request
                   (sample_reply (PctNumber 35) ["Docker"; "Go"; "Docker"]) dec_31_2024)
                dec_31_2024 no_faults (quiet empty_store)
                (Real 35) ["Docker"; "Go"; "Docker"] eq_refl eq_refl eq_refl) as C.
  cbn zeta in C. split.
  - rewrite (C ltac:(constructor) "Docker" 1 2024). reflexivity.
  - rewrite (C ltac:(constructor) "Docker" 1 2025). reflexivity.
Defined.

(** ** The constraints of the schema *)

Lemma forEach_invariant {A W : Type} (P : W -> Prop) (step : nat -> A -> W -> W) :
  (forall i x s, P s -> P (step i x s)) ->
  forall (l : list A) i s, P s -> P (forEach step i l s).
Proof.
  intros Hstep. induction l as [|x l IH]; intros i s Hs; cbn [forEach]; [exact Hs|].
  apply IH, Hstep, Hs.
Qed.

Lemma upsert_skill_keys skill dept ts (t : list SkillCounter.row) :
  NoDup (map skill_key t) -> NoDup (map skill_key (upsert_skill skill dept ts t)).
Proof.
  intros Hnd. unfold upsert_skill. destruct (select_skill skill dept t) as [e|] eqn:E.
  - replace (map skill_key (update_skill _ ts (SkillCounter.id e) t)) with (map skill_key t);
      [exact Hnd|].
    unfold update_skill. rewrite map_map. apply map_ext.
    intros r. now destruct (SkillCounter.id r =? SkillCounter.id e)%Z.
  - unfold insert_skill. rewrite map_app. cbn [map].
    apply NoDup_app. split; [exact Hnd|]. split; [|apply NoDup_singleton].
    intros k Hk Hk'. apply list_elem_of_singleton in Hk'. subst k.
    apply list_elem_of_In, in_map_iff in Hk as (r & Hr & Hin).
    pose proof (find_none _ _ E r Hin) as Hf. cbn beta in Hf.
    unfold skill_key in Hr. injection Hr as H1 H2.
    rewrite H1, H2, !String.eqb_refl in Hf. discriminate Hf.
Qed.

Lemma upsert_trend_keys skill week yr (t : list TrendCounter.row) :
  NoDup (map trend_key t) -> NoDup (map trend_key (upsert_trend skill week yr t)).
Proof.
  intros Hnd. unfold upsert_trend. destruct (select_trend skill week yr t) as [e|] eqn:E.
  - replace (map trend_key (update_trend _ (TrendCounter.id e) t)) with (map trend_key t);
      [exact Hnd|].
    unfold update_trend. rewrite map_map. apply map_ext.
    intros r. now destruct (TrendCounter.id r =? TrendCounter.id e)%Z.
  - unfold insert_trend. rewrite map_app. cbn [map].
    apply NoDup_app. split; [exact Hnd|]. split; [|apply NoDup_singleton].
    intros k Hk Hk'. apply list_elem_of_singleton in Hk'. subst k.
    apply list_elem_of_In, in_map_iff in Hk as (r & Hr & Hin).
    pose proof (find_none _ _ E r Hin) as Hf. cbn beta in Hf.
    change (trend_key r = (skill, week, yr)) in Hr.
    apply trend_test_true in Hr. rewrite Hr in Hf. discriminate Hf.
Qed.

(** X8. The recorder keeps the constraints of the schema: whatever the
    submission and whichever statements throw, the primary keys of the
    three tables stay distinct and so do the (skill, department) pairs of
    the skill counters and the (skill, week, year) triples of the trend
    counters; no insert of the recorder can hit a UNIQUE constraint. *)
Theorem recorder_keeps_schema (data : Data.t) env f w :
  schema_ok (db w) -> schema_ok (db (storeToDatabase data env f w)).
Proof.
  intros Hok. unfold storeToDatabase.
  destruct (insert_skill_gap data env f (db w)) as [d1|msg] eqn:Ei; [|exact Hok].
  cbn [db console_log].
  assert (H1 : schema_ok d1).
  { unfold insert_skill_gap in Ei.
    destruct (insert_skill_gap_throws f); [discriminate|].
    destruct (bind_percentage (Data.match_percentage data)); [|discriminate].
    injection Ei as <-. destruct Hok as (G & A & T & KA & KT).
    repeat split; cbn [skill_gaps skill_analytics trends]; try assumption.
    rewrite map_app. cbn [map SkillGapRecord.id].
    apply NoDup_app. split; [exact G|]. split; [|apply NoDup_singleton].
    intros x Hx Hx'. apply list_elem_of_singleton in Hx'. subst.
    now apply next_id_fresh in Hx. }
  assert (H2 : schema_ok (db (updateSkillAnalytics (Data.missing_skills data)
                               (Data.department data) env f (with_db d1 w)))).
  { unfold updateSkillAnalytics. destruct (Data.missing_skills data) as [skills|]; [|exact H1].
    apply (forEach_invariant (fun w => schema_ok (db w))); [|exact H1].
    intros i x w0 (G & A & T & KA & KT).
    destruct (skill_upsert_throws f i); [repeat split; assumption|].
    repeat split; cbn [db with_db skill_gaps skill_analytics trends]; try assumption.
    - now apply upsert_skill_NoDup.
    - now apply upsert_skill_keys. }
  unfold updateTrends. destruct (Data.missing_skills data) as [skills|]; [|exact H2].
  apply (forEach_invariant (fun w => schema_ok (db w))); [|exact H2].
  intros i x w0 (G & A & T & KA & KT).
  destruct (trend_upsert_throws f i); [repeat split; assumption|].
  repeat split; cbn [db with_db skill_gaps skill_analytics trends]; try assumption.
  - now apply upsert_trend_NoDup.
  - now apply upsert_trend_keys.
Qed.

Lemma recorder_keeps_schema_witness :
  schema_ok (db (storeToDatabase
                   (submission sample_helpers sample_request
                      (sample_reply (PctNumber 35) ["Docker"; "Go"; "Docker"]) dec_31_2024)
                   dec_31_2024 some_upserts_fail (quiet (one_counter "Docker" "CS" 4)))).
Proof.
  apply recorder_keeps_schema.
  repeat split; cbn; repeat constructor; intros H; inversion H.
Defined.

End BestEffort.


(* ===================================================================== *)
(** * What a snapshot holds                                               *)
(* ===================================================================== *)

Section Snapshot.

Implicit Types (query : Query.t) (env : Env) (d : Store) (j : json)
  (throws : Statement -> option string).

#[local] Existing Instance text_le_trans.
#[local] Existing Instance text_le_total.

(** ** Distinct values and groups *)

Lemma int_field_group kname cname aname (g : string * nat * option number) :
  String.eqb cname kname = false ->
  int_field cname (group_json kname cname aname g) = Z.of_nat (snd (fst g))
  /\ str_field kname (group_json kname cname aname g) = fst (fst g).
Proof.
  intros H. unfold int_field, str_field, group_json, field. cbn [lookup_field].
  rewrite H, !String.eqb_refl. cbn. split; [|reflexivity].
  unfold of_nat, of_Z. apply Qfloor_Z.
Qed.

Lemma group_stats_listed kname cname aname (key : SkillGapRecord.row -> string)
    (rows : list SkillGapRecord.row) :
  String.eqb cname kname = false ->
  let listed := map (group_json kname cname aname) (group_stats key rows) in
  NoDup (map (str_field kname) listed)
  /\ (forall k, k ∈ map (str_field kname) listed <-> exists r, r ∈ rows /\ key r = k)
  /\ Forall (fun e =>
       int_field cname e
       = Z.of_nat (length (filter (fun r => key r = str_field kname e) rows))
       /\ 1 <= int_field cname e) listed
  /\ Zsum (map (int_field cname) listed) = Z.of_nat (length rows).
Proof.
  intros Hne listed. subst listed.
  destruct (group_stats_spec key rows) as (N & M & F & S).
  assert (Ec : forall g, int_field cname (group_json kname cname aname g)
                         = Z.of_nat (snd (fst g))).
  { intros g. now apply int_field_group. }
  assert (Es : forall g, str_field kname (group_json kname cname aname g) = fst (fst g)).
  { intros g. now apply int_field_group. }
  rewrite !map_map.
  rewrite (map_ext _ (fun g => fst (fst g)) Es), (map_ext _ (fun g => Z.of_nat (snd (fst g))) Ec).
  split; [exact N|]. split; [exact M|]. split; [|exact S].
  apply Forall_map. eapply Forall_impl; [exact F|].
  intros g (Hc & H1 & _). cbn beta. rewrite Ec, Es, <- Hc. split; [reflexivity | lia].
Qed.

(** X9. The department and academic-year breakdowns of a snapshot
    partition the whole table, whatever the filter of the request: there
    is one entry for each department (each year) that a record of the
    table has and for no other, the count of an entry is the number of
    the records of the table with that department (that year), which is
    at least 1, and the counts add up to the number of records. *)
Theorem breakdowns_partition_the_records query env throws d j :
  snapshot query env throws d = Done j ->
  let depts := elements "departmentStats" j in
  let years := elements "academicYearStats" j in
  (NoDup (map (str_field "department") depts)
   /\ (forall k, k ∈ map (str_field "department") depts
                 <-> exists r, r ∈ skill_gaps d /\ SkillGapRecord.department r = k)
   /\ Forall (fun e =>
        int_field "count" e
        = Z.of_nat (length (filter (fun r => SkillGapRecord.department r
                                             = str_field "department" e) (skill_gaps d)))
        /\ 1 <= int_field "count" e) depts
   /\ Zsum (map (int_field "count") depts) = Z.of_nat (length (skill_gaps d)))
  /\ (NoDup (map (str_field "year") years)
      /\ (forall k, k ∈ map (str_field "year") years
                    <-> exists r, r ∈ skill_gaps d /\ SkillGapRecord.academic_year r = k)
      /\ Forall (fun e =>
           int_field "count" e
           = Z.of_nat (length (filter (fun r => SkillGapRecord.academic_year r
                                                = str_field "year" e) (skill_gaps d)))
           /\ 1 <= int_field "count" e) years
      /\ Zsum (map (int_field "count") years) = Z.of_nat (length (skill_gaps d)))
  /\ stat "totalDepartments" j = Z.of_nat (length depts).
Proof.
  intros H. apply snapshot_Done in H as [_ ->].
  unfold snapshot_json, snapshot, run, no_throw.
  cbn [mbind outcome_bind mret outcome_ret elements field lookup_field stat
       String.eqb Ascii.eqb Bool.eqb].
  split; [|split].
  - now apply group_stats_listed.
  - now apply group_stats_listed.
  - unfold int_field. cbn. rewrite length_map. unfold of_nat, of_Z. apply Qfloor_Z.
Qed.

(** With the filter on CS over a CS and an EE record, the breakdown
    lists both departments with one record each. *)
Lemma breakdowns_partition_the_records_witness :
  let depts := elements "departmentStats"
                 (snapshot_json (only_department "CS") march_6_2024 two_departments) in
  map (fun e => (str_field "department" e, int_field "count" e)) depts = [("CS", 1); ("EE", 1)]
  /\ Forall (fun e =>
       int_field "count" e
       = Z.of_nat (length (filter (fun r => SkillGapRecord.department r
                                            = str_field "department" e)
                             (skill_gaps two_departments)))
       /\ 1 <= int_field "count" e) depts.
Proof.
  split; [reflexivity|].
  apply (breakdowns_partition_the_records (only_department "CS") march_6_2024 no_throw
           two_departments _ eq_refl).
Defined.

(** ** Ordered and limited lists *)

(** [ORDER BY ... LIMIT n]: the result is sorted, has at most [n] rows
    taken from the table, and no row left out comes before a row kept. *)
Lemma order_limit_spec {A : Type} (R : relation A) `{!forall x y, Decision (R x y)}
    (n : nat) (l : list A) :
  Transitive R -> Total R ->
  let top := take n (order_by R l) in
  StronglySorted R top
  /\ (length top <= n)%nat
  /\ (forall x, x ∈ top -> x ∈ l)
  /\ (forall x y, x ∈ top -> y ∈ l -> y ∉ top -> R x y)
  /\ ((length l <= n)%nat -> top ≡ₚ l).
Proof.
  intros HT Htot top.
  pose proof (StronglySorted_order_by R l HT Htot) as HS.
  pose proof (order_by_Permutation R l) as HP.
  rewrite <- (take_drop n (order_by R l)) in HS. fold top in HS.
  split; [now apply StronglySorted_app_1_l in HS|].
  split; [unfold top; rewrite length_take; lia|].
  split; [|split].
  - intros x Hx. rewrite <- HP, <- (take_drop n (order_by R l)).
    apply elem_of_app. now left.
  - intros x y Hx Hy Hny. rewrite <- HP, <- (take_drop n (order_by R l)) in Hy.
    apply elem_of_app in Hy as [Hy | Hy]; [contradiction|].
    eapply StronglySorted_app_1_elem_of; eassumption.
  - intros Hlen. unfold top. rewrite take_ge; [exact HP|].
    now rewrite HP.
Qed.

#[local] Instance by_sum_desc_trans {A : Type} : Transitive (@by_sum_desc A).
Proof. intros a b c. unfold by_sum_desc. lia. Qed.

#[local] Instance by_sum_desc_total {A : Type} : Total (@by_sum_desc A).
Proof. intros a b. unfold by_sum_desc. lia. Qed.

#[local] Instance by_count_desc_trans : Transitive by_count_desc.
Proof. intros a b c. unfold by_count_desc. lia. Qed.

#[local] Instance by_count_desc_total : Total by_count_desc.
Proof. intros a b. unfold by_count_desc. lia. Qed.

Lemma NoDup_take {A : Type} (n : nat) (l : list A) : NoDup l -> NoDup (take n l).
Proof.
  intros H. rewrite <- (take_drop n l) in H. now apply NoDup_app in H as [H _].
Qed.

Lemma top_skills_groups_spec (t : list SkillCounter.row) :
  NoDup (map (fun g => fst (fst g)) (top_skills_groups t))
  /\ forall g, g ∈ top_skills_groups t ->
       fst (fst g) ∈ map SkillCounter.skill_name t
       /\ snd (fst g)
          = Zsum (map SkillCounter.total_missing
                    (filter (fun r => SkillCounter.skill_name r = fst (fst g)) t)).
Proof.
  unfold top_skills_groups.
  destruct (group_keys_spec (map SkillCounter.skill_name t)) as (N & M & _).
  split.
  - rewrite map_map. cbn [fst]. now rewrite map_id.
  - intros g Hg. apply list_elem_of_In, in_map_iff in Hg as (k & <- & Hk).
    cbn [fst snd]. split; [|reflexivity]. apply M. now apply list_elem_of_In.
Qed.

Lemma top_skills_groups_complete (t : list SkillCounter.row) (skill : string) :
  skill ∈ map SkillCounter.skill_name t ->
  exists g, g ∈ top_skills_groups t /\ fst (fst g) = skill.
Proof.
  intros H. apply (proj1 (proj2 (group_keys_spec _))) in H.
  unfold top_skills_groups. eexists. split.
  - apply list_elem_of_In, in_map. apply list_elem_of_In. exact H.
  - reflexivity.
Qed.

(** X10. The top missing skills are the top ones.  The list has at most
    15 entries, in descending order of count, each skill once; the count
    of a listed skill is the sum of its counters over all departments,
    and no skill left out has a larger sum than a listed one.  The
    [uniqueSkills] statistic is the length of this list, so it never
    exceeds 15. *)
Theorem top_missing_skills_are_the_top query env throws d j :
  snapshot query env throws d = Done j ->
  let top := elements "topMissingSkills" j in
  (length top <= 15)%nat
  /\ stat "uniqueSkills" j = Z.of_nat (length top)
  /\ StronglySorted (fun a b => int_field "count" b <= int_field "count" a) top
  /\ NoDup (map (str_field "skill") top)
  /\ Forall (fun e =>
        str_field "skill" e ∈ map SkillCounter.skill_name (skill_analytics d)
        /\ int_field "count" e = total_missing_of (str_field "skill" e) d) top
  /\ forall skill,
       skill ∈ map SkillCounter.skill_name (skill_analytics d) ->
       skill ∉ map (str_field "skill") top ->
       Forall (fun e => total_missing_of skill d <= int_field "count" e) top.
Proof.
  intros H. apply snapshot_Done in H as [_ ->].
  unfold snapshot_json, snapshot, run, no_throw.
  cbn [mbind outcome_bind mret outcome_ret elements field lookup_field stat
       String.eqb Ascii.eqb Bool.eqb].
  set (groups := top_skills_groups (skill_analytics d)).
  destruct (order_limit_spec (@by_sum_desc string) 15 groups _ _) as (HS & HL & Hin & Hdom & _).
  set (kept := take 15 (order_by by_sum_desc groups)) in *.
  destruct (top_skills_groups_spec (skill_analytics d)) as [Hnd Hg]. fold groups in Hnd, Hg.
  set (entry := fun g : string * Z * string =>
                  JObj [("skill", J (get "skill_name" (top_skill_object g)));
                        ("count", J (get "count" (top_skill_object g)))]).
  assert (Ec : forall g, int_field "count" (entry g) = snd (fst g)).
  { intros g. unfold entry, int_field. cbn. unfold of_Z. apply Qfloor_Z. }
  assert (Es : forall g, str_field "skill" (entry g) = fst (fst g)).
  { intros g. reflexivity. }
  rewrite (map_map top_skill_object). fold entry.
  rewrite !length_map.
  assert (Hnames : map (str_field "skill") (map entry kept)
                   = map (fun g => fst (fst g)) kept).
  { rewrite map_map. apply map_ext. exact Es. }
  rewrite Hnames.
  split; [exact HL|]. split.
  { unfold int_field. cbn. unfold of_nat, of_Z. apply Qfloor_Z. }
  split.
  { apply (StronglySorted_fmap entry by_sum_desc); [|exact HS].
    intros x y Hxy. rewrite !Ec. exact Hxy. }
  split.
  { unfold kept. rewrite <- firstn_map. apply NoDup_take.
    eapply NoDup_Permutation_proper; [|exact Hnd].
    apply fmap_Permutation, order_by_Permutation. }
  split.
  { apply Forall_map, Forall_forall. intros g Hk. cbn beta. rewrite Ec, Es.
    destruct (Hg g (Hin g Hk)) as [H1 H2]. split; [exact H1 | exact H2]. }
  intros skill Hs Hout.
  apply Forall_map, Forall_forall. intros g Hk. cbn beta. rewrite Ec.
  destruct (top_skills_groups_complete (skill_analytics d) skill Hs) as (g' & Hg' & Hn).
  fold groups in Hg'.
  assert (Hnk : g' ∉ kept).
  { intros Hk'. apply Hout. rewrite <- Hn.
    apply list_elem_of_In, (in_map (fun g => fst (fst g))). now apply list_elem_of_In. }
  pose proof (Hdom g g' Hk Hg' Hnk) as Hr. unfold by_sum_desc in Hr.
  destruct (Hg g' Hg') as [_ Hsum]. rewrite Hn in Hsum.
  unfold total_missing_of. rewrite <- Hsum. exact Hr.
Qed.

Lemma top_missing_skills_are_the_top_witness :
  stat "uniqueSkills" (snapshot_json no_filter march_6_2024 (one_counter "Python" "CS" 6)) = 1.
Proof.
  apply (top_missing_skills_are_the_top no_filter march_6_2024 no_throw
           (one_counter "Python" "CS" 6) _ eq_refl).
Defined.

(** ** No matching record *)

Lemma filter_nothing {A : Type} (P : A -> bool) (l : list A) :
  (forall x, x ∈ l -> P x = false) -> List.filter P l = [].
Proof.
  induction l as [|x l IH]; intros H; [reflexivity|]. cbn.
  rewrite (H x) by apply list_elem_of_here. apply IH.
  intros y Hy. apply H. now apply list_elem_of_further.
Qed.

(** X11. No record matching the filter (an empty table included): the
    snapshot has zero students, average match 0 (the SQL average is NULL,
    not a division by zero), an all-zero distribution, no recent activity,
    empty priority tiers and no readiness alert. *)
Theorem snapshot_of_no_matching_record query env throws d j :
  snapshot query env throws d = Done j ->
  (forall r, r ∈ skill_gaps d -> whereClause query r = false) ->
  stat "totalStudents" j = 0
  /\ field "averageMatch" (default (J PNull) (field "stats" j)) = Some (JZ 0)
  /\ field "matchDistribution" j = Some (Jobj (distribution_object 0 0 0 0))
  /\ elements "recentActivity" j = []
  /\ (tier_list "critical" j = [] /\ tier_list "important" j = []
      /\ tier_list "optional" j = [])
  /\ Forall (fun a => ~ is_readiness_concern a) (elements "alerts" j).
Proof.
  intros H Hno. apply snapshot_Done in H as [_ ->].
  unfold snapshot_json, snapshot, run, no_throw, tier_list.
  cbn [mbind outcome_bind mret outcome_ret option_bind elements field lookup_field stat
       String.eqb Ascii.eqb Bool.eqb default].
  rewrite (filter_nothing _ _ Hno).
  repeat split; try reflexivity.
  apply Forall_forall. intros a Ha.
  change (matchDistribution (map SkillGapRecord.match_percentage []))
    with (distribution_object 0 0 0 0) in Ha.
  now apply skill_alerts_not_readiness in Ha.
Qed.

Lemma snapshot_of_no_matching_record_witness :
  stat "totalStudents" (snapshot_json (only_department "Law") march_6_2024 two_departments) = 0.
Proof.
  apply (snapshot_of_no_matching_record (only_department "Law") march_6_2024 no_throw
           two_departments _ eq_refl).
  intros r Hr. unfold two_departments in Hr. cbn [skill_gaps] in Hr.
  elem_cases Hr; reflexivity.
Defined.

(** ** The priority tiers *)










(** ** A recorded submission in the next snapshot *)

Lemma whereClause_inserted query (data : Data.t) env (d : Store) pct :
  bind_percentage (Data.match_percentage data) = Done pct ->
  forall d', insert_skill_gap data env no_faults d = Done d' ->
  exists r, skill_gaps d' = (skill_gaps d ++ [r])%list
            /\ whereClause query r = whereClause_data query data
            /\ SkillGapRecord.match_percentage r = pct.
Proof.
  intros Hp d' Hd. unfold insert_skill_gap in Hd. cbn [insert_skill_gap_throws no_faults] in Hd.
  rewrite Hp in Hd. injection Hd as <-. eexists. cbn [skill_gaps].
  split; [reflexivity|]. split; reflexivity.
Qed.

(** X13. A recorded submission is read by the next aggregate exactly when
    it passes the filter.  After [storeToDatabase] of a submission with a
    percentage the column takes (no statement throwing), the scores a
    request reads are the former ones followed by the new one if the stored
    department and academic year (after the "Unknown" / "Not Specified"
    defaults) pass the filter, and the former ones otherwise; so each
    band count of the distribution grows by one exactly for the band of
    the new percentage. *)
Theorem recorded_submission_is_counted query (data : Data.t) env w pct :
  bind_percentage (Data.match_percentage data) = Done pct ->
  let w' := storeToDatabase data env no_faults w in
  filtered_scores query (db w')
  = (filtered_scores query (db w) ++ if whereClause_data query data then [pct] else [])%list
  /\ forall band,
       band_count band (filtered_scores query (db w'))
       = (band_count band (filtered_scores query (db w))
          + if whereClause_data query data && band (score_number pct) then 1 else 0)%nat.
Proof.
  intros Hp w'.
  assert (E : filtered_scores query (db w')
              = (filtered_scores query (db w)
                 ++ if whereClause_data query data then [pct] else [])%list).
  { unfold w', storeToDatabase.
    destruct (insert_skill_gap data env no_faults (db w)) as [d1|msg] eqn:Ei.
    2:{ unfold insert_skill_gap in Ei. cbn [insert_skill_gap_throws no_faults] in Ei.
        rewrite Hp in Ei. discriminate Ei. }
    destruct (whereClause_inserted query data env (db w) pct Hp d1 Ei) as (r & Hr & Hw & Hpct).
    cbn [db console_log].
    destruct (updateTrends_other_tables (Data.missing_skills data) env no_faults
                (updateSkillAnalytics (Data.missing_skills data) (Data.department data)
                   env no_faults (with_db d1 w))) as [G _].
    destruct (updateSkillAnalytics_other_tables (Data.missing_skills data)
                (Data.department data) env no_faults (with_db d1 w)) as [G' _].
    unfold filtered_scores. rewrite G, G'. cbn [db with_db]. rewrite Hr.
    rewrite List.filter_app, map_app. cbn [List.filter]. rewrite Hw.
    destruct (whereClause_data query data); cbn [map]; [now rewrite Hpct | reflexivity]. }
  split; [exact E|]. intros band. rewrite E. unfold band_count.
  rewrite List.filter_app, length_app.
  destruct (whereClause_data query data); cbn [List.filter andb length]; [|lia].
  destruct (band (score_number pct)); cbn [length]; lia.
Qed.

Lemma recorded_submission_is_counted_witness :
  let data := submission sample_helpers sample_request
                (sample_reply (PctNumber 35) ["Docker"]) dec_31_2024 in
  band_count is_veryLow
    (filtered_scores (only_department "CS")
       (db (storeToDatabase data dec_31_2024 no_faults (quiet two_departments))))
  = 1%nat.
Proof.
  pose proof (recorded_submission_is_counted (only_department "CS")
                (submission sample_helpers sample_request
                   (sample_reply (PctNumber 35) ["Docker"]) dec_31_2024)
                dec_31_2024 (quiet two_departments) (Real 35) eq_refl) as [_ H].
  cbn zeta. rewrite (H is_veryLow). reflexivity.
Defined.

(** ** Trending skills *)

Lemma trending_groups_spec env d :
  let groups := trending_groups (getFullYear (now env))
                  (Math_max 1 (getWeekNumber (now env) - 3)) (trends d) in
  NoDup (map (fun g => fst (fst g)) groups)
  /\ (forall g, g ∈ groups ->
        fst (fst g) ∈ map TrendCounter.skill_name (window_rows env d)
        /\ snd (fst g)
           = Zsum (map TrendCounter.count
                     (filter (fun r => TrendCounter.skill_name r = fst (fst g))
                        (window_rows env d))))
  /\ (forall skill, skill ∈ map TrendCounter.skill_name (window_rows env d) ->
        exists g, g ∈ groups /\ fst (fst g) = skill).
Proof.
  unfold trending_groups. fold (window_rows env d).
  destruct (group_keys_spec (map TrendCounter.skill_name (window_rows env d))) as (N & M & _).
  split; [|split].
  - rewrite map_map. cbn [fst]. now rewrite map_id.
  - intros g Hg. apply list_elem_of_In, in_map_iff in Hg as (k & <- & Hk).
    cbn [fst snd]. split; [|reflexivity]. apply M. now apply list_elem_of_In.
  - intros skill H. apply M in H. eexists. split.
    + apply list_elem_of_In, in_map. apply list_elem_of_In. exact H.
    + reflexivity.
Qed.

(** X14. The trending skills are the skills of the trend rows of the
    current calendar year whose week number is at least the current week
    minus 3 (and at least 1): at most 10, each once, in descending order
    of total; the total of a listed skill is the sum of its counters in
    that window, and no skill of the window left out has a larger one.
    Rows of another calendar year never count. *)
Theorem trending_skills_window query env throws d j :
  snapshot query env throws d = Done j ->
  let listed := elements "trendingSkills" j in
  (length listed <= 10)%nat
  /\ StronglySorted (fun a b => int_field "total" b <= int_field "total" a) listed
  /\ NoDup (map (str_field "skill") listed)
  /\ Forall (fun e =>
        str_field "skill" e ∈ map TrendCounter.skill_name (window_rows env d)
        /\ int_field "total" e
           = Zsum (map TrendCounter.count
                     (filter (fun r => TrendCounter.skill_name r = str_field "skill" e)
                        (window_rows env d)))) listed
  /\ forall skill,
       skill ∈ map TrendCounter.skill_name (window_rows env d) ->
       skill ∉ map (str_field "skill") listed ->
       Forall (fun e =>
         Zsum (map TrendCounter.count
                 (filter (fun r => TrendCounter.skill_name r = skill) (window_rows env d)))
         <= int_field "total" e) listed.
Proof.
  intros H. apply snapshot_Done in H as [_ ->].
  unfold snapshot_json, snapshot, run, no_throw.
  cbn [mbind outcome_bind mret outcome_ret elements field lookup_field
       String.eqb Ascii.eqb Bool.eqb].
  destruct (trending_groups_spec env d) as (Hnd & Hg & Hall).
  set (groups := trending_groups _ _ _) in *.
  destruct (order_limit_spec (@by_sum_desc string) 10 groups _ _) as (HS & HL & Hin & Hdom & _).
  set (kept := take 10 (order_by by_sum_desc groups)) in *.
  set (entry := fun g : string * Z * string =>
                  JObj [("skill", J (get "skill_name" (trending_object g)));
                        ("total", J (get "total" (trending_object g)));
                        ("trend", JS "increasing")]).
  assert (Ec : forall g, int_field "total" (entry g) = snd (fst g)).
  { intros g. unfold entry, int_field. cbn. unfold of_Z. apply Qfloor_Z. }
  assert (Es : forall g, str_field "skill" (entry g) = fst (fst g)).
  { intros g. reflexivity. }
  rewrite (map_map trending_object). fold entry.
  rewrite !length_map.
  assert (Hnames : map (str_field "skill") (map entry kept)
                   = map (fun g => fst (fst g)) kept).
  { rewrite map_map. apply map_ext. exact Es. }
  rewrite Hnames.
  split; [exact HL|]. split.
  { apply (StronglySorted_fmap entry by_sum_desc); [|exact HS].
    intros x y Hxy. rewrite !Ec. exact Hxy. }
  split.
  { unfold kept. rewrite <- firstn_map. apply NoDup_take.
    eapply NoDup_Permutation_proper; [|exact Hnd].
    apply fmap_Permutation, order_by_Permutation. }
  split.
  { apply Forall_map, Forall_forall. intros g Hk. cbn beta. rewrite Ec, Es.
    destruct (Hg g (Hin g Hk)) as [H1 H2]. split; [exact H1 | exact H2]. }
  intros skill Hs Hout.
  apply Forall_map, Forall_forall. intros g Hk. cbn beta. rewrite Ec.
  destruct (Hall skill Hs) as (g' & Hg' & Hn).
  assert (Hnk : g' ∉ kept).
  { intros Hk'. apply Hout. rewrite <- Hn.
    apply list_elem_of_In, (in_map (fun g => fst (fst g))). now apply list_elem_of_In. }
  pose proof (Hdom g g' Hk Hg' Hnk) as Hr. unfold by_sum_desc in Hr.
  destruct (Hg g' Hg') as [_ Hsum]. rewrite Hn in Hsum.
  rewrite <- Hsum. exact Hr.
Qed.

(** At week 10 of 2024 the window holds the rows of weeks 7 to 10 of
    2024: Docker with 3 + 2 and Go with 4; the row of week 5 and the row
    of 2023 do not count. *)
Lemma trending_skills_window_witness :
  let listed := elements "trendingSkills" (snapshot_json no_filter march_6_2024 trend_history) in
  map (fun e => (str_field "skill" e, int_field "total" e)) listed = [("Docker", 5); ("Go", 4)]
  /\ map TrendCounter.id (window_rows march_6_2024 trend_history) = [1; 2; 3]
  /\ Forall (fun e =>
        str_field "skill" e ∈ map TrendCounter.skill_name (window_rows march_6_2024 trend_history)
        /\ int_field "total" e
           = Zsum (map TrendCounter.count
                     (filter (fun r => TrendCounter.skill_name r = str_field "skill" e)
                        (window_rows march_6_2024 trend_history)))) listed.
Proof.
  split; [reflexivity|]. split; [reflexivity|].
  apply (trending_skills_window no_filter march_6_2024 no_throw trend_history _ eq_refl).
Defined.

(** X15. The trending alert.  A snapshot carries the warning of the
    trending rule exactly when it lists a trending skill; the alert has
    the total of the first listed skill as its count, and its title reads
    "Trending Skill Gap: undefined", the rows handed to the generator
    having no [skill] property. *)
Theorem trending_alert_rule query env throws d j :
  snapshot query env throws d = Done j ->
  match elements "trendingSkills" j with
  | [] => Forall (fun a => ~ is_trending_alert a) (elements "alerts" j)
  | first :: _ =>
      Exists (fun a => is_trending_alert a
                       /\ field "count" a = field "total" first
                       /\ has_title "Trending Skill Gap: undefined" a)
        (elements "alerts" j)
  end.
Proof.
  intros H. apply snapshot_Done in H as [_ ->].
  unfold snapshot_json, snapshot, run, no_throw.
  cbn [mbind outcome_bind mret outcome_ret elements field lookup_field
       String.eqb Ascii.eqb Bool.eqb].
  set (top := map top_skill_object _).
  set (groups := take 10 _).
  set (dist := matchDistribution _).
  rewrite generateEnhancedAlerts_app.
  destruct groups as [|g rest]; cbn [map].
  - apply Forall_app. split; [|apply Forall_app; split].
    + destruct top as [|t ?]; [constructor|].
      destruct (js_gt _ _); repeat constructor. intros [Hs _]. discriminate Hs.
    + constructor.
    + apply Forall_forall. intros a Ha [_ Hact].
      apply generateEnhancedAlerts_tail in Ha as [p ->]. discriminate Hact.
  - apply Exists_app. right. apply Exists_app. left. constructor.
    repeat split.
Qed.

Lemma trending_alert_rule_witness :
  Exists (fun a => is_trending_alert a /\ has_title "Trending Skill Gap: undefined" a)
    (elements "alerts" (snapshot_json no_filter march_6_2024 one_trend)).
Proof.
  pose proof (trending_alert_rule no_filter march_6_2024 no_throw one_trend _ eq_refl) as H.
  cbn in H. eapply Exists_impl; [exact H|]. cbn beta. tauto.
Defined.

(** ** Recent activity and companies *)

#[local] Instance by_timestamp_desc_trans : Transitive by_timestamp_desc.
Proof. intros a b c H1 H2. unfold by_timestamp_desc in *. eapply leb_trans; eassumption. Qed.

#[local] Instance by_timestamp_desc_total : Total by_timestamp_desc.
Proof. intros a b. unfold by_timestamp_desc. destruct (String.leb_total (SkillGapRecord.timestamp b) (SkillGapRecord.timestamp a)); tauto. Qed.

(** X16. Recent activity.  The records matching the filter, each once,
    fall into the listed ones and the others: the list holds all of them
    when they are 20 or fewer and 20 of them otherwise, latest timestamp
    first (text compared bytewise), and no record left out has a later
    timestamp than a listed one. *)
Theorem recent_activity_is_latest query env throws d j :
  snapshot query env throws d = Done j ->
  exists recent older : list SkillGapRecord.row,
    elements "recentActivity" j = map activity_json recent
    /\ (recent ++ older)%list ≡ₚ matching query d
    /\ length recent = Nat.min 20 (length (matching query d))
    /\ StronglySorted by_timestamp_desc recent
    /\ (forall r old, r ∈ recent -> old ∈ older ->
          String.leb (SkillGapRecord.timestamp old) (SkillGapRecord.timestamp r) = true).
Proof.
  intros H. apply snapshot_Done in H as [_ ->].
  pose proof (StronglySorted_order_by by_timestamp_desc (matching query d) _ _) as HS.
  pose proof (order_by_Permutation by_timestamp_desc (matching query d)) as HP.
  set (sorted := order_by by_timestamp_desc (matching query d)) in *.
  exists (take 20 sorted), (drop 20 sorted).
  rewrite <- (take_drop 20 sorted) in HS.
  split; [reflexivity|]. split; [now rewrite take_drop|]. split.
  { rewrite length_take, (Permutation_length HP). lia. }
  split; [now apply StronglySorted_app_1_l in HS|].
  intros r old Hr Ho. eapply (StronglySorted_app_1_elem_of by_timestamp_desc); eassumption.
Qed.

(** Two records of one timestamp, both listed and none left out. *)
Lemma recent_activity_is_latest_witness :
  exists recent older : list SkillGapRecord.row,
    elements "recentActivity" (snapshot_json no_filter march_6_2024 two_departments)
    = map activity_json recent
    /\ (recent ++ older)%list ≡ₚ skill_gaps two_departments
    /\ length recent = 2%nat.
Proof.
  destruct (recent_activity_is_latest no_filter march_6_2024 no_throw two_departments _ eq_refl)
    as (recent & older & E & P & L & _).
  exists recent, older. split; [exact E|]. split; [exact P | rewrite L; reflexivity].
Defined.



End Snapshot.


(* ===================================================================== *)
(** * Accounts and authentication                                         *)
(* ===================================================================== *)

Section Authentication.

Implicit Types (c : Crypto) (s : Accounts) (env : Env) (req : Credentials).

(** ** The token of a request *)

Lemma word_cons ch w : word (String ch w) = negb (Ascii.eqb ch " ") && word w.
Proof. reflexivity. Qed.

Lemma split_word w : word w = true -> split " " w = [w].
Proof.
  induction w as [|ch w IH]; [reflexivity|].
  rewrite word_cons. intros [Hc Hw]%andb_true_iff.
  cbn [split]. apply negb_true_iff in Hc. rewrite Hc, (IH Hw). reflexivity.
Qed.

Lemma split_word_app w rest :
  word w = true -> split " " (w ++ " " ++ rest) = w :: split " " rest.
Proof.
  induction w as [|ch w IH]; [reflexivity|].
  rewrite word_cons. intros [Hc Hw]%andb_true_iff.
  change (String ch w ++ " " ++ rest) with (String ch (w ++ " " ++ rest)).
  cbn [split]. apply negb_true_iff in Hc. rewrite Hc, (IH Hw). reflexivity.
Qed.

Lemma truthy_Some x : x <> "" -> truthy (Some x) = true.
Proof.
  intros H. cbn. apply negb_true_iff, String.eqb_neq. exact H.
Qed.

Lemma second_word (scheme token : string) (cookie : option string) :
  word scheme = true -> word token = true -> token <> "" ->
  presented_token {| authorization := Some (scheme ++ " " ++ token);
                     cookie_token := cookie |} = Some token.
Proof.
  intros Hs Ht Hne. unfold presented_token. cbn [authorization cookie_token mbind option_bind].
  rewrite split_word_app, split_word by assumption.
  cbn [lookup list_lookup]. now rewrite (truthy_Some token Hne).
Qed.

(** A string has no space, or it is a word, a space and the rest. *)
Lemma first_space (h : string) :
  word h = true \/ exists a rest, word a = true /\ h = a ++ " " ++ rest.
Proof.
  induction h as [|ch h IH]; [now left|].
  destruct (Ascii.eqb ch " ") eqn:E.
  - right. exists "", h. split; [reflexivity|]. apply Ascii.eqb_eq in E. now subst ch.
  - destruct IH as [Hw | (a & rest & Ha & ->)].
    + left. rewrite word_cons, E. exact Hw.
    + right. exists (String ch a), rest. split; [|reflexivity].
      rewrite word_cons, E. exact Ha.
Qed.

Lemma header_shapes (h : string) :
  word h = true
  \/ exists a t, word a = true /\ word t = true
       /\ (h = a ++ " " ++ t \/ exists rest, h = a ++ " " ++ t ++ " " ++ rest).
Proof.
  destruct (first_space h) as [Hw | (a & rest & Ha & ->)]; [now left|]. right.
  destruct (first_space rest) as [Hw | (t & rest' & Ht & ->)].
  - exists a, rest. auto.
  - exists a, t. split; [exact Ha|]. split; [exact Ht|]. right. now exists rest'.
Qed.

Lemma token_or_cookie (t : string) (cookie : option string) :
  (if truthy (Some t) then Some t else cookie) = if decide (t = "") then cookie else Some t.
Proof.
  destruct (decide (t = "")) as [-> | Hne]; [reflexivity|].
  now rewrite (truthy_Some t Hne).
Qed.

(** X18. The token of a request is what stands between the first and the
    second space of the [Authorization] header, or after the first space
    when there is no second one, whatever stands before the first space
    (it need not be "Bearer") and after the second.  The cookie is read
    when there is no header, when the header has no space, and when
    nothing stands between its first two spaces or after its only space.
    Every header has one of these shapes. *)
Theorem token_is_second_word (cookie : option string) :
  let request h := {| authorization := h; cookie_token := cookie |} in
  presented_token (request None) = cookie
  /\ (forall h, word h = true -> presented_token (request (Some h)) = cookie)
  /\ (forall a t, word a = true -> word t = true ->
        presented_token (request (Some (a ++ " " ++ t)))
        = if decide (t = "") then cookie else Some t)
  /\ (forall a t rest, word a = true -> word t = true ->
        presented_token (request (Some (a ++ " " ++ t ++ " " ++ rest)))
        = if decide (t = "") then cookie else Some t)
  /\ (forall h,
        word h = true
        \/ exists a t, word a = true /\ word t = true
             /\ (h = a ++ " " ++ t \/ exists rest, h = a ++ " " ++ t ++ " " ++ rest)).
Proof.
  cbv zeta. unfold presented_token. cbn [authorization cookie_token mbind option_bind].
  split; [reflexivity|]. split; [|split; [|split]].
  - intros h Hh. now rewrite (split_word h Hh).
  - intros a t Ha Ht. rewrite (split_word_app a t Ha), (split_word t Ht).
    cbn [lookup list_lookup]. apply token_or_cookie.
  - intros a t rest Ha Ht.
    rewrite (split_word_app a (t ++ " " ++ rest) Ha), (split_word_app t rest Ht).
    cbn [lookup list_lookup]. apply token_or_cookie.
  - apply header_shapes.
Qed.

(** Two spaces after the scheme: nothing stands between them, and the
    cookie is read although the header goes on. *)
Lemma token_is_second_word_witness :
  presented_token {| authorization := Some "Bearer  abc.def"; cookie_token := Some "other" |}
  = Some "other"
  /\ presented_token {| authorization := Some "Basic abc.def token"; cookie_token := Some "other" |}
     = Some "abc.def".
Proof.
  destruct (token_is_second_word (Some "other")) as (_ & _ & _ & H & _). split.
  - apply (H "Bearer" "" "abc.def"); reflexivity.
  - apply (H "Basic" "abc.def" "token"); reflexivity.
Defined.

(** ** The protected routes *)

Lemma analytics_status query env throws (w : World) :
  status (fst (analytics query env throws w)) = 200.
Proof. unfold analytics. destruct (snapshot _ _ _ _); reflexivity. Qed.

Lemma truthy_inv (x : option string) :
  truthy x = true -> exists t, x = Some t /\ t <> "".
Proof.
  destruct x as [t|]; [|discriminate]. cbn. intros H.
  exists t. split; [reflexivity|]. now apply String.eqb_neq, negb_true_iff.
Qed.

(** X19. The analytics route answers 200 exactly to a request whose
    token verifies to a payload of role "admin", and then with what the
    handler gives; any other request is answered 401 or 403 and leaves
    the database and the console as they were. *)
Theorem analytics_only_for_admins c req query env throws (w : World) :
  let answer := analytics_route c req query env throws w in
  (status (fst answer) = 200 <->
   exists token user,
     presented_token req = Some token /\ token <> ""
     /\ jwt_verify c token = Some user /\ Payload.role user = "admin")
  /\ (status (fst answer) = 200 -> answer = analytics query env throws w)
  /\ (status (fst answer) <> 200 ->
      (status (fst answer) = 401 \/ status (fst answer) = 403) /\ snd answer = w).
Proof.
  cbv zeta. unfold analytics_route, authenticateToken, requireAdmin.
  destruct (truthy (presented_token req)) eqn:Ht; cbn [negb].
  - apply truthy_inv in Ht as (token & Ep & Hne). rewrite Ep.
    change (default "" (Some token)) with token.
    destruct (jwt_verify c token) as [user|] eqn:Ev.
    + destruct (String.eqb (Payload.role user) "admin") eqn:Er; cbn [negb].
      * apply String.eqb_eq in Er.
        pose proof (analytics_status query env throws w) as Hs.
        split; [|split].
        -- split; [|intros _; exact Hs]. intros _. exists token, user. auto.
        -- reflexivity.
        -- intros H. contradiction.
      * apply String.eqb_neq in Er. cbn.
        split; [|split].
        -- split; [discriminate|]. intros (t & u & Et & _ & Eu & Hr).
           injection Et as <-. rewrite Ev in Eu. injection Eu as <-. contradiction.
        -- discriminate.
        -- intros _. split; [now right | reflexivity].
    + cbn. split; [|split].
      * split; [discriminate|]. intros (t & u & Et & _ & Eu & _).
        injection Et as <-. rewrite Ev in Eu. discriminate.
      * discriminate.
      * intros _. split; [now right | reflexivity].
  - cbn. split; [|split].
    + split; [discriminate|]. intros (t & u & Et & Hne & _).
      rewrite Et, (truthy_Some t Hne) in Ht. discriminate.
    + discriminate.
    + intros _. split; [now left | reflexivity].
Qed.

(** ** Registration and login *)

Lemma find_user_None email (t : list User.row) :
  find_user email t = None -> email ∉ map User.email t.
Proof.
  unfold find_user. intros H Hin.
  apply list_elem_of_In, in_map_iff in Hin as (r & Er & Hr).
  apply (find_none _ _ H) in Hr. rewrite Er, String.eqb_refl in Hr. discriminate.
Qed.

Lemma touch_last_login_identity i ts (t : list User.row) :
  map identity (touch_last_login i ts t) = map identity t.
Proof.
  unfold touch_last_login. rewrite map_map. apply map_ext.
  intros r. destruct (Z.eqb (User.id r) i); reflexivity.
Qed.

Lemma identity_ids (t t' : list User.row) :
  map identity t = map identity t' -> map User.id t = map User.id t'.
Proof.
  intros H.
  change (map User.id t) with (map (fun r => fst (fst (fst (identity r)))) t).
  change (map User.id t') with (map (fun r => fst (fst (fst (identity r)))) t').
  rewrite <- !(map_map identity (fun k => fst (fst (fst k)))). now rewrite H.
Qed.

Lemma identity_emails (t t' : list User.row) :
  map identity t = map identity t' -> map User.email t = map User.email t'.
Proof.
  intros H.
  change (map User.email t) with (map (fun r => snd (fst (fst (identity r)))) t).
  change (map User.email t') with (map (fun r => snd (fst (fst (identity r)))) t').
  rewrite <- !(map_map identity (fun k => snd (fst (fst k)))). now rewrite H.
Qed.

(** What a registration leaves: the accounts as they were, or one more
    account, of role "student". *)
Lemma register_users c body env throws s :
  users (snd (register c body env throws s)) = users s
  \/ exists r,
       users (snd (register c body env throws s)) = (users s ++ [r])%list
       /\ User.id r = next_id (map User.id (users s))
       /\ Some (User.email r) = RegisterBody.email body
       /\ (User.email r ∉ map User.email (users s))
       /\ User.role r = "student"
       /\ Some (User.password r) = (bcrypt_hash c <$> RegisterBody.password body).
Proof.
  unfold register, attempt.
  destruct (truthy (RegisterBody.email body)) eqn:He; [|now left].
  destruct (truthy (RegisterBody.password body)) eqn:Hp; [|now left].
  destruct (truthy (RegisterBody.fullName body)) eqn:Hn; [|now left].
  cbn [negb orb].
  destruct (throws FindUser); [now left|].
  destruct (find_user _ (users s)) eqn:Hf; [now left|].
  destruct (throws HashPassword); [now left|].
  destruct (throws InsertUser); [now left|].
  apply truthy_inv in He as (e & Ee & _). apply truthy_inv in Hp as (p & Ep & _).
  rewrite Ee, Ep in *. cbn [default] in *.
  right. eexists.
  split; [destruct (throws SignToken); reflexivity|].
  cbn. repeat split; try reflexivity.
  now apply find_user_None.
Qed.

Lemma login_users c body env throws s :
  map identity (users (snd (login c body env throws s))) = map identity (users s).
Proof.
  unfold login, attempt.
  destruct (negb _ || negb _); [reflexivity|].
  destruct (throws FindUser); [reflexivity|].
  destruct (find_user _ _); [|reflexivity].
  destruct (throws ComparePassword); [reflexivity|].
  destruct (bcrypt_compare _ _ _); [|reflexivity].
  destruct (throws TouchLastLogin); [reflexivity|].
  destruct (throws SignToken); cbn [snd users console_error];
    apply touch_last_login_identity.
Qed.

(** X20. Registration and login keep the constraints of the [users]
    table: the keys stay distinct and so do the emails, whatever the
    request and whichever statement fails. *)
Theorem accounts_stay_consistent c env throws s
    (registration : RegisterBody.t) (credentials : LoginBody.t) :
  accounts_ok s ->
  accounts_ok (snd (register c registration env throws s))
  /\ accounts_ok (snd (login c credentials env throws s)).
Proof.
  intros [Hid Hem]. split.
  - destruct (register_users c registration env throws s) as [E | (r & E & Hi & _ & Hne & _)];
      unfold accounts_ok; rewrite E; [now split|].
    rewrite !map_app. cbn [map]. split.
    + apply NoDup_app. split; [exact Hid|]. split; [|apply NoDup_singleton].
      intros x Hx Hx'. apply list_elem_of_singleton in Hx'. subst x.
      rewrite Hi in Hx. exact (next_id_fresh _ Hx).
    + apply NoDup_app. split; [exact Hem|]. split; [|apply NoDup_singleton].
      intros x Hx Hx'. apply list_elem_of_singleton in Hx'. subst x. contradiction.
  - pose proof (login_users c credentials env throws s) as E.
    unfold accounts_ok.
    rewrite (identity_ids _ _ E), (identity_emails _ _ E). now split.
Qed.

Lemma accounts_stay_consistent_witness :
  accounts_ok (snd (register (sample_crypto []) ada march_6_2024 never no_accounts)).
Proof.
  apply (accounts_stay_consistent (sample_crypto []) march_6_2024 never no_accounts ada
           {| LoginBody.email := None; LoginBody.password := None |}).
  split; constructor.
Defined.

(** X21. Neither handler gives anybody the role "admin" or changes an
    account's key, email, role or password: a login leaves them all as
    they are, and a registration at most adds one account, of role
    "student", under an email no account had. *)
Theorem accounts_only_gain_students c env throws s
    (registration : RegisterBody.t) (credentials : LoginBody.t) :
  map identity (users (snd (login c credentials env throws s))) = map identity (users s)
  /\ (map identity (users (snd (register c registration env throws s)))
      = map identity (users s)
      \/ exists key email password,
           map identity (users (snd (register c registration env throws s)))
           = (map identity (users s) ++ [(key, email, "student", password)])%list
           /\ (email ∉ map User.email (users s))).
Proof.
  split; [apply login_users|].
  destruct (register_users c registration env throws s) as [E | (r & E & _ & _ & Hne & Hr & _)];
    rewrite E; [now left|].
  right. exists (User.id r), (User.email r), (User.password r).
  split; [|exact Hne].
  rewrite map_app. cbn [map]. f_equal. unfold identity. now rewrite Hr.
Qed.

(** What a granted registration signed and stored. *)
Lemma register_granted c body env throws s :
  granted (fst (register c body env throws s)) = true ->
  exists email password fullName r,
    RegisterBody.email body = Some email
    /\ RegisterBody.password body = Some password
    /\ RegisterBody.fullName body = Some fullName
    /\ find_user email (users s) = None
    /\ users (snd (register c body env throws s)) = (users s ++ [r])%list
    /\ User.id r = next_id (map User.id (users s))
    /\ User.email r = email
    /\ User.password r = bcrypt_hash c password
    /\ User.full_name r = fullName
    /\ User.role r = "student"
    /\ token_of (fst (register c body env throws s))
       = jwt_sign c {| Payload.id := User.id r; Payload.email := email;
                       Payload.role := "student"; Payload.fullName := fullName |}
    /\ user_of (fst (register c body env throws s))
       = [("id", PNum (of_Z (User.id r))); ("email", PStr email);
          ("fullName", PStr fullName); ("role", PStr "student")].
Proof.
  unfold register, attempt.
  destruct (truthy (RegisterBody.email body)) eqn:He; [|discriminate].
  destruct (truthy (RegisterBody.password body)) eqn:Hp; [|discriminate].
  destruct (truthy (RegisterBody.fullName body)) eqn:Hn; [|discriminate].
  cbn [negb orb].
  destruct (throws FindUser); [discriminate|].
  destruct (find_user _ (users s)) eqn:Hf; [discriminate|].
  destruct (throws HashPassword); [discriminate|].
  destruct (throws InsertUser); [discriminate|].
  destruct (throws SignToken); [discriminate|].
  apply truthy_inv in He as (e & Ee & _). apply truthy_inv in Hp as (p & Ep & _).
  apply truthy_inv in Hn as (n & En & _).
  rewrite Ee, Ep, En in *. cbn [default] in *. intros _.
  exists e, p, n. eexists. cbn [fst snd users token_of user_of].
  repeat split; try reflexivity. exact Hf.
Qed.

(** X22. Register, then log in.  After a granted registration, a login
    with the same email and password is granted when [bcrypt.compare]
    accepts the password against the hash [bcrypt.hash] gave and no
    statement fails; it names the same account, with the role "student",
    and sets the account's [last_login]. *)
Theorem register_then_login c (body : RegisterBody.t) env env' throws s :
  granted (fst (register c body env throws s)) = true ->
  (forall password, bcrypt_compare c password (bcrypt_hash c password) = true) ->
  let registered := register c body env throws s in
  let answer := login c {| LoginBody.email := RegisterBody.email body;
                           LoginBody.password := RegisterBody.password body |}
                  env' never (snd registered) in
  granted (fst answer) = true
  /\ get "id" (user_of (fst answer)) = get "id" (user_of (fst registered))
  /\ get "email" (user_of (fst answer)) = get "email" (user_of (fst registered))
  /\ get "role" (user_of (fst answer)) = PStr "student"
  /\ exists r, last (users (snd answer)) = Some r
               /\ Some (User.email r) = RegisterBody.email body
               /\ User.last_login r = Some (CURRENT_TIMESTAMP env').
Proof.
  intros Hg Hb registered answer.
  destruct (register_granted c body env throws s Hg)
    as (e & p & n & r & Ee & Ep & En & Hf & Eu & Hi & Hre & Hrp & Hrn & Hrr & _ & Euser).
  subst registered answer. rewrite Euser.
  unfold login, attempt, never. cbn [LoginBody.email LoginBody.password].
  rewrite Ee, Ep.
  change (default "" (Some e)) with e. change (default "" (Some p)) with p.
  assert (He : truthy (Some e) = true).
  { destruct (truthy (RegisterBody.email body)) eqn:H; [now rewrite Ee in H|].
    unfold register in Hg. rewrite H in Hg. discriminate. }
  assert (Hp : truthy (Some p) = true).
  { destruct (truthy (RegisterBody.password body)) eqn:H; [now rewrite Ep in H|].
    unfold register in Hg. rewrite H in Hg.
    destruct (truthy (RegisterBody.email body)); discriminate. }
  rewrite He, Hp. cbn [negb orb].
  rewrite Eu. unfold find_user in *. rewrite find_snoc, Hf.
  rewrite Hre, String.eqb_refl, Hrp, Hb.
  cbn [fst snd user_of users granted get String.eqb Ascii.eqb Bool.eqb].
  rewrite Hi, Hrr.
  split; [reflexivity|]. split; [now rewrite <- Hi|]. split; [now rewrite Hre|].
  split; [reflexivity|].
  unfold touch_last_login. rewrite map_app. cbn [map]. rewrite last_snoc.
  eexists. split; [reflexivity|]. rewrite Hi, Z.eqb_refl. cbn. now rewrite Hre.
Qed.

Lemma register_then_login_witness :
  granted (fst (login (sample_crypto []) {| LoginBody.email := RegisterBody.email ada;
                                            LoginBody.password := RegisterBody.password ada |}
                  may_15_2024 never
                  (snd (register (sample_crypto []) ada march_6_2024 never no_accounts))))
  = true.
Proof.
  apply (register_then_login (sample_crypto []) ada march_6_2024 may_15_2024 never no_accounts).
  - reflexivity.
  - intros password. apply String.eqb_refl.
Defined.

(** X23. What a registered student may do.  The token of a granted
    registration is signed from a payload of role "student"; presented as
    a Bearer token that verifies to that payload, it passes the analyze
    route to its handler, and the analytics route refuses it with 403,
    leaving the database and the console as they were. *)
Theorem registered_student_rights c (body : RegisterBody.t) env throws s :
  granted (fst (register c body env throws s)) = true ->
  let token := token_of (fst (register c body env throws s)) in
  word token = true -> token <> "" ->
  jwt_verify c token = Some (registration_payload body s) ->
  token = jwt_sign c (registration_payload body s)
  /\ Payload.role (registration_payload body s) = "student"
  /\ forall h submission ai f query failing env' (w : World),
       analyze_route c (bearer token) h submission ai env' f w
       = analyze h submission ai env' f w
       /\ analytics_route c (bearer token) query env' failing w
          = (deny 403 "Access denied. Admin privileges required.", w).
Proof.
  intros Hg token Hw Hne Hv.
  destruct (register_granted c body env throws s Hg)
    as (e & p & n & r & Ee & _ & En & _ & _ & Hi & _ & _ & _ & _ & Et & _).
  split; [|split; [reflexivity|]].
  { subst token. rewrite Et, Hi. unfold registration_payload. now rewrite Ee, En. }
  intros h submission ai f query failing env' w.
  assert (Hp : presented_token (bearer token) = Some token).
  { apply (second_word "Bearer" token None); [reflexivity | exact Hw | exact Hne]. }
  unfold analyze_route, analytics_route, authenticateToken, requireAdmin.
  rewrite Hp, (truthy_Some token Hne). cbn [negb].
  change (default "" (Some token)) with token. rewrite Hv.
  split; reflexivity.
Qed.

Lemma registered_student_rights_witness :
  analytics_route (sample_crypto [ada_payload]) (bearer "ada@example.edu") no_filter
    march_6_2024 no_throw (quiet empty_store)
  = (deny 403 "Access denied. Admin privileges required.", quiet empty_store).
Proof.
  apply (registered_student_rights (sample_crypto [ada_payload]) ada march_6_2024 never
           no_accounts eq_refl eq_refl);
    [discriminate | reflexivity | exact sample_helpers | exact sample_request
    | exact (AiThrows [] "" "") | exact no_faults].
Defined.

End Authentication.


(* ===================================================================== *)
(** * The other endpoints                                                 *)
(* ===================================================================== *)

Section Endpoints.

Implicit Types (d : Store) (w : World).

#[local] Existing Instance by_timestamp_desc_trans.
#[local] Existing Instance by_timestamp_desc_total.

(** ** Export *)

(** X24. The export lists every record matching its filters, which are
    those of the analytics, once each and latest timestamp first; [total]
    is their number, and the CSV text is made of the same rows.  Nothing
    is written to the console. *)
Theorem export_lists_every_matching_record (toString : number -> string)
    (query : ExportQuery.t) w :
  exists rows,
    rows ≡ₚ matching (export_filter query) (db w)
    /\ StronglySorted by_timestamp_desc rows
    /\ export toString query None w
       = (if String.eqb (default "" (ExportQuery.format query)) "csv"
          then SendCsv (convertToCSV toString (map export_row rows))
          else SendData (map export_row rows)
                 (length (matching (export_filter query) (db w))),
          w).
Proof.
  exists (order_by by_timestamp_desc (matching (export_filter query) (db w))).
  split; [apply order_by_Permutation|].
  split; [apply (StronglySorted_order_by by_timestamp_desc); apply _|].
  unfold export. fold (matching (export_filter query) (db w)).
  destruct (String.eqb _ "csv"); [reflexivity|].
  now rewrite length_map, (Permutation_length (order_by_Permutation _ _)).
Qed.

Lemma append_assoc (a b c : string) : (a ++ b) ++ c = a ++ (b ++ c).
Proof.
  induction a as [|ch a IH]; [reflexivity|].
  change (String ch ((a ++ b) ++ c) = String ch (a ++ (b ++ c))). now f_equal.
Qed.

Lemma append_cancel_l (h x y : string) : h ++ x = h ++ y -> x = y.
Proof.
  induction h as [|ch h IH]; [trivial|].
  change (String ch (h ++ x) = String ch (h ++ y) -> x = y).
  intros H. injection H as H. now apply IH.
Qed.

Lemma append_empty_r (a : string) : a ++ "" = a.
Proof.
  induction a as [|ch a IH]; [reflexivity|].
  change (String ch (a ++ "") = String ch a). now f_equal.
Qed.

Lemma double_quotes_delimited (a b u u' : string) :
  unquoted u -> unquoted u' ->
  double_quotes a ++ String quote u = double_quotes b ++ String quote u' ->
  a = b /\ u = u'.
Proof.
  intros Hu Hu'. revert b. induction a as [|ch a IH]; intros [|ch' b]; cbn [double_quotes].
  - cbn. intros H. injection H as ->. now split.
  - destruct (Ascii.eqb_spec ch' quote) as [-> | Hne]; cbn; intros H.
    + injection H as ->. cbn in Hu. contradiction.
    + injection H as E _. now symmetry in E.
  - destruct (Ascii.eqb_spec ch quote) as [-> | Hne]; cbn; intros H.
    + injection H as <-. cbn in Hu'. contradiction.
    + injection H as E _. contradiction.
  - destruct (Ascii.eqb_spec ch quote) as [-> | Hne],
             (Ascii.eqb_spec ch' quote) as [-> | Hne']; cbn; intros H.
    + injection H as H. destruct (IH b H) as [-> ->]. now split.
    + injection H as E _. now symmetry in E.
    + injection H as E _. contradiction.
    + injection H as -> H. destruct (IH b H) as [-> ->]. now split.
Qed.

(** A text cell is self-delimiting. *)
Lemma text_cell_delimited (toString : number -> string) (a b t t' : string) :
  unquoted t -> unquoted t' ->
  csv_value toString (PStr a) ++ t = csv_value toString (PStr b) ++ t' ->
  a = b /\ t = t'.
Proof.
  intros Ht Ht' H. cbn [csv_value] in H.
  change (String quote (double_quotes a ++ String quote "") ++ t)
    with (String quote ((double_quotes a ++ String quote "") ++ t)) in H.
  change (String quote (double_quotes b ++ String quote "") ++ t')
    with (String quote ((double_quotes b ++ String quote "") ++ t')) in H.
  injection H as H. rewrite !append_assoc in H.
  exact (double_quotes_delimited a b t t' Ht Ht' H).
Qed.

(** A cell without a comma ends at the first comma. *)
Lemma plain_cell_delimited (a b u u' : string) :
  plain a = true -> plain b = true ->
  a ++ String "," u = b ++ String "," u' -> a = b /\ u = u'.
Proof.
  revert b. induction a as [|ch a IH]; intros [|ch' b] Ha Hb.
  - cbn. intros H. injection H as ->. now split.
  - cbn in Hb. apply andb_true_iff in Hb as [Hc _]. apply negb_true_iff in Hc.
    cbn. intros H. injection H as E _. subst ch'. discriminate Hc.
  - cbn in Ha. apply andb_true_iff in Ha as [Hc _]. apply negb_true_iff in Hc.
    cbn. intros H. injection H as E _. subst ch. discriminate Hc.
  - cbn in Ha, Hb. apply andb_true_iff in Ha as [_ Ha]. apply andb_true_iff in Hb as [_ Hb].
    change (String ch (a ++ String "," u) = String ch' (b ++ String "," u') ->
            String ch a = String ch' b /\ u = u').
    intros H. injection H as -> H. destruct (IH b Ha Hb H) as [-> ->]. now split.
Qed.

Lemma plain_cell_comma (a b u u' : string) :
  plain a = true -> plain b = true ->
  a ++ "," ++ u = b ++ "," ++ u' -> a = b /\ u = u'.
Proof. apply plain_cell_delimited. Qed.

Lemma unquoted_comma (x : string) : unquoted ("," ++ x).
Proof. change (unquoted (String "," x)). cbn. discriminate. Qed.

(** The cell of the score is a text cell or the text of a number, and the
    two cannot be taken for one another. *)
Lemma score_cell_delimited (toString : number -> string) (v v' : Score) (u u' : string) :
  (forall n, plain (toString n) = true) ->
  (forall n, unquoted (toString n)) ->
  csv_value toString (score_value v) ++ "," ++ u
  = csv_value toString (score_value v') ++ "," ++ u' ->
  csv_value toString (score_value v) = csv_value toString (score_value v') /\ u = u'.
Proof.
  intros Hplain Hun H.
  destruct v as [q | s n q], v' as [q' | s' n' q']; cbn [score_value] in *.
  - cbn [csv_value] in *. now apply plain_cell_comma in H as [-> ->].
  - exfalso. cbn [csv_value] in H. specialize (Hun (Fin q)).
    destruct (toString (Fin q)) as [|ch x]; [discriminate H|].
    injection H as -> _. now apply Hun.
  - exfalso. cbn [csv_value] in H. specialize (Hun (Fin q')).
    destruct (toString (Fin q')) as [|ch x]; [discriminate H|].
    injection H as <- _. now apply Hun.
  - apply text_cell_delimited in H as [-> H]; [|apply unquoted_comma..].
    apply append_cancel_l in H. now subst.
Qed.

Lemma csv_line_delimited (toString : number -> string) (r r' : SkillGapRecord.row)
    (t t' : string) :
  (forall n, plain (toString n) = true) ->
  (forall n, unquoted (toString n)) ->
  unquoted t -> unquoted t' ->
  String.concat "," (export_texts toString r) ++ t
  = String.concat "," (export_texts toString r') ++ t' ->
  export_texts toString r = export_texts toString r' /\ t = t'.
Proof.
  intros Hplain Hun Ht Ht'. unfold export_texts, export_row.
  cbn [map snd String.concat]. rewrite !append_assoc.
  intros H.
  repeat match type of H with
    | csv_value _ (PStr _) ++ "," ++ _ = csv_value _ (PStr _) ++ "," ++ _ =>
        apply text_cell_delimited in H as [? H]; [|apply unquoted_comma..];
        apply append_cancel_l in H
    | csv_value _ (score_value _) ++ "," ++ _ = csv_value _ (score_value _) ++ "," ++ _ =>
        apply score_cell_delimited in H as [? H]; [|assumption..]
    end.
  apply text_cell_delimited in H as [? H]; [|assumption..].
  subst. split; [|reflexivity].
  repeat match goal with E : _ = _ |- _ => rewrite E; clear E end.
  reflexivity.
Qed.

Lemma csv_lines_delimited (toString : number -> string) (rows rows' : list SkillGapRecord.row) :
  (forall n, plain (toString n) = true) ->
  (forall n, unquoted (toString n)) ->
  rows <> [] -> rows' <> [] ->
  String.concat (String LF "") (map (fun r => String.concat "," (export_texts toString r)) rows)
  = String.concat (String LF "") (map (fun r => String.concat "," (export_texts toString r)) rows') ->
  map (export_texts toString) rows = map (export_texts toString) rows'.
Proof.
  intros Hplain Hun. revert rows'.
  induction rows as [|r rows IH]; intros rows' Hne Hne' H; [contradiction|].
  destruct rows' as [|r' rows']; [contradiction|].
  destruct rows as [|r2 rows], rows' as [|r2' rows']; cbn [map String.concat] in H |- *.
  - rewrite <- (append_empty_r (String.concat "," (export_texts toString r))) in H.
    rewrite <- (append_empty_r (String.concat "," (export_texts toString r'))) in H.
    apply csv_line_delimited in H as [-> _];
      [reflexivity | exact Hplain | exact Hun | exact I | exact I].
  - rewrite <- (append_empty_r (String.concat "," (export_texts toString r))) in H.
    apply csv_line_delimited in H as [_ H]; [discriminate H | exact Hplain | exact Hun | exact I|].
    cbn. discriminate.
  - rewrite <- (append_empty_r (String.concat "," (export_texts toString r'))) in H.
    apply csv_line_delimited in H as [_ H]; [discriminate H | exact Hplain | exact Hun | | exact I].
    cbn. discriminate.
  - apply csv_line_delimited in H as [-> H];
      [|exact Hplain | exact Hun | cbn; discriminate..].
    change (String LF "" ++ ?x = String LF "" ++ ?y) with (String LF x = String LF y) in H.
    injection H as H. f_equal.
    apply (IH (r2' :: rows')); [discriminate | discriminate | exact H].
Qed.

Lemma convertToCSV_export (toString : number -> string) (r : SkillGapRecord.row)
    (rows : list SkillGapRecord.row) :
  convertToCSV toString (map export_row (r :: rows))
  = String.concat "," (map fst (export_row r)) ++ String LF "" ++
    String.concat (String LF "")
      (map (fun r1 => String.concat "," (export_texts toString r1)) (r :: rows)).
Proof.
  unfold convertToCSV. cbn [map]. rewrite (map_map export_row).
  reflexivity.
Qed.

(** X25. The CSV export loses nothing.  Two lists of records with the
    same CSV text have the same cells, row by row: every text cell ends
    at its closing quote whatever quotes, commas and line feeds the
    value holds, and the text of a number ends at the next comma, numbers
    printing without a comma and not beginning with a quote.  In
    particular the two lists have the same length, and only the empty
    list gives the empty text. *)
Theorem csv_export_is_lossless (toString : number -> string)
    (rows rows' : list SkillGapRecord.row) :
  (forall n, plain (toString n) = true) ->
  (forall n, unquoted (toString n)) ->
  convertToCSV toString (map export_row rows) = convertToCSV toString (map export_row rows') ->
  map (export_texts toString) rows = map (export_texts toString) rows'.
Proof.
  intros Hplain Hun H.
  destruct rows as [|r rows], rows' as [|r' rows']; [reflexivity | discriminate H..|].
  rewrite !convertToCSV_export in H.
  change (map fst (export_row r')) with (map fst (export_row r)) in H.
  apply append_cancel_l, append_cancel_l in H.
  apply (csv_lines_delimited toString (r :: rows) (r' :: rows') Hplain Hun); [discriminate..|].
  exact H.
Qed.

(** Three records with quotes, commas and line feeds in their texts,
    recorded under two different sets of keys: the two exports are the
    same text, and the cells are the same although the records differ. *)
Lemma csv_export_is_lossless_witness :
  awkward_records 1 <> awkward_records 7
  /\ map (export_texts sample_toString) (awkward_records 1)
     = map (export_texts sample_toString) (awkward_records 7)
  /\ export_texts sample_toString <$> head (awkward_records 1)
     = Some [String quote ("Ada " ++ String quote (String quote ("the first"
               ++ String quote (String quote (", of" ++ String LF ("London" ++ String quote ""))))));
             String quote ("CS, EE" ++ String quote "");
             String quote ("3" ++ String quote "");
             String quote ("Ada " ++ String quote (String quote ("the first"
               ++ String quote (String quote (", of" ++ String LF ("London" ++ String quote ""))))));
             String quote (String quote (String quote (String quote "")));
             "80";
             csv_value sample_toString
               (PStr (JSON_stringify_strings [awkward_text; "Go"]));
             String quote ("[]" ++ String quote "");
             String quote ("2024-03-06 09:00:00" ++ String quote "")].
Proof.
  split; [discriminate|]. split; [|reflexivity].
  apply (csv_export_is_lossless sample_toString (awkward_records 1) (awkward_records 7)).
  - intros n. unfold sample_toString. now destruct (js_ge n (of_Z 50)).
  - intros n. unfold sample_toString. destruct (js_ge n (of_Z 50)); discriminate.
  - reflexivity.
Defined.

(** ** The filter options *)

Lemma group_counts_spec (key : SkillGapRecord.row -> string) (excluded : string)
    (rows : list SkillGapRecord.row) :
  let groups := group_counts key excluded rows in
  NoDup (map fst groups)
  /\ (forall g, g ∈ groups ->
        fst g <> excluded
        /\ snd g = length (filter (fun r => key r = fst g) rows)
        /\ (1 <= snd g)%nat)
  /\ (forall r, r ∈ rows -> key r <> excluded -> key r ∈ map fst groups).
Proof.
  unfold group_counts.
  set (kept := filter (fun r => key r <> excluded) rows).
  assert (NM : NoDup (reverse (group_keys (map key kept)))
               /\ forall x, x ∈ reverse (group_keys (map key kept)) <-> x ∈ map key kept).
  { destruct (group_keys_spec (map key kept)) as (N & M & _).
    split; [now rewrite reverse_Permutation|]. intros x. now rewrite elem_of_reverse. }
  destruct NM as [N M].
  assert (Hkept : forall k, k <> excluded ->
            filter (fun r => key r = k) kept = filter (fun r => key r = k) rows).
  { intros k Hk. unfold kept. clear -Hk. induction rows as [|r rows IH]; [reflexivity|].
    rewrite !filter_cons. destruct (decide (key r <> excluded)) as [Hr | Hr].
    - rewrite filter_cons. destruct (decide (key r = k)); now rewrite IH.
    - destruct (decide (key r = k)) as [E | E]; [|exact IH].
      exfalso. apply Hr. now rewrite E. }
  split; [|split].
  - rewrite map_map. cbn [fst]. now rewrite map_id.
  - intros g Hg. apply list_elem_of_In, in_map_iff in Hg as (k & <- & Hk).
    cbn [fst snd]. apply list_elem_of_In, M in Hk.
    apply list_elem_of_In, in_map_iff in Hk as (r & Er & Hr).
    apply list_elem_of_In in Hr. unfold kept in Hr.
    apply list_elem_of_filter in Hr as [Hne Hr]. rewrite Er in Hne.
    split; [exact Hne|]. rewrite (Hkept k Hne). split; [reflexivity|].
    assert (Hin : r ∈ filter (fun r => key r = k) rows)
      by (apply list_elem_of_filter; now split).
    revert Hin. generalize (filter (fun r => key r = k) rows).
    intros [|x l] Hin; [now apply elem_of_nil in Hin | cbn; lia].
  - intros r Hr Hne. rewrite map_map. cbn [fst]. rewrite map_id. apply M.
    apply list_elem_of_In, in_map, list_elem_of_In. unfold kept.
    apply list_elem_of_filter. now split.
Qed.

#[local] Instance by_number_desc_trans : Transitive by_number_desc.
Proof. intros a b c. unfold by_number_desc. lia. Qed.

#[local] Instance by_number_desc_total : Total by_number_desc.
Proof. intros a b. unfold by_number_desc. lia. Qed.

#[local] Instance by_name_desc_trans : Transitive by_name_desc.
Proof. intros a b c H1 H2. unfold by_name_desc in *. eapply leb_trans; eassumption. Qed.

#[local] Instance by_name_desc_total : Total by_name_desc.
Proof.
  intros a b. unfold by_name_desc.
  destruct (String.leb_total (fst b) (fst a)); tauto.
Qed.

Lemma listed_counts (kname k : string) (groups : list (string * nat)) (st : Z) :
  kname <> "count" ->
  listed kname k
    {| status := st; body := SendJson (JObj [(k, JArr (map (count_json kname) groups))]) |}
  = map (fun g => (fst g, Z.of_nat (snd g))) groups.
Proof.
  intros Hk. unfold listed, sent, elements, field. cbn [body lookup_field].
  rewrite String.eqb_refl, map_map. apply map_ext. intros g.
  unfold count_json, str_field, int_field, field. cbn [lookup_field].
  rewrite String.eqb_refl. apply String.eqb_neq in Hk.
  rewrite String.eqb_sym, Hk. cbn [String.eqb Ascii.eqb Bool.eqb].
  unfold Jnat, of_nat, of_Z. now rewrite Qfloor_Z.
Qed.

Lemma sorted_groups (R : relation (string * nat)) `{!forall x y, Decision (R x y)}
    (key : SkillGapRecord.row -> string) (excluded : string) (rows : list SkillGapRecord.row) :
  Transitive R -> Total R ->
  let groups := order_by R (group_counts key excluded rows) in
  StronglySorted R groups
  /\ NoDup (map fst groups)
  /\ (excluded ∉ map fst groups)
  /\ Forall (fun g => snd g = length (filter (fun r => key r = fst g) rows)
                      /\ (1 <= snd g)%nat) groups
  /\ (forall r, r ∈ rows -> key r <> excluded -> key r ∈ map fst groups).
Proof.
  intros HT Htot groups.
  destruct (group_counts_spec key excluded rows) as (N & G & C).
  pose proof (order_by_Permutation R (group_counts key excluded rows)) as HP.
  fold groups in HP.
  split; [now apply (StronglySorted_order_by R)|]. split; [|split; [|split]].
  4:{ intros r Hr Hne. rewrite HP. now apply C. }
  - eapply NoDup_Permutation_proper; [apply fmap_Permutation; exact HP | exact N].
  - intros Hin. apply list_elem_of_In, in_map_iff in Hin as (g & Eg & Hg).
    apply list_elem_of_In in Hg. rewrite HP in Hg. destruct (G g Hg) as [Hne _].
    now apply Hne.
  - apply Forall_forall. intros g Hg. rewrite HP in Hg.
    destruct (G g Hg) as (_ & E & L). now split.
Qed.

(** X26. The filter options.  [/api/departments] lists the departments
    of the records other than "Unknown": every one of them, each once,
    with the number of its records (at least 1), largest first;
    [/api/academic-years] does the same for the years other than "Not
    Specified", in descending order of the year's text.  The number
    beside a department is the number of records the analytics filter
    then selects for it. *)
Theorem filter_options d :
  let depts := listed "department" "departments" (departments None d) in
  let years := listed "academic_year" "years" (academic_years None d) in
  (NoDup (map fst depts) /\ ("Unknown" ∉ map fst depts)
   /\ (forall r, r ∈ skill_gaps d -> SkillGapRecord.department r <> "Unknown" ->
         SkillGapRecord.department r ∈ map fst depts)
   /\ StronglySorted (fun a b => snd b <= snd a) depts
   /\ Forall (fun g =>
        1 <= snd g
        /\ snd g = Z.of_nat (length (filter (fun r => SkillGapRecord.department r = fst g)
                                       (skill_gaps d)))
        /\ (fst g <> "" ->
            snd g = Z.of_nat (length (matching (only_department (fst g)) d)))) depts)
  /\ (NoDup (map fst years) /\ ("Not Specified" ∉ map fst years)
      /\ (forall r, r ∈ skill_gaps d -> SkillGapRecord.academic_year r <> "Not Specified" ->
            SkillGapRecord.academic_year r ∈ map fst years)
      /\ StronglySorted (fun a b => String.leb (fst b) (fst a) = true) years
      /\ Forall (fun g =>
           1 <= snd g
           /\ snd g = Z.of_nat (length (filter (fun r => SkillGapRecord.academic_year r = fst g)
                                          (skill_gaps d)))) years).
Proof.
  intros depts years. subst depts years. unfold departments, academic_years.
  rewrite !listed_counts by discriminate.
  destruct (sorted_groups by_number_desc SkillGapRecord.department "Unknown" (skill_gaps d) _ _)
    as (S1 & N1 & U1 & F1 & C1).
  destruct (sorted_groups by_name_desc SkillGapRecord.academic_year "Not Specified"
              (skill_gaps d) _ _) as (S2 & N2 & U2 & F2 & C2).
  set (g1 := order_by by_number_desc _) in *. set (g2 := order_by by_name_desc _) in *.
  assert (Hfst : forall l : list (string * nat),
            map fst (map (fun g => (fst g, Z.of_nat (snd g))) l) = map fst l).
  { intros l. rewrite map_map. reflexivity. }
  rewrite !Hfst.
  split; (split; [assumption|]; split; [assumption|]; split; [assumption|]; split).
  - apply (StronglySorted_fmap (fun g : string * nat => (fst g, Z.of_nat (snd g))) by_number_desc);
      [|exact S1].
    intros x y Hxy. unfold by_number_desc in Hxy. cbn [snd]. lia.
  - apply Forall_map. eapply Forall_impl; [exact F1|]. cbn beta.
    intros g [E L]. cbn [fst snd]. split; [lia|]. split; [now rewrite E|].
    intros Hne. rewrite E. f_equal. unfold matching.
    clear -Hne. induction (skill_gaps d) as [|r l IH]; [reflexivity|].
    rewrite filter_cons. cbn [List.filter].
    assert (Hw : whereClause (only_department (fst g)) r
                 = String.eqb (SkillGapRecord.department r) (fst g)).
    { unfold whereClause, only_department. cbn [Query.department Query.academicYear truthy].
      apply String.eqb_neq in Hne. rewrite Hne. cbn [negb default]. apply andb_true_r. }
    rewrite Hw. destruct (decide (SkillGapRecord.department r = fst g)) as [E | E].
    + rewrite E, String.eqb_refl. cbn [length]. now rewrite IH.
    + apply String.eqb_neq in E. rewrite E. exact IH.
  - apply (StronglySorted_fmap (fun g : string * nat => (fst g, Z.of_nat (snd g))) by_name_desc);
      [|exact S2].
    intros x y Hxy. exact Hxy.
  - apply Forall_map. eapply Forall_impl; [exact F2|]. cbn beta.
    intros g [E L]. cbn [fst snd]. split; [lia | now rewrite E].
Qed.

End Endpoints.

(* ===================================================================== *)
(** * The pages                                                           *)
(* ===================================================================== *)

Section Pages.
Local Open Scope Q_scope.

(** X27. The student page and the dashboard use the same bands: the
    page says "You have most of the required skills" for exactly the
    scores the match distribution counts as high (80 and more), and its
    three other descriptions go with the bands medium (60 to 80), low
    (40 to 60) and veryLow (below 40). *)
Theorem score_bands_agree (p : Q) :
  (is_high (Fin p) = true <->
   snd (updateScoreDescription (Fin p)) = "You have most of the required skills for this role")
  /\ (is_medium (Fin p) = true <->
      snd (updateScoreDescription (Fin p))
      = "You meet many requirements, focus on improving key skills")
  /\ (is_low (Fin p) = true <->
      snd (updateScoreDescription (Fin p))
      = "You need to develop several skills to be job-ready")
  /\ (is_veryLow (Fin p) = true <->
      snd (updateScoreDescription (Fin p))
      = "Focus on building fundamental skills for this role").
Proof.
  unfold updateScoreDescription, is_high, is_medium, is_low, is_veryLow,
    js_ge, js_lt, of_Z, Qlt_bool.
  change (inject_Z 80) with 80. change (inject_Z 60) with 60. change (inject_Z 40) with 40.
  destruct (Qle_bool_reflect 80 p), (Qle_bool_reflect 60 p), (Qle_bool_reflect 40 p);
    cbn [snd negb andb]; repeat split; intros; try discriminate; try reflexivity;
    exfalso; lra.
Qed.

Lemma Math_round_ge (p : Q) (n : Z) :
  Qle_bool (inject_Z n) (inject_Z (Qfloor (p + (1 # 2)))) = true
  <-> inject_Z n - (1 # 2) <= p.
Proof.
  rewrite Qle_bool_iff, <- Zle_Qle. split; intros H.
  - assert (H' : inject_Z n <= p + (1 # 2)).
    { eapply Qle_trans; [|apply Qfloor_le]. now rewrite <- Zle_Qle. }
    lra.
  - rewrite <- (Qfloor_Z n). apply Qfloor_resp_le. lra.
Qed.

(** X28. The dashboard classes an activity by its rounded score: for a
    record whose score is the number [p], the class is "high" from 79.5
    on, "medium" from 59.5 on and "low" below, while the match
    distribution of the same snapshot puts the bounds of its bands at 80
    and 60 on the score as stored. *)
Theorem activity_class_rounds_first (r : SkillGapRecord.row) (p : Q) :
  score_number (SkillGapRecord.match_percentage r) = Fin p ->
  let class := scoreClass (matchScore_of (activity_json r)) in
  (class = "high" <-> (159 # 2) <= p)
  /\ (class = "medium" <-> (119 # 2) <= p /\ p < (159 # 2))
  /\ (class = "low" <-> p < (119 # 2)).
Proof.
  intros Hp class. subst class. unfold matchScore_of, activity_json, field.
  cbn [lookup_field String.eqb Ascii.eqb Bool.eqb].
  unfold JN. rewrite Hp. unfold Math_round, scoreClass, js_ge, of_Z.
  pose proof (Math_round_ge p 80) as H80. pose proof (Math_round_ge p 60) as H60.
  change (inject_Z 80 - (1 # 2)) with (80 - (1 # 2)) in H80.
  change (inject_Z 60 - (1 # 2)) with (60 - (1 # 2)) in H60.
  destruct (Qle_bool (inject_Z 80) _), (Qle_bool (inject_Z 60) _);
    repeat split; intros; try discriminate; try reflexivity;
    repeat match goal with
      | H : true = true <-> _ |- _ => destruct H as [H _]; specialize (H eq_refl)
      | H : false = true <-> _ |- _ =>
          destruct H as [_ H];
          let N := fresh in
          assert (N : ~ _) by (intros N; specialize (H N); discriminate H); clear H
      end; try lra; exfalso; lra.
Qed.

(** A record at 79.6: the dashboard shows it as high, the distribution
    counts it as medium. *)
Lemma activity_class_rounds_first_witness :
  let r := {| SkillGapRecord.id := 1;
              SkillGapRecord.user_id := None;
              SkillGapRecord.student_id := "STU_ADA_1";
              SkillGapRecord.student_name := "Ada";
              SkillGapRecord.department := "CS";
              SkillGapRecord.academic_year := "3";
              SkillGapRecord.job_role := "Software Engineer";
              SkillGapRecord.company_name := "Acme";
              SkillGapRecord.match_percentage := Real (398 # 5);
              SkillGapRecord.missing_skills := [];
              SkillGapRecord.matched_skills := [];
              SkillGapRecord.skill_priority := no_priority;
              SkillGapRecord.recommendations := [];
              SkillGapRecord.timestamp := "2024-03-06 09:00:00" |} in
  scoreClass (matchScore_of (activity_json r)) = "high"
  /\ is_medium (score_number (SkillGapRecord.match_percentage r)) = true.
Proof.
  cbv zeta. split; [|reflexivity].
  match goal with
  | |- scoreClass (matchScore_of (activity_json ?r)) = _ =>
      destruct (activity_class_rounds_first r (398 # 5) eq_refl) as ((_ & H) & _)
  end.
  apply H. unfold Qle. cbn. lia.
Defined.

End Pages.


(* ===================================================================== *)
(** * Averages and quotients in double precision                          *)
(* ===================================================================== *)

Section Quotients.
Local Open Scope Q_scope.

Lemma round_pos_Z n : (0 < n < 2 ^ 53)%Z -> round_pos (inject_Z n) = inject_Z n.
Proof. intros H. now apply round_pos_int. Qed.

Lemma two_pow_53_lt : inject_Z (2 ^ 53) < 2 ^ 1024.
Proof.
  rewrite <- (two_pow_Z 1024) by lia. rewrite <- Zlt_Qlt.
  apply Z.pow_lt_mono_r; lia.
Qed.


Lemma Qfloor_unique (x : Q) (k : Z) : inject_Z k <= x -> x < inject_Z k + 1 -> Qfloor x = k.
Proof.
  intros L U. destruct (Qfloor_bounds x) as [L' U'].
  assert (H1 : (k <= Qfloor x)%Z).
  { rewrite <- (Qfloor_Z k). now apply Qfloor_resp_le. }
  assert (H2 : inject_Z (Qfloor x) < inject_Z (k + 1)).
  { rewrite inject_Z_plus. eapply Qle_lt_trans; eassumption. }
  rewrite <- Zlt_Qlt in H2. lia.
Qed.

(** ** The average readiness of a company *)



Lemma score_le_trans (a b c : Score) :
  score_le a b = true -> score_le b c = true -> score_le a c = true.
Proof.
  destruct a, b, c; cbn [score_le]; try discriminate; try reflexivity.
  - rewrite !Qle_bool_iff. apply Qle_trans.
  - apply leb_trans.
Qed.

Lemma score_le_total (a b : Score) : score_le a b = true \/ score_le b a = true.
Proof.
  destruct a as [x | s ? ?], b as [y | t ? ?]; cbn [score_le]; auto.
  - rewrite !Qle_bool_iff. destruct (Qlt_le_dec x y); [left; now apply Qlt_le_weak | now right].
  - destruct (String.leb_total s t); tauto.
Qed.

#[local] Instance by_match_desc_trans : Transitive by_match_desc.
Proof. intros a b c H1 H2. unfold by_match_desc in *. eapply score_le_trans; eassumption. Qed.

#[local] Instance by_match_desc_total : Total by_match_desc.
Proof.
  intros a b. unfold by_match_desc.
  destruct (score_le_total (SkillGapRecord.match_percentage b)
              (SkillGapRecord.match_percentage a)); tauto.
Qed.




(** ** Whole quotients *)

(** A multiple of a power of two with at most 53 significant bits is a
    double. *)
Lemma round_pos_dyadic (m j : Z) :
  (0 < m < 2 ^ 53)%Z -> (0 <= j <= 1074)%Z ->
  round_pos (inject_Z m / 2 ^ j) == inject_Z m / 2 ^ j.
Proof.
  intros Hm Hj. set (q := inject_Z m / 2 ^ j).
  assert (Hm0 : 0 < inject_Z m) by (change 0 with (inject_Z 0); rewrite <- Zlt_Qlt; lia).
  assert (Hpos : 0 < q).
  { unfold q. apply Qlt_shift_div_l; [apply two_pow_pos|]. now rewrite Qmult_0_l. }
  unfold round_pos. rewrite Qred_correct.
  set (e := Z.max (ilog2 q - 52) (-1074)).
  assert (He : (e <= - j)%Z).
  { destruct (ilog2_spec q Hpos) as [L _].
    assert (H : 2 ^ ilog2 q < 2 ^ (53 - j)).
    { eapply Qle_lt_trans; [exact L|]. unfold q.
      apply Qlt_shift_div_r; [apply two_pow_pos|]. rewrite <- two_pow_add.
      replace (53 - j + j)%Z with 53%Z by lia. rewrite <- (two_pow_Z 53) by lia.
      rewrite <- Zlt_Qlt. lia. }
    apply Qpower_lt_compat_l_inv in H; [unfold e; lia | reflexivity]. }
  assert (Hs : q / 2 ^ e == inject_Z (m * 2 ^ (- j - e))).
  { rewrite inject_Z_mult, two_pow_Z by lia. unfold q.
    replace (- j - e)%Z with (- j + - e)%Z by lia.
    rewrite two_pow_add, !Qpower_opp. field.
    split; apply Qnot_eq_sym, Qlt_not_eq, two_pow_pos. }
  assert (Hr : rne (q / 2 ^ e) = (m * 2 ^ (- j - e))%Z).
  { apply Z.le_antisymm; [apply rne_le_int | apply rne_ge_int]; rewrite Hs; apply Qle_refl. }
  rewrite Hr, inject_Z_mult, two_pow_Z by lia. unfold q.
  replace (- j - e)%Z with (- j + - e)%Z by lia.
  rewrite two_pow_add, !Qpower_opp. field.
  split; apply Qnot_eq_sym, Qlt_not_eq, two_pow_pos.
Qed.

(** [Math.floor(a / c)] is the whole quotient: the division is rounded,
    but never up to the next integer. *)
Lemma floor_div_exact (a c j : Z) :
  (0 <= a)%Z -> (0 < c)%Z -> (c <= 2 ^ j)%Z -> (0 <= j <= 1074)%Z ->
  ((a / c + 1) * 2 ^ j < 2 ^ 53)%Z ->
  Math_floor (js_div (of_Z a) (of_Z c)) = of_Z (a / c).
Proof.
  intros Ha Hc Hcj Hj Hb. unfold js_div, of_Z.
  assert (Hc0 : 0 < inject_Z c) by (change 0 with (inject_Z 0); rewrite <- Zlt_Qlt; lia).
  assert (Hne : Qeq_bool (inject_Z c) 0 = false).
  { apply not_true_is_false. intros H. apply Qeq_bool_iff in H. rewrite H in Hc0.
    now apply Qlt_irrefl in Hc0. }
  rewrite Hne. set (k := (a / c)%Z). set (q := inject_Z a / inject_Z c).
  assert (Hk : (0 <= k)%Z) by (apply Z.div_pos; lia).
  assert (Hp : (0 < 2 ^ j)%Z) by (apply Z.pow_pos_nonneg; lia).
  assert (Hk53 : (k + 1 < 2 ^ 53)%Z) by nia.
  assert (Hdiv : (c * k <= a < c * k + c)%Z).
  { unfold k. pose proof (Z.mul_div_le a c Hc). pose proof (Z.mul_succ_div_gt a c Hc). lia. }
  assert (Lq : inject_Z k <= q).
  { unfold q. apply Qle_shift_div_l; [exact Hc0|].
    rewrite <- inject_Z_mult, <- Zle_Qle. lia. }
  set (m := ((k + 1) * 2 ^ j - 1)%Z).
  assert (Uq : q <= inject_Z m / 2 ^ j).
  { assert (H1 : inject_Z a * inject_Z (2 ^ j) <= inject_Z m * inject_Z c).
    { rewrite <- !inject_Z_mult, <- Zle_Qle. unfold m.
      assert (a * 2 ^ j <= (c * k + c - 1) * 2 ^ j)%Z by (apply Z.mul_le_mono_nonneg_r; lia).
      nia. }
    rewrite two_pow_Z in H1 by lia.
    unfold q. apply Qle_shift_div_r; [exact Hc0|].
    assert (E : inject_Z m / 2 ^ j * inject_Z c == inject_Z m * inject_Z c / 2 ^ j).
    { field. apply Qnot_eq_sym, Qlt_not_eq, two_pow_pos. }
    rewrite E. apply Qle_shift_div_l; [apply two_pow_pos | exact H1]. }
  assert (Um : inject_Z m / 2 ^ j < inject_Z k + 1).
  { apply Qlt_shift_div_r; [apply two_pow_pos|].
    rewrite <- (two_pow_Z j) by lia. change 1 with (inject_Z 1).
    rewrite <- inject_Z_plus, <- inject_Z_mult, <- Zlt_Qlt. unfold m. lia. }
  destruct (Z.eq_dec a 0%Z) as [-> | Hane].
  { rewrite fl_0; [reflexivity|]. change (inject_Z 0) with 0. unfold Qdiv. apply Qmult_0_l. }
  assert (Hq : 0 < q).
  { unfold q. apply Qlt_shift_div_l; [exact Hc0|]. rewrite Qmult_0_l.
    change 0 with (inject_Z 0). rewrite <- Zlt_Qlt. lia. }
  assert (Hm : (0 < m < 2 ^ 53)%Z) by (unfold m; nia).
  assert (Ur : round_pos q < inject_Z k + 1).
  { eapply Qle_lt_trans; [|exact Um]. rewrite <- (round_pos_dyadic m j Hm Hj).
    apply round_pos_mono; [exact Hq | exact Uq]. }
  assert (Lr : inject_Z k <= round_pos q).
  { destruct (Z.eq_dec k 0%Z) as [E | E]; [rewrite E; now apply round_pos_nonneg|].
    rewrite <- (round_pos_Z k) by lia. apply round_pos_mono; [|exact Lq].
    change 0 with (inject_Z 0). rewrite <- Zlt_Qlt. lia. }
  rewrite fl_pos; [|exact Hq|].
  - unfold Math_floor. now rewrite (Qfloor_unique _ k Lr Ur).
  - eapply Qlt_trans; [exact Ur|]. eapply Qlt_trans; [|apply two_pow_53_lt].
    change 1 with (inject_Z 1). rewrite <- inject_Z_plus, <- Zlt_Qlt. exact Hk53.
Qed.

(** An integer below 2^53 in absolute value is a double. *)
Lemma fl_Z (q : Q) (n : Z) :
  q == inject_Z n -> (- 2 ^ 53 < n < 2 ^ 53)%Z -> fl q = of_Z n.
Proof.
  intros Hq Hn. destruct (Z.lt_trichotomy n 0) as [Hneg | [-> | Hpos]].
  - assert (Hq' : - q == inject_Z (- n)) by (rewrite Hq, inject_Z_opp; reflexivity).
    assert (E : round_pos (- q) = inject_Z (- n)) by (apply round_pos_int; [lia | exact Hq']).
    assert (Hnum : (Qnum q < 0)%Z).
    { assert (H : q < 0).
      { rewrite Hq. change 0 with (inject_Z 0). rewrite <- Zlt_Qlt. exact Hneg. }
      unfold Qlt in H. cbn in H. lia. }
    unfold fl, flq. destruct (Qnum q) as [|p|p] eqn:En; try lia. rewrite E.
    assert (B : inject_Z (- n) < 2 ^ 1024).
    { eapply Qlt_trans; [|apply two_pow_53_lt]. rewrite <- Zlt_Qlt. lia. }
    assert (P : 0 < inject_Z (- n)) by (change 0 with (inject_Z 0); rewrite <- Zlt_Qlt; lia).
    destruct (Qle_bool (2 ^ 1024) (- inject_Z (- n))) eqn:E1.
    { apply Qle_bool_iff in E1. exfalso. pose proof (two_pow_pos 1024). lra. }
    destruct (Qle_bool (- inject_Z (- n)) (- 2 ^ 1024)) eqn:E2.
    { apply Qle_bool_iff in E2. exfalso. lra. }
    unfold of_Z, inject_Z, Qopp. cbn [Qnum Qden]. now rewrite Z.opp_involutive.
  - now apply fl_0.
  - rewrite fl_pos.
    + unfold of_Z. f_equal. apply round_pos_int; [lia | exact Hq].
    + rewrite Hq. change 0 with (inject_Z 0). now rewrite <- Zlt_Qlt.
    + rewrite (round_pos_int q n) by (lia || exact Hq).
      eapply Qlt_trans; [|apply two_pow_53_lt]. rewrite <- Zlt_Qlt. lia.
Qed.

(** A negative quotient stays negative or zero. *)
Lemma fl_neg (q : Q) :
  q < 0 -> - inject_Z (2 ^ 52) <= q -> exists r, fl q = Fin r /\ r <= 0.
Proof.
  intros Hq Hb.
  assert (Hnum : (Qnum q < 0)%Z) by (unfold Qlt in Hq; cbn in Hq; lia).
  assert (Hp : 0 < - q) by lra.
  assert (U : round_pos (- q) <= inject_Z (2 ^ 52)).
  { rewrite <- (round_pos_Z (2 ^ 52)) by lia. apply round_pos_mono; [exact Hp | lra]. }
  pose proof (round_pos_nonneg (- q) Hp) as L.
  assert (B : inject_Z (2 ^ 52) < 2 ^ 1024).
  { eapply Qlt_trans; [|apply two_pow_53_lt]. rewrite <- Zlt_Qlt. lia. }
  unfold fl, flq. destruct (Qnum q) as [|p|p] eqn:En; try lia.
  destruct (Qle_bool (2 ^ 1024) (- round_pos (- q))) eqn:E1.
  { apply Qle_bool_iff in E1. exfalso. pose proof (two_pow_pos 1024). lra. }
  destruct (Qle_bool (- round_pos (- q)) (- 2 ^ 1024)) eqn:E2.
  { apply Qle_bool_iff in E2. exfalso. lra. }
  eexists. split; [reflexivity|]. lra.
Qed.

Lemma js_lt_int (a b : Z) : js_lt (of_Z a) (of_Z b) = true <-> (a < b)%Z.
Proof. apply (js_gt_int b a). Qed.

Lemma js_lt_int_false (a b : Z) : (b <= a)%Z -> js_lt (of_Z a) (of_Z b) = false.
Proof.
  intros H. apply not_true_is_false. intros E. apply js_lt_int in E. lia.
Qed.

(** X30. The age of an activity, as the dashboard words it.  With [d]
    the milliseconds from the activity to now: "Just now" below one
    minute, a date in the future included; then the whole number of
    minutes, of hours and of days, always in the plural ("1 minutes
    ago"), the divisions in double precision giving the whole quotients;
    from seven days on, the date itself. *)
Theorem getTimeAgo_labels (toLocaleDateString : number -> string) (today t : Z) :
  (- 2 ^ 52 < today - t < 2 ^ 52)%Z ->
  let d := (today - t)%Z in
  let label := getTimeAgo toLocaleDateString today (of_Z t) in
  ((d < 60000)%Z -> label = "Just now")
  /\ ((60000 <= d < 3600000)%Z ->
      label = pretty (d / 60000)%Z ++ " minutes ago" /\ (1 <= d / 60000 <= 59)%Z)
  /\ ((3600000 <= d < 86400000)%Z ->
      label = pretty (d / 3600000)%Z ++ " hours ago" /\ (1 <= d / 3600000 <= 23)%Z)
  /\ ((86400000 <= d < 604800000)%Z ->
      label = pretty (d / 86400000)%Z ++ " days ago" /\ (1 <= d / 86400000 <= 6)%Z)
  /\ ((604800000 <= d)%Z -> label = toLocaleDateString (of_Z t)).
Proof.
  intros Hd d label. subst label. unfold getTimeAgo, js_sub.
  assert (Ed : js_add (of_Z today) (js_neg (of_Z t)) = of_Z d).
  { unfold js_add, js_neg, of_Z. apply fl_Z; [|unfold d; lia].
    unfold d, Z.sub. rewrite inject_Z_plus, inject_Z_opp. reflexivity. }
  rewrite Ed. clear Ed.
  destruct (Z.lt_ge_cases d 0) as [Hneg | Hpos].
  - (* a date in the future *)
    assert (Hq : inject_Z d / inject_Z 1000 < 0).
    { apply Qlt_shift_div_r; [reflexivity|]. rewrite Qmult_0_l.
      change 0 with (inject_Z 0). now rewrite <- Zlt_Qlt. }
    assert (Hb : - inject_Z (2 ^ 52) <= inject_Z d / inject_Z 1000).
    { apply Qle_shift_div_l; [reflexivity|]. rewrite <- inject_Z_opp, <- inject_Z_mult.
      rewrite <- Zle_Qle. unfold d in *. lia. }
    destruct (fl_neg _ Hq Hb) as (r & Er & Hr).
    assert (Es : js_lt (Math_floor (js_div (of_Z d) (of_Z 1000))) (of_Z 60) = true).
    { unfold js_div, of_Z. change (Qeq_bool (inject_Z 1000) 0) with false. rewrite Er.
      unfold Math_floor, js_lt, Qlt_bool. apply negb_true_iff, not_true_is_false.
      intros H. apply Qle_bool_iff in H. rewrite <- Zle_Qle in H.
      assert (Hf : (Qfloor r <= 0)%Z).
      { rewrite <- (Qfloor_Z 0). now apply Qfloor_resp_le. }
      lia. }
    rewrite Es. repeat split; intros; try reflexivity; lia.
  - assert (Es : Math_floor (js_div (of_Z d) (of_Z 1000)) = of_Z (d / 1000)).
    { apply (floor_div_exact d 1000 10); try lia.
      assert (d / 1000 < 2 ^ 43 - 1)%Z by (apply Z.div_lt_upper_bound; unfold d in *; lia).
      lia. }
    rewrite Es. set (s := (d / 1000)%Z).
    assert (Hs : (0 <= s < 2 ^ 43)%Z).
    { unfold s. split; [apply Z.div_pos; lia|].
      apply Z.div_lt_upper_bound; unfold d in *; lia. }
    assert (Hsd : (1000 * s <= d < 1000 * s + 1000)%Z).
    { unfold s. pose proof (Z.mul_div_le d 1000). pose proof (Z.mul_succ_div_gt d 1000). lia. }
    assert (E60 : Math_floor (js_div (of_Z s) (of_Z 60)) = of_Z (d / 60000)).
    { rewrite (floor_div_exact s 60 6); try lia.
      - unfold s. rewrite Z.div_div by lia. reflexivity.
      - assert (s / 60 < 2 ^ 43)%Z by (apply Z.div_lt_upper_bound; lia). lia. }
    assert (E3600 : Math_floor (js_div (of_Z s) (of_Z 3600)) = of_Z (d / 3600000)).
    { rewrite (floor_div_exact s 3600 12); try lia.
      - unfold s. rewrite Z.div_div by lia. reflexivity.
      - assert (s / 3600 < 2 ^ 40)%Z by (apply Z.div_lt_upper_bound; lia). lia. }
    assert (E86400 : Math_floor (js_div (of_Z s) (of_Z 86400)) = of_Z (d / 86400000)).
    { rewrite (floor_div_exact s 86400 17); try lia.
      - unfold s. rewrite Z.div_div by lia. reflexivity.
      - assert (s / 86400 < 2 ^ 35)%Z by (apply Z.div_lt_upper_bound; lia). lia. }
    rewrite E60, E3600, E86400, !number_to_string_int.
    split; [|split; [|split; [|split]]]; intros H.
    + rewrite (proj2 (js_lt_int s 60)) by lia. reflexivity.
    + rewrite (js_lt_int_false s 60) by lia.
      rewrite (proj2 (js_lt_int s 3600)) by lia. split; [reflexivity|].
      split; [apply Z.div_le_lower_bound; lia | ].
      assert (d / 60000 < 60)%Z by (apply Z.div_lt_upper_bound; lia). lia.
    + rewrite (js_lt_int_false s 60), (js_lt_int_false s 3600) by lia.
      rewrite (proj2 (js_lt_int s 86400)) by lia. split; [reflexivity|].
      split; [apply Z.div_le_lower_bound; lia | ].
      assert (d / 3600000 < 24)%Z by (apply Z.div_lt_upper_bound; lia). lia.
    + rewrite (js_lt_int_false s 60), (js_lt_int_false s 3600),
        (js_lt_int_false s 86400) by lia.
      rewrite (proj2 (js_lt_int s 604800)) by lia. split; [reflexivity|].
      split; [apply Z.div_le_lower_bound; lia | ].
      assert (d / 86400000 < 7)%Z by (apply Z.div_lt_upper_bound; lia). lia.
    + rewrite (js_lt_int_false s 60), (js_lt_int_false s 3600),
        (js_lt_int_false s 86400), (js_lt_int_false s 604800) by lia.
      reflexivity.
Qed.

Lemma getTimeAgo_labels_witness :
  getTimeAgo (fun _ => "6/3/2024") 1709719290000 (of_Z 1709719200000)
  = pretty 1%Z ++ " minutes ago".
Proof.
  apply (getTimeAgo_labels (fun _ => "6/3/2024") 1709719290000 1709719200000); vm_compute;
    split; (reflexivity || discriminate).
Defined.

End Quotients.
